(** * Rebalancing and maker-order execution engine: a shallow embedding

    The development follows [services/maker_order_executor.py],
    [services/maker_order_config.py], [services/order_executor.py] and
    [services/position_manager.py], and the part of [place_order] in
    [clients/asterdex_client.py] that builds the order result.

    Numbers.  Python's [Decimal] values (and the few [float]s that take part
    in the same formulas) are embedded as exact rationals [Q]; the 28-digit
    context precision of [decimal] and binary rounding of [float] are not
    modelled.  Comparisons are the boolean ones of [QArith], equality of
    quantities is [Qeq] ([==]).

    Effects.  Every call to the exchange client and to the clock is answered
    by an oracle ([Gateway]) indexed by the number of earlier calls of the
    same kind; the calls made are recorded, newest first, in the [trace] of
    the [World].  The order executor has the same for its own calls
    ([OrderExecutor.Exchange], [OrderExecutor.State]) and runs its maker
    executor on the [World] it carries.  Loops take fuel; that the fuel is
    enough is proved for clocks that advance ([clock_advances]). *)

From Stdlib Require Import ZArith QArith Qround Qabs Qpower Lia Lqa Bool List Ascii String.
From stdpp Require Import base option gmap strings.
Import ListNotations.

#[local] Open Scope Q_scope.
#[local] Open Scope string_scope.

(** ** Decimal arithmetic *)

Module Decimal.

(** [a < b] and [a > b] on decimals, as booleans. *)
Definition ltb (a b : Q) : bool := negb (Qle_bool b a).
Definition gtb (a b : Q) : bool := ltb b a.
Definition leb (a b : Q) : bool := Qle_bool a b.
Definition geb (a b : Q) : bool := Qle_bool b a.
Definition eqb (a b : Q) : bool := Qeq_bool a b.

(** [Decimal.to_integral_value()] with no argument rounds with the rounding
    mode of the current context; nothing in the repository changes the
    context, so the mode is the default one, ROUND_HALF_EVEN. *)
Definition to_integral_value (x : Q) : Z :=
  let n := Qnum x in
  let d := Zpos (Qden x) in
  let fl := (n / d)%Z in
  let r := (n mod d)%Z in
  match (2 * r ?= d)%Z with
  | Lt => fl
  | Gt => (fl + 1)%Z
  | Eq => if Z.even fl then fl else (fl + 1)%Z
  end.

(** [Decimal(10) ** precision]. *)
Definition pow10 (precision : Z) : Q := Qpower 10 precision.

(** [a / b]: raises (here [None]) on a zero divisor. *)
Definition div (a b : Q) : option Q :=
  if eqb b 0 then None else Some (a / b).

End Decimal.

(** ** Client types used by the engine ([clients/asterdex_client.py]) *)

Inductive OrderSide := BUY | SELL.

Definition OrderSide_eqb (a b : OrderSide) : bool :=
  match a, b with
  | BUY, BUY | SELL, SELL => true
  | _, _ => false
  end.

(** ** Symbol tables of [MakerOrderExecutor] *)

Definition QUANTITY_PRECISION : gmap string Z :=
  <["SOLUSDT" := 2%Z]> (<["ETHUSDT" := 3%Z]> (<["BTCUSDT" := 3%Z]> ∅)).

Definition MIN_QUANTITY : gmap string Q :=
  <["SOLUSDT" := 1 # 100]> (<["ETHUSDT" := 1 # 1000]> (<["BTCUSDT" := 1 # 1000]> ∅)).

(** [dict.get(key, default)] *)
Definition dict_get {V} (d : gmap string V) (k : string) (default : V) : V :=
  match d !! k with
  | Some v => v
  | None => default
  end.

(** [_round_quantity] (the maker executor and the order executor have the
    same body). *)
Definition _round_quantity (trading_pair : string) (quantity : Q) : Q :=
  let precision := dict_get QUANTITY_PRECISION trading_pair 2%Z in
  let factor := Decimal.pow10 precision in
  let rounded := inject_Z (Decimal.to_integral_value (quantity * factor)) / factor in
  let min_qty := dict_get MIN_QUANTITY trading_pair (1 # 1000) in
  if Decimal.ltb rounded min_qty then 0 else rounded.

(** The rule the documentation of [_round_quantity] states (round down at the
    symbol's precision, zero below the minimum order size), written directly
    from that description so that it can be compared with the code. *)
Definition floor_round_quantity (precision : Z) (min_qty : Q) (quantity : Q) : Q :=
  let factor := Decimal.pow10 precision in
  let floored := inject_Z (Qfloor (quantity * factor)) / factor in
  if Decimal.geb floored min_qty then floored else 0.

(** ** Configuration ([services/maker_order_config.py]) *)

Record MakerOrderConfig := {
  order_timeout : Q;
  check_interval_ms : Z;
  price_tolerance : Q;
  max_iterations : Z;
  total_timeout : Q;
  partial_fill_threshold : Q;
  min_remaining_ratio : Q;
  split_order_enabled : bool;
  split_order_threshold : Q;
  split_order_min_value : Q;
  split_order_max_value : Q;
  split_order_random : bool;
  price_precision : gmap string Z
}.

(** The defaults of the dataclass, [__post_init__] included. *)
Definition default_config : MakerOrderConfig := {|
  order_timeout := 5;
  check_interval_ms := 200;
  price_tolerance := 2 # 10000;
  max_iterations := 120;
  total_timeout := 600;
  partial_fill_threshold := 95 # 100;
  min_remaining_ratio := 5 # 100;
  split_order_enabled := true;
  split_order_threshold := 500;
  split_order_min_value := 100;
  split_order_max_value := 300;
  split_order_random := true;
  price_precision :=
    <["SOLUSDT" := 2%Z]> (<["ETHUSDT" := 2%Z]> (<["BTCUSDT" := 1%Z]> ∅))
|}.

Definition with_min_remaining_ratio (r : Q) (c : MakerOrderConfig) : MakerOrderConfig := {|
  order_timeout := order_timeout c;
  check_interval_ms := check_interval_ms c;
  price_tolerance := price_tolerance c;
  max_iterations := max_iterations c;
  total_timeout := total_timeout c;
  partial_fill_threshold := partial_fill_threshold c;
  min_remaining_ratio := r;
  split_order_enabled := split_order_enabled c;
  split_order_threshold := split_order_threshold c;
  split_order_min_value := split_order_min_value c;
  split_order_max_value := split_order_max_value c;
  split_order_random := split_order_random c;
  price_precision := price_precision c
|}.

(** ** Pure helpers of [MakerOrderExecutor] *)

(** The second component of [_should_replace_order]'s result is a log
    message; only its kind is kept. *)
Inductive ReplaceReason :=
| NoReason
| ChaseAskUp
| ChaseBidDown
| DriftOverTolerance.

Section Helpers.

Variable config : MakerOrderConfig.

(** [_round_price] *)
Definition _round_price (trading_pair : string) (price : Q) : Q :=
  let precision := dict_get (price_precision config) trading_pair 2%Z in
  let factor := Decimal.pow10 precision in
  inject_Z (Decimal.to_integral_value (price * factor)) / factor.

(** [_should_replace_order] *)
Definition _should_replace_order (side : OrderSide) (order_price current_best_price : Q)
  : bool * ReplaceReason :=
  if Decimal.eqb order_price 0 then (false, NoReason)
  else
    let price_change := Qabs (current_best_price - order_price) / order_price in
    if OrderSide_eqb side SELL && Decimal.gtb current_best_price order_price
    then (true, ChaseAskUp)
    else if negb (OrderSide_eqb side SELL) && Decimal.ltb current_best_price order_price
    then (true, ChaseBidDown)
    else if Decimal.gtb price_change (price_tolerance config)
    then (true, DriftOverTolerance)
    else (false, NoReason).

End Helpers.


(** ** Order splitting *)

(** How a call ends: with a value or with a Python exception. *)
Inductive Raisable (A : Type) :=
| Value (a : A)
| Exception (msg : string).
Arguments Value {A} a.
Arguments Exception {A} msg.

Section Splitting.

Variable config : MakerOrderConfig.
(** [draws n] is the value of the [n]-th call of [random.uniform]. *)
Variable draws : nat -> Q.
Variable trading_pair : string.
Variable price : Q.

(** The [while remaining_value > 0] loop of [_split_order]; [None] when the
    fuel runs out. *)
Fixpoint split_loop (fuel n_draw : nat) (remaining_value : Q) (split_quantities : list Q)
  : option (Raisable (list Q)) :=
  match fuel with
  | O => None
  | S fuel' =>
    if Decimal.gtb remaining_value 0 then
      let min_val := split_order_min_value config in
      let max_val := split_order_max_value config in
      let '(split_value, n_draw') :=
        if Decimal.leb remaining_value max_val then (remaining_value, n_draw)
        else if split_order_random config then (draws n_draw, S n_draw)
        else ((min_val + max_val) / 2, n_draw) in
      match Decimal.div split_value price with
      | None => Some (Exception "DivisionByZero")
      | Some q0 =>
        let split_qty := _round_quantity trading_pair q0 in
        if Decimal.gtb split_qty 0 then
          match Decimal.div remaining_value price with
          | None => Some (Exception "DivisionByZero")
          | Some remaining_qty =>
            let split_qty :=
              if Decimal.gtb split_qty remaining_qty
              then _round_quantity trading_pair remaining_qty
              else split_qty in
            if Decimal.gtb split_qty 0
            then split_loop fuel' n_draw' (remaining_value - split_qty * price)
                            (split_quantities ++ [split_qty])
            else split_loop fuel' n_draw' remaining_value split_quantities
          end
        else Some (Value split_quantities)
      end
    else Some (Value split_quantities)
  end.

(** [_split_order] *)
Definition _split_order (fuel : nat) (quantity : Q) : option (Raisable (list Q)) :=
  if negb (split_order_enabled config) then Some (Value [quantity])
  else
    let order_value := quantity * price in
    if Decimal.ltb order_value (split_order_threshold config) then Some (Value [quantity])
    else
      match split_loop fuel 0 order_value [] with
      | Some (Value []) => Some (Value [quantity])
      | r => r
      end.

End Splitting.

(** [sum(clips)] *)
Definition Qsum (l : list Q) : Q := fold_right Qplus 0 l.


(** ** Results and deltas *)

Inductive MakerExecutionStatus := SUCCESS | PARTIAL | FAILED | SKIPPED.

Module MakerExecutionResult.
Record t := {
  symbol : string;
  status : MakerExecutionStatus;
  target_quantity : Q;
  filled_quantity : Q;
  average_price : Q;
  iterations : Z;
  elapsed_seconds : Q;
  error : option string
}.
End MakerExecutionResult.

(** [PositionDelta] of [services/position_manager.py] *)
Module PositionDelta.
Record t := {
  symbol : string;
  target : Q;
  current : Q;
  delta : Q;
  delta_value_usd : Q
}.
End PositionDelta.

(** ** The exchange gateway and the clock *)

(** The fields of [OrderResult] the maker engine reads. *)
Record OrderResult := {
  success : bool;
  order_id : option string;
  status : option string;
  error : option string
}.

(** The JSON object [get_depth] returns: price levels, best first. *)
Record Depth := {
  bids : list (Q * Q);
  asks : list (Q * Q)
}.

(** What [client.get_order] does: it returns the order's JSON object, of which
    the engine reads ["status"] and ["executedQty"], or it raises; of an
    exception only whether its message contains ["Unknown order"] or
    ["Order does not exist"] matters. *)
Inductive GetOrderAnswer :=
| OrderDict (status : string) (executedQty : Q)
| GetOrderError (says_unknown_order : bool).

Record Gateway := {
  clock : nat -> Q;
  get_depth : nat -> Raisable Depth;
  get_order : nat -> GetOrderAnswer;
  place_order : nat -> Raisable OrderResult;
  cancel_order : nat -> Raisable bool
}.

Inductive Event :=
| EvDepth (answer : Raisable Depth)
| EvGetOrder (id : string) (answer : GetOrderAnswer)
| EvPlace (side : OrderSide) (quantity price : Q) (reduce_only : bool)
          (answer : Raisable OrderResult)
| EvCancel (id : string) (answer : Raisable bool)
| EvSleep (seconds : Q).

Record World := {
  n_clock : nat;
  n_depth : nat;
  n_get_order : nat;
  n_place : nat;
  n_cancel : nat;
  trace : list Event
}.

Definition fresh_world : World :=
  {| n_clock := 0; n_depth := 0; n_get_order := 0; n_place := 0; n_cancel := 0; trace := [] |}.

(** Computations that talk to the gateway: a state monad over [World];
    [None] is a fuel-bounded loop that ran out of fuel. *)
Definition M (A : Type) : Type := World -> option (A * World).

Definition ret {A} (a : A) : M A := fun w => Some (a, w).

Definition bind {A B} (m : M A) (k : A -> M B) : M B :=
  fun w => match m w with
           | Some (a, w') => k a w'
           | None => None
           end.

Definition out_of_fuel {A} : M A := fun _ => None.

Notation "'let*' x ':=' m 'in' k" := (bind m (fun x => k))
  (at level 10, x pattern, m at level 200, k at level 200).

Section Engine.

Variable config : MakerOrderConfig.
Variable gw : Gateway.

(** [time.time()] *)
Definition time_time : M Q := fun w =>
  Some (clock gw (n_clock w),
        {| n_clock := S (n_clock w); n_depth := n_depth w; n_get_order := n_get_order w;
           n_place := n_place w; n_cancel := n_cancel w; trace := trace w |}).

(** [asyncio.sleep] *)
Definition sleep (seconds : Q) : M unit := fun w =>
  Some (tt,
        {| n_clock := n_clock w; n_depth := n_depth w; n_get_order := n_get_order w;
           n_place := n_place w; n_cancel := n_cancel w;
           trace := EvSleep seconds :: trace w |}).

Definition client_get_depth : M (Raisable Depth) := fun w =>
  let a := get_depth gw (n_depth w) in
  Some (a,
        {| n_clock := n_clock w; n_depth := S (n_depth w); n_get_order := n_get_order w;
           n_place := n_place w; n_cancel := n_cancel w;
           trace := EvDepth a :: trace w |}).

(** [Optional[str]] used as a condition: [None] and the empty string are
    false. *)
Definition truthy (id : option string) : bool :=
  match id with
  | Some s => negb (String.eqb s "")
  | None => false
  end.

(** [client.get_order(trading_pair, order_id=...)]: without a usable id the
    client raises [ValueError] before any request is sent. *)
Definition client_get_order (id : option string) : M GetOrderAnswer := fun w =>
  match id with
  | Some s =>
    if String.eqb s "" then Some (GetOrderError false, w)
    else
      let a := get_order gw (n_get_order w) in
      Some (a,
            {| n_clock := n_clock w; n_depth := n_depth w; n_get_order := S (n_get_order w);
               n_place := n_place w; n_cancel := n_cancel w;
               trace := EvGetOrder s a :: trace w |})
  | None => Some (GetOrderError false, w)
  end.

(** [client.cancel_order(trading_pair, order_id=...)], called with a
    non-empty id only. *)
Definition client_cancel_order (id : option string) : M (Raisable bool) := fun w =>
  match id with
  | Some s =>
    if String.eqb s "" then Some (Exception "ValueError", w)
    else
      let a := cancel_order gw (n_cancel w) in
      Some (a,
            {| n_clock := n_clock w; n_depth := n_depth w; n_get_order := n_get_order w;
               n_place := n_place w; n_cancel := S (n_cancel w);
               trace := EvCancel s a :: trace w |})
  | None => Some (Exception "ValueError", w)
  end.

(** [_place_maker_order]: a post-only (GTX) limit order. *)
Definition _place_maker_order (side : OrderSide) (quantity price : Q) (reduce_only : bool)
  : M (Raisable OrderResult) := fun w =>
  let a := place_order gw (n_place w) in
  Some (a,
        {| n_clock := n_clock w; n_depth := n_depth w; n_get_order := n_get_order w;
           n_place := S (n_place w); n_cancel := n_cancel w;
           trace := EvPlace side quantity price reduce_only a :: trace w |}).

(** [_get_orderbook] *)
Definition _get_orderbook : M (Raisable (Q * Q)) :=
  let* depth := client_get_depth in
  match depth with
  | Exception e => ret (Exception e)
  | Value d =>
    match bids d, asks d with
    | (bid1, _) :: _, (ask1, _) :: _ => ret (Value (bid1, ask1))
    | _, _ => ret (Exception "ValueError")
    end
  end.

(** [_get_order_status] *)
Definition _get_order_status (id : option string) : M (string * Q) :=
  let* order := client_get_order id in
  match order with
  | OrderDict status filled => ret (status, filled)
  | GetOrderError true => ret ("NOT_FOUND", 0)
  | GetOrderError false => ret ("UNKNOWN", 0)
  end.

(** *** The maker loop *)

Variable trading_pair : string.
Variable side : OrderSide.
Variable target_quantity : Q.
Variable reduce_only : bool.

(** The local variables of [_execute_maker_loop] that live across
    iterations. *)
Record LoopState := {
  total_filled : Q;
  total_value : Q;
  remaining : Q;
  iterations : Z;
  current_order_id : option string;
  current_order_price : Q
}.

Definition initial_state : LoopState :=
  {| total_filled := 0; total_value := 0; remaining := target_quantity; iterations := 0;
     current_order_id := None; current_order_price := 0 |}.

(** [total_filled += x; total_value += x * current_order_price; remaining -= x] *)
Definition fold_fill (x : Q) (st : LoopState) : LoopState :=
  {| total_filled := total_filled st + x;
     total_value := total_value st + x * current_order_price st;
     remaining := remaining st - x;
     iterations := iterations st;
     current_order_id := current_order_id st;
     current_order_price := current_order_price st |}.

(** [if filled > 0:] then the three updates above. *)
Definition fold_if_positive (filled : Q) (st : LoopState) : LoopState :=
  if Decimal.gtb filled 0 then fold_fill filled st else st.

(** [total_filled += remaining; total_value += remaining * current_order_price;
    remaining = Decimal("0")] *)
Definition fold_remaining (st : LoopState) : LoopState :=
  {| total_filled := total_filled st + remaining st;
     total_value := total_value st + remaining st * current_order_price st;
     remaining := 0;
     iterations := iterations st;
     current_order_id := current_order_id st;
     current_order_price := current_order_price st |}.

(** [current_order_id = None; current_order_price = Decimal("0")] *)
Definition clear_order (st : LoopState) : LoopState :=
  {| total_filled := total_filled st;
     total_value := total_value st;
     remaining := remaining st;
     iterations := iterations st;
     current_order_id := None;
     current_order_price := 0 |}.

(** [iterations += 1] *)
Definition count_iteration (st : LoopState) : LoopState :=
  {| total_filled := total_filled st;
     total_value := total_value st;
     remaining := remaining st;
     iterations := iterations st + 1;
     current_order_id := current_order_id st;
     current_order_price := current_order_price st |}.

Definition set_order (id : option string) (price : Q) (st : LoopState) : LoopState :=
  {| total_filled := total_filled st;
     total_value := total_value st;
     remaining := remaining st;
     iterations := iterations st;
     current_order_id := id;
     current_order_price := price |}.

(** Where control goes after a part of the loop body: on to the next
    statement, to the next iteration ([continue]), out of the loop
    ([break]), or to the [except] clause of the function. *)
Inductive Flow :=
| Proceed (st : LoopState)
| Continue (st : LoopState)
| Break (st : LoopState)
| Raise (st : LoopState) (msg : string).

Definition status_in (s : string) (l : list string) : bool := existsb (String.eqb s) l.

(** The branch taken when [cancel_order] returned [False]: query the status
    again and decide from that answer. *)
Definition after_failed_cancel (st : LoopState) : M Flow :=
  let* (status2, filled2) := _get_order_status (current_order_id st) in
  let st1 :=
    if String.eqb status2 "FILLED" || String.eqb status2 "NOT_FOUND"
    then
      let actual_filled := if Decimal.gtb filled2 0 then filled2 else remaining st in
      fold_fill actual_filled st
    else st in
  ret (Continue (count_iteration (clear_order st1))).

(** [if current_order_id: ...] at the top of the body: the replace check. *)
Definition replace_check (best_price : Q) (st : LoopState) : M Flow :=
  if truthy (current_order_id st) then
    let '(should_replace, reason) :=
      _should_replace_order config side (current_order_price st) best_price in
    if should_replace then
      let* (status, filled) := _get_order_status (current_order_id st) in
      if status_in status ["FILLED"; "CANCELED"; "EXPIRED"; "REJECTED"] then
        ret (Continue (clear_order (fold_if_positive filled st)))
      else if String.eqb status "NOT_FOUND" then
        ret (Continue (clear_order (fold_remaining st)))
      else
        let* cancelled := client_cancel_order (current_order_id st) in
        match cancelled with
        | Exception e => ret (Raise st e)
        | Value true =>
          ret (Proceed (clear_order (count_iteration (fold_if_positive filled st))))
        | Value false => after_failed_cancel st
        end
    else ret (Proceed st)
  else ret (Proceed st).

(** [if current_order_id is None: ...]: place the remaining quantity. *)
Definition place_if_none (best_price rounded_remaining : Q) (st : LoopState) : M Flow :=
  match current_order_id st with
  | None =>
    let* result :=
      _place_maker_order side rounded_remaining best_price reduce_only in
    match result with
    | Exception e => ret (Raise st e)
    | Value r =>
      if success r then
        let st1 := set_order (order_id r) best_price st in
        match status r with
        | Some s =>
          if String.eqb s "REJECTED" then
            let* _ := sleep (1 # 10) in
            ret (Continue (clear_order st1))
          else ret (Proceed st1)
        | None => ret (Proceed st1)
        end
      else
        let* _ := sleep (1 # 2) in
        ret (Continue st)
    end
  | Some _ => ret (Proceed st)
  end.

(** The wait window: [while time.time() - order_start < order_timeout]. *)
Fixpoint wait_window (fuel : nat) (order_start : Q) (st : LoopState) : M LoopState :=
  match fuel with
  | O => out_of_fuel
  | S fuel' =>
    let* now := time_time in
    if Decimal.ltb (now - order_start) (order_timeout config) then
      let* _ := sleep (inject_Z (check_interval_ms config) / 1000) in
      let* (status, filled) := _get_order_status (current_order_id st) in
      if String.eqb status "FILLED" then
        ret (clear_order (fold_fill filled st))
      else if status_in status ["CANCELED"; "EXPIRED"; "REJECTED"] then
        ret (clear_order (fold_if_positive filled st))
      else if String.eqb status "NOT_FOUND" then
        ret (clear_order (fold_remaining st))
      else if String.eqb status "PARTIALLY_FILLED" then
        let* book := _get_orderbook in
        match book with
        | Value (new_bid1, new_ask1) =>
          let new_best := if OrderSide_eqb side SELL then new_ask1 else new_bid1 in
          if fst (_should_replace_order config side (current_order_price st) new_best)
          then ret st
          else wait_window fuel' order_start st
        | Exception _ => wait_window fuel' order_start st
        end
      else wait_window fuel' order_start st
    else ret st
  end.

(** [if current_order_id and time.time() - order_start >= order_timeout: ...]:
    the replace forced by the single-order timeout. *)
Definition timeout_replace (order_start : Q) (st : LoopState) : M Flow :=
  if truthy (current_order_id st) then
    let* now := time_time in
    if Decimal.geb (now - order_start) (order_timeout config) then
      let* (status, filled) := _get_order_status (current_order_id st) in
      if String.eqb status "NOT_FOUND" then
        ret (Continue (clear_order (fold_remaining st)))
      else if String.eqb status "FILLED" then
        ret (Continue (clear_order (fold_fill filled st)))
      else
        let* cancelled := client_cancel_order (current_order_id st) in
        match cancelled with
        | Exception e => ret (Raise st e)
        | Value false => after_failed_cancel st
        | Value true =>
          ret (Proceed (clear_order (count_iteration (fold_if_positive filled st))))
        end
    else ret (Proceed st)
  else ret (Proceed st).

(** One pass through the body of [while remaining > 0 and iterations <
    max_iterations]. *)
Definition loop_body (fuel : nat) (start_time : Q) (st : LoopState) : M Flow :=
  let* now := time_time in
  let elapsed := now - start_time in
  if Decimal.gtb elapsed (total_timeout config) then ret (Break st)
  else
    let* book := _get_orderbook in
    match book with
    | Exception _ =>
      let* _ := sleep 1 in
      ret (Continue st)
    | Value (bid1, ask1) =>
      let best_price := if OrderSide_eqb side SELL then ask1 else bid1 in
      let best_price := _round_price config trading_pair best_price in
      let* checked := replace_check best_price st in
      match checked with
      | Proceed st1 =>
        let rounded_remaining := _round_quantity trading_pair (remaining st1) in
        if Decimal.eqb rounded_remaining 0 then ret (Break st1)
        else
          let* placed := place_if_none best_price rounded_remaining st1 in
          match placed with
          | Proceed st2 =>
            let* order_start := time_time in
            let* st3 := wait_window fuel order_start st2 in
            timeout_replace order_start st3
          | other => ret other
          end
      | other => ret other
      end
    end.

(** The [while] loop inside the [try]: the state it ends in and, when an
    exception escaped the body, its message. *)
Fixpoint maker_loop (fuel : nat) (start_time : Q) (st : LoopState)
  : M (LoopState * option string) :=
  match fuel with
  | O => out_of_fuel
  | S fuel' =>
    if Decimal.gtb (remaining st) 0 && (iterations st <? max_iterations config)%Z then
      let* flow := loop_body fuel' start_time st in
      match flow with
      | Proceed st' | Continue st' => maker_loop fuel' start_time st'
      | Break st' => ret (st', None)
      | Raise st' e => ret (st', Some e)
      end
    else ret (st, None)
  end.

(** *** Building the result *)

(** [total_value / total_filled if total_filled > 0 else Decimal("0")] *)
Definition average_price_of (total_value total_filled : Q) : Raisable Q :=
  if Decimal.gtb total_filled 0 then
    match Decimal.div total_value total_filled with
    | Some q => Value q
    | None => Exception "DivisionByZero"
    end
  else Value 0.

(** [total_filled / target_quantity if target_quantity > 0 else Decimal("0")] *)
Definition fill_ratio_of (total_filled target : Q) : Raisable Q :=
  if Decimal.gtb target 0 then
    match Decimal.div total_filled target with
    | Some q => Value q
    | None => Exception "DivisionByZero"
    end
  else Value 0.

(** The [if / elif / else] that chooses the status. *)
Definition classify (fill_ratio total_filled : Q) : MakerExecutionStatus :=
  if Decimal.geb fill_ratio (partial_fill_threshold config) then SUCCESS
  else if Decimal.gtb total_filled 0 then PARTIAL
  else FAILED.

(** The [except Exception as e] clause. *)
Definition on_exception (start_time : Q) (st : LoopState) (e : string)
  : M (Raisable MakerExecutionResult.t) :=
  let* _ :=
    if truthy (current_order_id st)
    then let* _ := client_cancel_order (current_order_id st) in ret tt
    else ret tt in
  match average_price_of (total_value st) (total_filled st) with
  | Exception m => ret (Exception m)
  | Value avg =>
    let* now := time_time in
    ret (Value {| MakerExecutionResult.symbol := trading_pair;
                  MakerExecutionResult.status := FAILED;
                  MakerExecutionResult.target_quantity := target_quantity;
                  MakerExecutionResult.filled_quantity := total_filled st;
                  MakerExecutionResult.average_price := avg;
                  MakerExecutionResult.iterations := iterations st;
                  MakerExecutionResult.elapsed_seconds := now - start_time;
                  MakerExecutionResult.error := Some e |})
  end.

(** The code after the [try] statement. *)
Definition on_completion (start_time : Q) (st : LoopState)
  : M (Raisable MakerExecutionResult.t) :=
  let* now := time_time in
  let elapsed := now - start_time in
  match fill_ratio_of (total_filled st) target_quantity with
  | Exception m => ret (Exception m)
  | Value fill_ratio =>
    match average_price_of (total_value st) (total_filled st) with
    | Exception m => ret (Exception m)
    | Value avg_price =>
      ret (Value {| MakerExecutionResult.symbol := trading_pair;
                    MakerExecutionResult.status := classify fill_ratio (total_filled st);
                    MakerExecutionResult.target_quantity := target_quantity;
                    MakerExecutionResult.filled_quantity := total_filled st;
                    MakerExecutionResult.average_price := avg_price;
                    MakerExecutionResult.iterations := iterations st;
                    MakerExecutionResult.elapsed_seconds := elapsed;
                    MakerExecutionResult.error := None |})
    end
  end.

(** [_execute_maker_loop] *)
Definition _execute_maker_loop (fuel : nat) : M (Raisable MakerExecutionResult.t) :=
  let* start_time := time_time in
  let* (st, raised) := maker_loop fuel start_time initial_state in
  match raised with
  | Some e => on_exception start_time st e
  | None => on_completion start_time st
  end.

End Engine.

(** ** [execute_delta]: one rebalancing order, split into clips *)

Definition SYMBOL_MAPPING : gmap string string :=
  <["SOL" := "SOLUSDT"]> (<["ETH" := "ETHUSDT"]> (<["BTC" := "BTCUSDT"]> ∅)).

Definition _get_trading_pair (symbol : string) : string :=
  dict_get SYMBOL_MAPPING symbol (symbol ++ "USDT").

Section ExecuteDelta.

Variable config : MakerOrderConfig.
Variable gw : Gateway.
Variable draws : nat -> Q.

(** The running totals of the [for] loop over the clips. *)
Record Totals := {
  sum_filled : Q;
  sum_value : Q;
  sum_iterations : Z
}.

(** [for i, split_qty in enumerate(split_quantities): ...], which stops at
    the first clip that ends as [FAILED]. *)
Fixpoint run_clips (fuel : nat) (trading_pair : string) (side : OrderSide)
         (reduce_only : bool) (clips : list Q) (acc : Totals) : M (Raisable Totals) :=
  match clips with
  | [] => ret (Value acc)
  | split_qty :: rest =>
    let* result := _execute_maker_loop config gw trading_pair side split_qty reduce_only fuel in
    match result with
    | Exception m => ret (Exception m)
    | Value r =>
      let acc' :=
        {| sum_filled := sum_filled acc + MakerExecutionResult.filled_quantity r;
           sum_value := sum_value acc
                        + MakerExecutionResult.filled_quantity r
                          * MakerExecutionResult.average_price r;
           sum_iterations := (sum_iterations acc + MakerExecutionResult.iterations r)%Z |} in
      match MakerExecutionResult.status r with
      | FAILED => ret (Value acc')
      | _ => run_clips fuel trading_pair side reduce_only rest acc'
      end
    end
  end.

(** [execute_delta] *)
Definition execute_delta (fuel : nat) (d : PositionDelta.t)
  : M (Raisable MakerExecutionResult.t) :=
  let symbol := PositionDelta.symbol d in
  let trading_pair := _get_trading_pair symbol in
  let quantity := Qabs (PositionDelta.delta d) in
  let rounded_qty := _round_quantity trading_pair quantity in
  if Decimal.eqb rounded_qty 0 then
    ret (Value {| MakerExecutionResult.symbol := trading_pair;
                  MakerExecutionResult.status := SKIPPED;
                  MakerExecutionResult.target_quantity := quantity;
                  MakerExecutionResult.filled_quantity := 0;
                  MakerExecutionResult.average_price := 0;
                  MakerExecutionResult.iterations := 0;
                  MakerExecutionResult.elapsed_seconds := 0;
                  MakerExecutionResult.error := Some "数量小于最小下单量" |})
  else
    let* book := _get_orderbook gw in
    let current_price :=
      match book with
      | Value (bid1, ask1) => if Decimal.gtb (PositionDelta.delta d) 0 then ask1 else bid1
      | Exception _ => 0
      end in
    let split :=
      if Decimal.gtb current_price 0
      then _split_order config draws trading_pair current_price fuel rounded_qty
      else Some (Value [rounded_qty]) in
    match split with
    | None => out_of_fuel
    | Some (Exception m) => ret (Exception m)
    | Some (Value split_quantities) =>
      let* start_time := time_time gw in
      let side := if Decimal.gtb (PositionDelta.delta d) 0 then SELL else BUY in
      let reduce_only := Decimal.ltb (PositionDelta.delta d) 0 in
      let* totals :=
        run_clips fuel trading_pair side reduce_only split_quantities
                  {| sum_filled := 0; sum_value := 0; sum_iterations := 0 |} in
      match totals with
      | Exception m => ret (Exception m)
      | Value t =>
        let* now := time_time gw in
        let elapsed := now - start_time in
        match fill_ratio_of (sum_filled t) rounded_qty with
        | Exception m => ret (Exception m)
        | Value fill_ratio =>
          match average_price_of (sum_value t) (sum_filled t) with
          | Exception m => ret (Exception m)
          | Value avg_price =>
            ret (Value {| MakerExecutionResult.symbol := trading_pair;
                          MakerExecutionResult.status :=
                            classify config fill_ratio (sum_filled t);
                          MakerExecutionResult.target_quantity := rounded_qty;
                          MakerExecutionResult.filled_quantity := sum_filled t;
                          MakerExecutionResult.average_price := avg_price;
                          MakerExecutionResult.iterations := sum_iterations t;
                          MakerExecutionResult.elapsed_seconds := elapsed;
                          MakerExecutionResult.error := None |})
          end
        end
      end
    end.

End ExecuteDelta.

(** ** Position deltas ([services/position_manager.py]) *)

Module TargetHedgePosition.
Record t := {
  symbol : string;
  amount : Q;
  value_usd : Q;
  price : Q;
  weight : Q
}.
End TargetHedgePosition.

(** [Position] of [clients/asterdex_client.py] *)
Module Position.
Record t := {
  symbol : string;
  position_side : string;
  quantity : Q;
  entry_price : Q;
  mark_price : Q;
  unrealized_pnl : Q;
  leverage : Z;
  margin_type : string;
  isolated_margin : Q
}.
End Position.

(** The body of the [for symbol, target in target_positions.items()] loop of
    [calculate_deltas].  A [Position] object is always true as a condition, so
    [if current_pos:] tests that the symbol has an entry. *)
Definition delta_for (current_positions : gmap string Position.t)
           (symbol : string) (target : TargetHedgePosition.t) : PositionDelta.t :=
  let current_pos := current_positions !! symbol in
  let current_amount :=
    match current_pos with
    | Some pos => Qabs (Position.quantity pos)
    | None => 0
    end in
  let delta := TargetHedgePosition.amount target - current_amount in
  let delta_value := delta * TargetHedgePosition.price target in
  {| PositionDelta.symbol := symbol;
     PositionDelta.target := TargetHedgePosition.amount target;
     PositionDelta.current := current_amount;
     PositionDelta.delta := delta;
     PositionDelta.delta_value_usd := delta_value |}.

(** [calculate_deltas]: [deltas = {}], then one [deltas[symbol] = ...] per
    entry of [target_positions]. *)
Definition calculate_deltas (target_positions : gmap string TargetHedgePosition.t)
           (current_positions : gmap string Position.t) : gmap string PositionDelta.t :=
  map_fold (fun symbol target deltas => <[symbol := delta_for current_positions symbol target]> deltas)
           ∅ target_positions.

(** ** Predicates used to state the properties *)

(** [q] is a whole number of quantity steps of the trading pair. *)
Definition on_grid (trading_pair : string) (q : Q) : Prop :=
  exists k : Z,
    q == inject_Z k / Decimal.pow10 (dict_get QUANTITY_PRECISION trading_pair 2%Z).

(** The quantity of the order placed last. *)
Fixpoint last_placed (tr : list Event) : Q :=
  match tr with
  | [] => 0
  | EvPlace _ quantity _ _ _ :: _ => quantity
  | _ :: tr' => last_placed tr'
  end.

(** The executed quantity [_get_order_status] takes from an answer. *)
Definition reported (a : GetOrderAnswer) : Q :=
  match a with
  | OrderDict _ executedQty => executedQty
  | GetOrderError _ => 0
  end.

(** The exchange reports fills as they can occur: every executed quantity it
    reports is a whole number of steps, not negative and not more than the
    quantity of the order placed last. *)
Fixpoint fills_within_orders (trading_pair : string) (tr : list Event) : Prop :=
  match tr with
  | [] => True
  | EvGetOrder _ a :: tr' =>
    (0 <= reported a /\ reported a <= last_placed tr' /\ on_grid trading_pair (reported a))
    /\ fills_within_orders trading_pair tr'
  | _ :: tr' => fills_within_orders trading_pair tr'
  end.

(** The live order was taken as filled for all that remained. *)
Definition taken_as_filled (st st' : LoopState) : Prop :=
  total_filled st' == total_filled st + remaining st
  /\ total_value st' == total_value st + remaining st * current_order_price st
  /\ remaining st' == 0
  /\ current_order_id st' = None.

(** The quantities of a clip add up and nothing is over-filled. *)
Definition conserved (trading_pair : string) (target : Q) (st : LoopState) : Prop :=
  total_filled st + remaining st == target
  /\ 0 <= remaining st
  /\ on_grid trading_pair (remaining st).

(** A live order is for no more than what remains. *)
Definition order_bounded (st : LoopState) (w : World) : Prop :=
  truthy (current_order_id st) = true -> last_placed (trace w) <= remaining st.

(** [w'] is [w] after some more calls. *)
Definition extends (w w' : World) : Prop := trace w `suffix_of` trace w'.

Definition state_of (flow : Flow) : LoopState :=
  match flow with
  | Proceed st | Continue st | Break st | Raise st _ => st
  end.

(** Calls other than a placement leave the last placed order as it is. *)
Definition quiet (w w' : World) : Prop :=
  extends w w' /\ last_placed (trace w') = last_placed (trace w).

(** A part of the loop that takes state [st] and world [w] to [st'] and [w']
    keeps the two invariants, provided the exchange reported fills as they
    can occur. *)
Definition keeps_invariant (trading_pair : string) (target : Q)
           (st : LoopState) (w : World) (st' : LoopState) (w' : World) : Prop :=
  extends w w'
  /\ (conserved trading_pair target st -> order_bounded st w ->
      fills_within_orders trading_pair (trace w') ->
      conserved trading_pair target st' /\ order_bounded st' w').

(** What the re-query after a failed cancel does to the state. *)
Definition requery_outcome (status2 : string) (filled2 : Q) (st : LoopState) : LoopState :=
  count_iteration
    (clear_order
       (if String.eqb status2 "FILLED" || String.eqb status2 "NOT_FOUND"
        then fold_fill (if Decimal.gtb filled2 0 then filled2 else remaining st) st
        else st)).

(** ** Concrete gateways and inputs used in the examples below *)

Definition sol_target : TargetHedgePosition.t :=
  {| TargetHedgePosition.symbol := "SOL"; TargetHedgePosition.amount := 12;
     TargetHedgePosition.value_usd := 1200; TargetHedgePosition.price := 100;
     TargetHedgePosition.weight := 1 # 2 |}.

Definition eth_position : Position.t :=
  {| Position.symbol := "ETHUSDT"; Position.position_side := "SHORT";
     Position.quantity := - (3 # 1); Position.entry_price := 2000;
     Position.mark_price := 2000; Position.unrealized_pnl := 0;
     Position.leverage := 1; Position.margin_type := "cross";
     Position.isolated_margin := 0 |}.

(** A book with best bid 99.99 and best ask 100. *)
Definition steady_book : Raisable Depth :=
  Value {| bids := [(9999 # 100, 1)]; asks := [(100, 1)] |}.

Definition accepted (id : string) : Raisable OrderResult :=
  Value {| success := true; order_id := Some id; status := Some "NEW"; error := None |}.

(** Every order is reported as filled, for one unit, at the first status
    query; the clock advances by one second per reading. *)
Definition fills_at_once : Gateway :=
  {| clock := fun n => inject_Z (Z.of_nat n);
     get_depth := fun _ => steady_book;
     get_order := fun _ => OrderDict "FILLED" 1;
     place_order := fun _ => accepted "1";
     cancel_order := fun _ => Value true |}.

(** The first status query reports the order as filled for two units. *)
Definition reports_two : Gateway :=
  {| clock := fun n => inject_Z (Z.of_nat n);
     get_depth := fun _ => steady_book;
     get_order := fun _ => OrderDict "FILLED" 2;
     place_order := fun _ => accepted "1";
     cancel_order := fun _ => Value true |}.

(** The first order fills 0.96 of one unit and is cancelled at its
    timeout; the second order fills the rest.  The clock advances by three
    seconds per reading. *)
Definition fills_096_then_rest : Gateway :=
  {| clock := fun n => inject_Z (Z.of_nat n) * 3;
     get_depth := fun _ => steady_book;
     get_order := fun n =>
       match n with
       | 0%nat | 1%nat => OrderDict "PARTIALLY_FILLED" (96 # 100)
       | _ => OrderDict "FILLED" (4 # 100)
       end;
     place_order := fun n => match n with 0%nat => accepted "1" | _ => accepted "2" end;
     cancel_order := fun _ => Value true |}.

(** Nothing ever fills and every cancel succeeds. *)
Definition never_fills : Gateway :=
  {| clock := fun n => inject_Z (Z.of_nat n) * 3;
     get_depth := fun _ => steady_book;
     get_order := fun _ => OrderDict "NEW" 0;
     place_order := fun _ => accepted "1";
     cancel_order := fun _ => Value true |}.

(** An order for one unit resting at 100, nothing filled so far. *)
Definition live_order : LoopState :=
  set_order (Some "1") 100 (initial_state 1).

(** The exchange no longer knows the order. *)
Definition order_vanished : Gateway :=
  {| clock := fun n => inject_Z (Z.of_nat n);
     get_depth := fun _ => steady_book;
     get_order := fun _ => GetOrderError true;
     place_order := fun _ => accepted "1";
     cancel_order := fun _ => Value false |}.

(** The order is open at the first query, the cancel is refused, and the
    second query reports the order as filled. *)
Definition cancel_refused_order_filled : Gateway :=
  {| clock := fun n => inject_Z (Z.of_nat n);
     get_depth := fun _ => steady_book;
     get_order := fun n => match n with 0%nat => OrderDict "NEW" 0 | _ => OrderDict "FILLED" 1 end;
     place_order := fun _ => accepted "1";
     cancel_order := fun _ => Value false |}.

(** A delta of 0.001 SOL, below the minimum order size. *)
Definition tiny_delta : PositionDelta.t :=
  {| PositionDelta.symbol := "SOL"; PositionDelta.target := 1 # 1000;
     PositionDelta.current := 0; PositionDelta.delta := 1 # 1000;
     PositionDelta.delta_value_usd := 1 # 10 |}.

(** The quantities of the orders placed, oldest first, as reduced fractions. *)
Definition placed_quantities (tr : list Event) : list Q :=
  flat_map (fun e => match e with
                     | EvPlace _ quantity _ _ _ => [Qred quantity]
                     | _ => []
                     end) (rev tr).

(** A clip as the loop of [_split_order] produces them. *)
Definition clip_ok (trading_pair : string) (c : Q) : Prop :=
  0 < c /\ on_grid trading_pair c /\ dict_get MIN_QUANTITY trading_pair (1 # 1000) <= c.

(** ** Predicates on the calls a run adds to the trace *)

(** A status query or a cancel. *)
Definition order_event (e : Event) : Prop :=
  match e with
  | EvGetOrder _ _ | EvCancel _ _ => True
  | _ => False
  end.

Definition not_place (e : Event) : Prop :=
  match e with
  | EvPlace _ _ _ _ _ => False
  | _ => True
  end.

(** [w'] is [w] after calls that all satisfy [allowed]. *)
Definition added (allowed : Event -> Prop) (w w' : World) : Prop :=
  exists evs : list Event, trace w' = (evs ++ trace w)%list /\ Forall allowed evs.

(** The filled and remaining quantities still add up to the same total. *)
Definition same_total (st st' : LoopState) : Prop :=
  total_filled st' + remaining st' == total_filled st + remaining st.

(** A part of the loop adds only [allowed] calls, counts at most [k]
    iterations and keeps the total. *)
Definition advances (allowed : Event -> Prop) (k : Z)
           (st : LoopState) (w : World) (st' : LoopState) (w' : World) : Prop :=
  added allowed w w'
  /\ (iterations st <= iterations st' <= iterations st + k)%Z
  /\ same_total st st'.

(** Best bid and best ask of a depth answer, as [_get_orderbook] reads them. *)
Definition top_of_book (a : Raisable Depth) : option (Q * Q) :=
  match a with
  | Value d =>
    match bids d, asks d with
    | (bid1, _) :: _, (ask1, _) :: _ => Some (bid1, ask1)
    | _, _ => None
    end
  | Exception _ => None
  end.

(** The depth answer received last. *)
Fixpoint last_depth (tr : list Event) : option (Raisable Depth) :=
  match tr with
  | [] => None
  | EvDepth a :: _ => Some a
  | _ :: tr' => last_depth tr'
  end.

(** Every order in the trace was placed on [side] with the flag
    [reduce_only], for a positive whole number of steps of at least the
    minimum size, at the rounded best price of that side in the book read
    last before it. *)
Fixpoint orders_well_placed (config : MakerOrderConfig) (trading_pair : string)
         (side : OrderSide) (reduce_only : bool) (tr : list Event) : Prop :=
  match tr with
  | [] => True
  | EvPlace s quantity price r _ :: tr' =>
    (s = side /\ r = reduce_only /\ clip_ok trading_pair quantity
     /\ exists bid1 ask1,
         last_depth tr' ≫= top_of_book = Some (bid1, ask1)
         /\ price = _round_price config trading_pair
                                 (if OrderSide_eqb side SELL then ask1 else bid1))
    /\ orders_well_placed config trading_pair side reduce_only tr'
  | _ :: tr' => orders_well_placed config trading_pair side reduce_only tr'
  end.

(** The defaults, with [max_iterations = 1]. *)
Definition one_iteration_config : MakerOrderConfig :=
  {| order_timeout := 5; check_interval_ms := 200; price_tolerance := 2 # 10000;
     max_iterations := 1; total_timeout := 600; partial_fill_threshold := 95 # 100;
     min_remaining_ratio := 5 # 100; split_order_enabled := true;
     split_order_threshold := 500; split_order_min_value := 100;
     split_order_max_value := 300; split_order_random := true;
     price_precision := price_precision default_config |}.

(** The first order is partly filled when the best ask rises, which ends its
    wait window early; the next pass cancels it, places a replacement and
    cancels that one too, at its timeout. *)
Definition rising_book : Gateway :=
  {| clock := fun n => match n with
                       | 0%nat | 1%nat | 2%nat | 3%nat | 4%nat | 5%nat | 6%nat => inject_Z (Z.of_nat n)
                       | _ => inject_Z (Z.of_nat n) * 10
                       end;
     get_depth := fun n =>
       match n with
       | 0%nat => steady_book
       | _ => Value {| bids := [(10009 # 100, 1)]; asks := [(10010 # 100, 1)] |}
       end;
     get_order := fun _ => OrderDict "PARTIALLY_FILLED" (1 # 10);
     place_order := fun _ => accepted "1";
     cancel_order := fun _ => Value true |}.

(** Every order in the trace is a sell that may open a position when the
    delta is positive, and a reduce-only buy when it is negative. *)
Fixpoint orders_match_sign (delta : Q) (tr : list Event) : Prop :=
  match tr with
  | [] => True
  | EvPlace s _ _ r _ :: tr' =>
    ((0 < delta /\ s = SELL /\ r = false) \/ (delta < 0 /\ s = BUY /\ r = true))
    /\ orders_match_sign delta tr'
  | _ :: tr' => orders_match_sign delta tr'
  end.

(** ** [execute_all] of the maker executor *)

Section ExecuteAll.

Variable config : MakerOrderConfig.
Variable gw : Gateway.
Variable draws : nat -> Q.

(** [for delta in deltas: result = await self.execute_delta(delta);
    results.append(result)] *)
Fixpoint execute_all_loop (fuel : nat) (deltas : list PositionDelta.t)
         (results : list MakerExecutionResult.t)
  : M (Raisable (list MakerExecutionResult.t)) :=
  match deltas with
  | [] => ret (Value results)
  | delta :: rest =>
    let* r := execute_delta config gw draws fuel delta in
    match r with
    | Exception m => ret (Exception m)
    | Value result => execute_all_loop fuel rest (results ++ [result])
    end
  end.

(** [execute_all]; the counts it logs at the end are not part of the result. *)
Definition execute_all (fuel : nat) (deltas : list PositionDelta.t)
  : M (Raisable (list MakerExecutionResult.t)) :=
  match deltas with
  | [] => ret (Value [])
  | _ => execute_all_loop fuel deltas []
  end.

End ExecuteAll.

(** What [execute_all] returns for one delta. *)
Definition result_of_delta (d : PositionDelta.t) (res : MakerExecutionResult.t) : Prop :=
  let trading_pair := _get_trading_pair (PositionDelta.symbol d) in
  let rounded_qty := _round_quantity trading_pair (Qabs (PositionDelta.delta d)) in
  MakerExecutionResult.symbol res = trading_pair
  /\ (MakerExecutionResult.status res = SKIPPED <-> rounded_qty == 0)
  /\ MakerExecutionResult.target_quantity res
     = (if Decimal.eqb rounded_qty 0 then Qabs (PositionDelta.delta d) else rounded_qty).

(** Six SOL to sell, and two SOL to buy back. *)
Definition sell_six_sol : PositionDelta.t :=
  {| PositionDelta.symbol := "SOL"; PositionDelta.target := 6;
     PositionDelta.current := 0; PositionDelta.delta := 6;
     PositionDelta.delta_value_usd := 600 |}.

Definition buy_back_two_sol : PositionDelta.t :=
  {| PositionDelta.symbol := "SOL"; PositionDelta.target := 0;
     PositionDelta.current := 2; PositionDelta.delta := - (2);
     PositionDelta.delta_value_usd := - (200) |}.

(** ** [PositionManager]: which deltas are rebalanced, and the current positions *)

Section PositionManager.

(** [self.rebalance_threshold], and [self.min_order_sizes] with the values
    [Decimal(str(...))] gives them. *)
Variable rebalance_threshold : Q.
Variable min_order_sizes : gmap string Q.

(** [deviation_pct]: [abs(delta.delta) / target.amount] when
    [target.amount > 0], else 0. *)
Definition deviation_pct_of (delta : PositionDelta.t) (target : TargetHedgePosition.t)
  : Raisable Q :=
  if Decimal.gtb (TargetHedgePosition.amount target) 0 then
    match Decimal.div (Qabs (PositionDelta.delta delta)) (TargetHedgePosition.amount target) with
    | Some q => Value q
    | None => Exception "ZeroDivisionError"
    end
  else Value 0.

(** The body of the [for symbol, delta in deltas.items()] loop of
    [filter_significant_deltas].  A [TargetHedgePosition] object is always
    true as a condition, so [if not target:] tests that the symbol has no
    target. *)
Definition filter_step (target_positions : gmap string TargetHedgePosition.t)
           (symbol : string) (delta : PositionDelta.t)
           (significant : gmap string PositionDelta.t)
  : Raisable (gmap string PositionDelta.t) :=
  match target_positions !! symbol with
  | None => Value significant
  | Some target =>
    match deviation_pct_of delta target with
    | Exception m => Exception m
    | Value deviation_pct =>
      if Decimal.ltb deviation_pct rebalance_threshold then Value significant
      else
        let min_size := dict_get min_order_sizes symbol (1 # 1000) in
        if Decimal.ltb (Qabs (PositionDelta.delta delta)) min_size then Value significant
        else Value (<[symbol := delta]> significant)
    end
  end.

(** [filter_significant_deltas] *)
Definition filter_significant_deltas (deltas : gmap string PositionDelta.t)
           (target_positions : gmap string TargetHedgePosition.t)
  : Raisable (gmap string PositionDelta.t) :=
  map_fold (fun symbol delta acc =>
              match acc with
              | Exception m => Exception m
              | Value significant => filter_step target_positions symbol delta significant
              end)
           (Value ∅) deltas.

End PositionManager.

(** [SYMBOL_MAPPING.items()], in the order the class writes the entries. *)
Definition SYMBOL_MAPPING_items : list (string * string) :=
  [("SOL", "SOLUSDT"); ("ETH", "ETHUSDT"); ("BTC", "BTCUSDT")].

(** The inner loop of [get_current_positions]: the first symbol whose trading
    pair is that of the position. *)
Fixpoint symbol_of_pair (items : list (string * string)) (pair : string) : option string :=
  match items with
  | [] => None
  | (symbol, trading_pair) :: rest =>
    if String.eqb pair trading_pair then Some symbol else symbol_of_pair rest pair
  end.

(** [get_current_positions], from the list [client.get_positions()] returned. *)
Definition get_current_positions (positions : list Position.t) : gmap string Position.t :=
  fold_left (fun result pos =>
               match symbol_of_pair SYMBOL_MAPPING_items (Position.symbol pos) with
               | Some symbol => <[symbol := pos]> result
               | None => result
               end)
            positions ∅.

(** A delta is worth an order: its symbol has a target, the deviation from
    the target is at least the threshold, and the delta is at least the
    minimum order size of the symbol. *)
Definition worth_rebalancing (rebalance_threshold : Q) (min_order_sizes : gmap string Q)
           (target_positions : gmap string TargetHedgePosition.t)
           (symbol : string) (delta : Q) : Prop :=
  exists target,
    target_positions !! symbol = Some target
    /\ ((0 < TargetHedgePosition.amount target
         /\ rebalance_threshold * TargetHedgePosition.amount target <= Qabs delta)
        \/ (TargetHedgePosition.amount target <= 0 /\ rebalance_threshold <= 0))
    /\ dict_get min_order_sizes symbol (1 # 1000) <= Qabs delta.

(** A long position of one SOL. *)
Definition sol_long : Position.t :=
  {| Position.symbol := "SOLUSDT"; Position.position_side := "LONG";
     Position.quantity := 1; Position.entry_price := 100;
     Position.mark_price := 100; Position.unrealized_pnl := 0;
     Position.leverage := 1; Position.margin_type := "cross";
     Position.isolated_margin := 0 |}.

(** A target of five ETH, and a target of none. *)
Definition eth_target : TargetHedgePosition.t :=
  {| TargetHedgePosition.symbol := "ETH"; TargetHedgePosition.amount := 5;
     TargetHedgePosition.value_usd := 10000; TargetHedgePosition.price := 2000;
     TargetHedgePosition.weight := 1 # 2 |}.

Definition eth_target_closed : TargetHedgePosition.t :=
  {| TargetHedgePosition.symbol := "ETH"; TargetHedgePosition.amount := 0;
     TargetHedgePosition.value_usd := 0; TargetHedgePosition.price := 2000;
     TargetHedgePosition.weight := 0 |}.

(** The default of [min_order_sizes]. *)
Definition default_min_order_sizes : gmap string Q :=
  <["SOL" := 1 # 100]> (<["ETH" := 1 # 1000]> (<["BTC" := 1 # 10000]> ∅)).

(** * The order executor ([services/order_executor.py]) *)

(** [OrderType] and [TimeInForce] of the client, as far as the order executor
    uses them. *)
Inductive OrderType := LIMIT | MARKET.

Inductive TimeInForce := GTC | IOC.

(** [str.replace("USDT", "")]: every occurrence is removed, from the left. *)
Fixpoint remove_USDT (s : string) : string :=
  match s with
  | String "U"%char (String "S"%char (String "D"%char (String "T"%char rest))) =>
    remove_USDT rest
  | String c rest => String c (remove_USDT rest)
  | EmptyString => EmptyString
  end.

Module ExecutionStatus.
Inductive t := SUCCESS | PARTIAL | FAILED | SKIPPED.
End ExecutionStatus.

Module OrderExecutor.

(** The fields of the client's [OrderResult] the order executor reads or
    sets. *)
Record OrderResult := {
  success : bool;
  order_id : option string;
  symbol : option string;
  filled_quantity : option Q;
  error : option string
}.

Module ExecutionResult.
Record t := {
  symbol : string;
  status : ExecutionStatus.t;
  target_quantity : Q;
  filled_quantity : Q;
  order_results : list OrderResult;
  error : option string
}.
End ExecutionResult.

(** The calls the order executor makes itself: a ticker request, an order
    (its [position_side] is [SHORT] in every call and is left out) and the
    list of positions.  Each is recorded with its answer. *)
Inductive Call :=
| CallTicker (trading_pair : string) (answer : Raisable Q)
| CallPlace (trading_pair : string) (side : OrderSide) (order_type : OrderType)
            (quantity : Q) (price : option Q) (time_in_force : TimeInForce)
            (reduce_only : bool) (answer : Raisable OrderResult)
| CallPositions (answer : Raisable (list Position.t)).

(** The exchange as the order executor sees it: the gateway of its maker
    executor, and oracles for its own calls.  The answer to a ticker request
    is the price after [Decimal(str(...))], or the exception of the request or
    of the conversion. *)
Record Exchange := {
  maker_gateway : Gateway;
  ticker_answer : nat -> Raisable Q;
  order_answer : nat -> Raisable OrderResult;
  positions_answer : nat -> Raisable (list Position.t)
}.

Record State := {
  maker_world : World;
  n_ticker : nat;
  n_order : nat;
  n_positions : nat;
  calls : list Call
}.

Definition fresh_state : State :=
  {| maker_world := fresh_world; n_ticker := 0; n_order := 0; n_positions := 0; calls := [] |}.

(** Computations of the order executor; [None] is a loop of the maker
    executor that ran out of fuel. *)
Definition Exec (A : Type) : Type := State -> option (A * State).

Definition exec_ret {A} (a : A) : Exec A := fun s => Some (a, s).

Definition exec_bind {A B} (m : Exec A) (k : A -> Exec B) : Exec B :=
  fun s => match m s with
           | Some (a, s') => k a s'
           | None => None
           end.

Notation "'let+' x ':=' m 'in' k" := (exec_bind m (fun x => k))
  (at level 10, x pattern, m at level 200, k at level 200).

(** A computation of the maker executor, run on its own world. *)
Definition lift {A} (m : M A) : Exec A := fun s =>
  match m (maker_world s) with
  | Some (a, w') =>
    Some (a, {| maker_world := w'; n_ticker := n_ticker s; n_order := n_order s;
                n_positions := n_positions s; calls := calls s |})
  | None => None
  end.

(** [x or Decimal("0")] for an optional decimal. *)
Definition or_zero (x : option Q) : Q :=
  match x with
  | Some q => if Decimal.eqb q 0 then 0 else q
  | None => 0
  end.

Definition status_mapping (s : MakerExecutionStatus) : ExecutionStatus.t :=
  match s with
  | SUCCESS => ExecutionStatus.SUCCESS
  | PARTIAL => ExecutionStatus.PARTIAL
  | FAILED => ExecutionStatus.FAILED
  | SKIPPED => ExecutionStatus.SKIPPED
  end.

Section Executor.

Variable slippage : Q.
Variables use_market_order use_maker_order : bool.
Variable maker_config : MakerOrderConfig.
Variable draws : nat -> Q.
Variable ex : Exchange.

Definition client_get_ticker_price (trading_pair : string) : Exec (Raisable Q) := fun s =>
  let a := ticker_answer ex (n_ticker s) in
  Some (a, {| maker_world := maker_world s; n_ticker := S (n_ticker s); n_order := n_order s;
              n_positions := n_positions s;
              calls := CallTicker trading_pair a :: calls s |}).

(** [client.place_order]: a limit order without a price is refused before any
    request is sent. *)
Definition client_place_order (trading_pair : string) (side : OrderSide)
           (order_type : OrderType) (quantity : Q) (price : option Q)
           (time_in_force : TimeInForce) (reduce_only : bool)
  : Exec (Raisable OrderResult) := fun s =>
  match order_type, price with
  | LIMIT, None =>
    Some (Value {| success := false; order_id := None; symbol := None;
                   filled_quantity := None; error := Some "限价单必须指定价格" |}, s)
  | _, _ =>
    let a := order_answer ex (n_order s) in
    Some (a, {| maker_world := maker_world s; n_ticker := n_ticker s; n_order := S (n_order s);
                n_positions := n_positions s;
                calls := CallPlace trading_pair side order_type quantity price time_in_force
                                   reduce_only a :: calls s |})
  end.

Definition client_get_positions : Exec (Raisable (list Position.t)) := fun s =>
  let a := positions_answer ex (n_positions s) in
  Some (a, {| maker_world := maker_world s; n_ticker := n_ticker s; n_order := n_order s;
              n_positions := S (n_positions s);
              calls := CallPositions a :: calls s |}).

(** [_get_current_price] *)
Definition _get_current_price (symbol : string) : Exec (Raisable Q) :=
  client_get_ticker_price (_get_trading_pair symbol).

(** The [OrderResult] of an order that was not sent. *)
Definition skipped_order (trading_pair : string) : OrderResult :=
  {| success := true; order_id := Some "SKIPPED"; symbol := Some trading_pair;
     filled_quantity := Some 0; error := Some "数量小于最小下单量，已跳过" |}.

(** [_open_short] *)
Definition _open_short (trading_pair : string) (quantity : Q) : Exec (Raisable OrderResult) :=
  let quantity := _round_quantity trading_pair quantity in
  if Decimal.eqb quantity 0 then exec_ret (Value (skipped_order trading_pair))
  else if use_market_order then
    client_place_order trading_pair SELL MARKET quantity None GTC false
  else
    let+ price := _get_current_price (remove_USDT trading_pair) in
    match price with
    | Exception m => exec_ret (Exception m)
    | Value price =>
      let limit_price := price * (1 - slippage) in
      client_place_order trading_pair SELL LIMIT quantity (Some limit_price) IOC false
    end.

(** [_close_short] *)
Definition _close_short (trading_pair : string) (quantity : Q) : Exec (Raisable OrderResult) :=
  let quantity := _round_quantity trading_pair quantity in
  if Decimal.eqb quantity 0 then exec_ret (Value (skipped_order trading_pair))
  else if use_market_order then
    client_place_order trading_pair BUY MARKET quantity None GTC true
  else
    let+ price := _get_current_price (remove_USDT trading_pair) in
    match price with
    | Exception m => exec_ret (Exception m)
    | Value price =>
      let limit_price := price * (1 + slippage) in
      client_place_order trading_pair BUY LIMIT quantity (Some limit_price) IOC true
    end.

(** [self.maker_executor.execute_delta(delta)] *)
Definition maker_executor_execute_delta (fuel : nat) (delta : PositionDelta.t)
  : Exec (Raisable MakerExecutionResult.t) :=
  lift (execute_delta maker_config (maker_gateway ex) draws fuel delta).

(** [execute_delta]; the maker executor exists exactly when [use_maker_order]
    is set.  The [try] block covers the order, the [except] clause returns a
    [FAILED] result with the order list still empty. *)
Definition execute_delta (fuel : nat) (delta : PositionDelta.t)
  : Exec (Raisable ExecutionResult.t) :=
  if use_maker_order then
    let+ maker_result := maker_executor_execute_delta fuel delta in
    match maker_result with
    | Exception m => exec_ret (Exception m)
    | Value maker_result =>
      exec_ret (Value {| ExecutionResult.symbol := PositionDelta.symbol delta;
                         ExecutionResult.status :=
                           status_mapping (MakerExecutionResult.status maker_result);
                         ExecutionResult.target_quantity :=
                           MakerExecutionResult.target_quantity maker_result;
                         ExecutionResult.filled_quantity :=
                           MakerExecutionResult.filled_quantity maker_result;
                         ExecutionResult.order_results := [];
                         ExecutionResult.error := MakerExecutionResult.error maker_result |})
    end
  else
    let symbol := PositionDelta.symbol delta in
    let trading_pair := _get_trading_pair symbol in
    let quantity := Qabs (PositionDelta.delta delta) in
    let+ result :=
      if Decimal.gtb (PositionDelta.delta delta) 0
      then _open_short trading_pair quantity
      else _close_short trading_pair quantity in
    match result with
    | Exception e =>
      exec_ret (Value {| ExecutionResult.symbol := symbol;
                         ExecutionResult.status := ExecutionStatus.FAILED;
                         ExecutionResult.target_quantity := quantity;
                         ExecutionResult.filled_quantity := 0;
                         ExecutionResult.order_results := [];
                         ExecutionResult.error := Some e |})
    | Value result =>
      if success result then
        let filled := or_zero (filled_quantity result) in
        if match order_id result with
           | Some id => String.eqb id "SKIPPED"
           | None => false
           end
        then
          exec_ret (Value {| ExecutionResult.symbol := symbol;
                             ExecutionResult.status := ExecutionStatus.SKIPPED;
                             ExecutionResult.target_quantity := quantity;
                             ExecutionResult.filled_quantity := 0;
                             ExecutionResult.order_results := [result];
                             ExecutionResult.error := Some "数量小于最小下单量" |})
        else
          let status :=
            if Decimal.geb filled (quantity * (95 # 100))
            then ExecutionStatus.SUCCESS else ExecutionStatus.PARTIAL in
          exec_ret (Value {| ExecutionResult.symbol := symbol;
                             ExecutionResult.status := status;
                             ExecutionResult.target_quantity := quantity;
                             ExecutionResult.filled_quantity := filled;
                             ExecutionResult.order_results := [result];
                             ExecutionResult.error := None |})
      else
        exec_ret (Value {| ExecutionResult.symbol := symbol;
                           ExecutionResult.status := ExecutionStatus.FAILED;
                           ExecutionResult.target_quantity := quantity;
                           ExecutionResult.filled_quantity := 0;
                           ExecutionResult.order_results := [result];
                           ExecutionResult.error := error result |})
    end.

(** [for delta in deltas: result = await self.execute_delta(delta);
    results.append(result)] *)
Fixpoint execute_all_loop (fuel : nat) (deltas : list PositionDelta.t)
         (results : list ExecutionResult.t) : Exec (Raisable (list ExecutionResult.t)) :=
  match deltas with
  | [] => exec_ret (Value results)
  | delta :: rest =>
    let+ r := execute_delta fuel delta in
    match r with
    | Exception m => exec_ret (Exception m)
    | Value result => execute_all_loop fuel rest (results ++ [result])
    end
  end.

(** [execute_all]; the counts it logs at the end are not part of the result. *)
Definition execute_all (fuel : nat) (deltas : list PositionDelta.t)
  : Exec (Raisable (list ExecutionResult.t)) :=
  match deltas with
  | [] => exec_ret (Value [])
  | _ => execute_all_loop fuel deltas []
  end.

(** [for pos in positions: if pos.quantity < 0: ...] of
    [close_all_positions]; nothing catches an exception of [_close_short]. *)
Fixpoint close_loop (positions : list Position.t) (results : list ExecutionResult.t)
  : Exec (Raisable (list ExecutionResult.t)) :=
  match positions with
  | [] => exec_ret (Value results)
  | pos :: rest =>
    if Decimal.ltb (Position.quantity pos) 0 then
      let quantity := Qabs (Position.quantity pos) in
      let+ result := _close_short (Position.symbol pos) quantity in
      match result with
      | Exception m => exec_ret (Exception m)
      | Value result =>
        close_loop rest
                   (results ++
                    [{| ExecutionResult.symbol := Position.symbol pos;
                        ExecutionResult.status :=
                          if success result
                          then ExecutionStatus.SUCCESS else ExecutionStatus.FAILED;
                        ExecutionResult.target_quantity := quantity;
                        ExecutionResult.filled_quantity := or_zero (filled_quantity result);
                        ExecutionResult.order_results := [result];
                        ExecutionResult.error :=
                          if success result then None else error result |}])
      end
    else close_loop rest results
  end.

(** [close_all_positions] *)
Definition close_all_positions : Exec (Raisable (list ExecutionResult.t)) :=
  let+ positions := client_get_positions in
  match positions with
  | Exception m => exec_ret (Exception m)
  | Value positions => close_loop positions []
  end.

End Executor.

End OrderExecutor.
(** ** Predicates on the calls of the order executor *)

(** The orders among some calls. *)
Definition orders_among (cs : list OrderExecutor.Call) : list OrderExecutor.Call :=
  List.filter (fun c => match c with
                        | OrderExecutor.CallPlace _ _ _ _ _ _ _ _ => true
                        | _ => false
                        end) cs.

(** A call [execute_delta] may make for [delta] outside the maker mode: an
    order on the trading pair of the delta for the rounded quantity, which is
    a proper order size, selling without reduce-only for a positive delta and
    buying with reduce-only for a negative one, a market order exactly when
    [use_market_order] is set; or, when it is not set, a ticker request. *)
Definition delta_call_ok (use_market_order : bool) (delta : PositionDelta.t)
           (c : OrderExecutor.Call) : Prop :=
  let trading_pair := _get_trading_pair (PositionDelta.symbol delta) in
  match c with
  | OrderExecutor.CallPlace tp side order_type quantity _ _ reduce_only _ =>
    tp = trading_pair
    /\ quantity = _round_quantity trading_pair (Qabs (PositionDelta.delta delta))
    /\ clip_ok trading_pair quantity
    /\ ((0 < PositionDelta.delta delta /\ side = SELL /\ reduce_only = false)
        \/ (PositionDelta.delta delta < 0 /\ side = BUY /\ reduce_only = true))
    /\ (order_type = MARKET <-> use_market_order = true)
  | OrderExecutor.CallTicker _ _ => use_market_order = false
  | OrderExecutor.CallPositions _ => False
  end.

(** A call [close_all_positions] may make after it has read the positions:
    a reduce-only buy, or a ticker request. *)
Definition closing_call (c : OrderExecutor.Call) : Prop :=
  match c with
  | OrderExecutor.CallPlace _ side _ quantity _ _ reduce_only _ =>
    side = BUY /\ reduce_only = true /\ 0 < quantity
  | OrderExecutor.CallTicker _ _ => True
  | OrderExecutor.CallPositions _ => False
  end.

(** The result [close_all_positions] reports for a short position. *)
Definition closes (pos : Position.t) (res : OrderExecutor.ExecutionResult.t) : Prop :=
  OrderExecutor.ExecutionResult.symbol res = Position.symbol pos
  /\ OrderExecutor.ExecutionResult.target_quantity res = Qabs (Position.quantity pos)
  /\ exists result,
      OrderExecutor.ExecutionResult.order_results res = [result]
      /\ OrderExecutor.ExecutionResult.status res
         = (if OrderExecutor.success result
            then ExecutionStatus.SUCCESS else ExecutionStatus.FAILED)
      /\ (_round_quantity (Position.symbol pos) (Qabs (Position.quantity pos)) == 0 ->
          OrderExecutor.ExecutionResult.status res = ExecutionStatus.SUCCESS
          /\ OrderExecutor.ExecutionResult.filled_quantity res = 0).

(** Every order is answered as filled for the quantity [filled]; the price
    is 100. *)
Definition fills_market (filled : Q) : OrderExecutor.Exchange :=
  {| OrderExecutor.maker_gateway := fills_at_once;
     OrderExecutor.ticker_answer := fun _ => Value 100;
     OrderExecutor.order_answer := fun _ =>
       Value {| OrderExecutor.success := true; OrderExecutor.order_id := Some "7";
                OrderExecutor.symbol := Some "SOLUSDT";
                OrderExecutor.filled_quantity := Some filled;
                OrderExecutor.error := None |};
     OrderExecutor.positions_answer := fun _ => Value [eth_position; sol_long] |}.

(** What an order of [_open_short] or [_close_short] adds to the calls. *)
Definition short_order_run (use_market_order : bool) (trading_pair : string) (side : OrderSide) (reduce_only : bool)
           (quantity : Q) (s : OrderExecutor.State)
           (r : Raisable OrderExecutor.OrderResult) (s' : OrderExecutor.State) : Prop :=
  let rounded := _round_quantity trading_pair quantity in
  OrderExecutor.maker_world s' = OrderExecutor.maker_world s
  /\ ((Decimal.eqb rounded 0 = true /\ s' = s
       /\ r = Value (OrderExecutor.skipped_order trading_pair))
      \/ (Decimal.eqb rounded 0 = false
          /\ exists new,
              OrderExecutor.calls s' = (new ++ OrderExecutor.calls s)%list
              /\ Forall (fun c =>
                           match c with
                           | OrderExecutor.CallPlace tp sd order_type q _ _ ro _ =>
                             tp = trading_pair /\ sd = side /\ ro = reduce_only /\ q = rounded
                             /\ (order_type = MARKET <-> use_market_order = true)
                           | OrderExecutor.CallTicker _ _ => use_market_order = false
                           | OrderExecutor.CallPositions _ => False
                           end) new
              /\ ((orders_among new = [] /\ exists m, r = Exception m)
                  \/ exists c, orders_among new = [c]))).

(** ** Clocks that advance *)

(** Every reading of the clock is at least [tick] later than the one before. *)
Definition clock_advances (gw : Gateway) (tick : Q) : Prop :=
  forall n : nat, clock gw n + tick <= clock gw (S n).

(** A computation returns, and leaves the number of clock readings related by
    [R] to what it was. *)
Definition returns {A} (R : nat -> nat -> Prop) (m : M A) (w : World) : Prop :=
  exists a w', m w = Some (a, w') /\ R (n_clock w) (n_clock w').

(** ** How [client.place_order] builds its result *)

(** What the request of [place_order] comes back with: the order object of
    the exchange, of which the order id and the two quantities are read (after
    [str(...)] and [Decimal(str(...))]); an [AsterDexError]; or another
    exception. *)
Inductive OrderResponse :=
| OrderAck (orderId : string) (symbol : option string) (origQty executedQty : Q)
| ApiError (message : string)
| OtherError (message : string).

(** The [try] block of [place_order] and its [except AsterDexError] clause:
    for a market order answered with [executedQty] 0 the original quantity is
    taken as the filled one. *)
Definition place_order_result (order_type : OrderType) (response : OrderResponse)
  : Raisable OrderExecutor.OrderResult :=
  match response with
  | OrderAck orderId symbol orig_qty exec_qty =>
    let exec_qty :=
      if match order_type with MARKET => true | LIMIT => false end && Decimal.eqb exec_qty 0
      then orig_qty else exec_qty in
    Value {| OrderExecutor.success := true;
             OrderExecutor.order_id := Some orderId;
             OrderExecutor.symbol := symbol;
             OrderExecutor.filled_quantity := Some exec_qty;
             OrderExecutor.error := None |}
  | ApiError message =>
    Value {| OrderExecutor.success := false;
             OrderExecutor.order_id := None;
             OrderExecutor.symbol := None;
             OrderExecutor.filled_quantity := None;
             OrderExecutor.error := Some message |}
  | OtherError message => Exception message
  end.

(** An exchange that acknowledges every market order for two units with
    nothing executed yet. *)
Definition acknowledges_only : OrderExecutor.Exchange :=
  {| OrderExecutor.maker_gateway := fills_at_once;
     OrderExecutor.ticker_answer := fun _ => Value 100;
     OrderExecutor.order_answer := fun _ =>
       place_order_result MARKET (OrderAck "7" (Some "SOLUSDT") 2 0);
     OrderExecutor.positions_answer := fun _ => Value [] |}.



(** * Properties *)

(** ** Comparisons on decimals *)

Lemma ltb_lt a b : Decimal.ltb a b = true <-> a < b.
Proof.
  unfold Decimal.ltb. rewrite negb_true_iff, <- not_true_iff_false, Qle_bool_iff.
  split; [apply Qnot_le_lt | apply Qlt_not_le].
Qed.

Lemma ltb_ge a b : Decimal.ltb a b = false <-> b <= a.
Proof. unfold Decimal.ltb. rewrite negb_false_iff. apply Qle_bool_iff. Qed.

Lemma gtb_gt a b : Decimal.gtb a b = true <-> b < a.
Proof. apply ltb_lt. Qed.

Lemma gtb_le a b : Decimal.gtb a b = false <-> a <= b.
Proof. apply ltb_ge. Qed.

Lemma geb_ge a b : Decimal.geb a b = true <-> b <= a.
Proof. apply Qle_bool_iff. Qed.

Lemma geb_lt a b : Decimal.geb a b = false <-> a < b.
Proof.
  unfold Decimal.geb. rewrite <- not_true_iff_false, Qle_bool_iff.
  split; [apply Qnot_le_lt | apply Qlt_not_le].
Qed.

Lemma eqb_eq a b : Decimal.eqb a b = true <-> a == b.
Proof. apply Qeq_bool_iff. Qed.

Lemma eqb_neq a b : Decimal.eqb a b = false <-> ~ a == b.
Proof. rewrite <- not_true_iff_false, <- eqb_eq. tauto. Qed.

(** ** The replace rule *)

Example replace_100_to_100_02 :
  fst (_should_replace_order default_config SELL 100 (10002 # 100)) = true.
Proof. reflexivity. Qed.

(** C2.  For a resting price [p > 0] and a best price [b]: on the sell side
    the decision is to replace whenever [b > p], whatever the tolerance, and
    not to replace when [b < p] and the relative change [|b - p| / p] is
    strictly below the tolerance; on the buy side it is to replace whenever
    [b < p]; on either side it is to replace whenever the relative change
    exceeds the tolerance. *)
Theorem should_replace_rule (config : MakerOrderConfig) (p b : Q) :
  0 < p ->
  (p < b -> fst (_should_replace_order config SELL p b) = true)
  /\ (b < p -> Qabs (b - p) / p < price_tolerance config ->
      fst (_should_replace_order config SELL p b) = false)
  /\ (b < p -> fst (_should_replace_order config BUY p b) = true)
  /\ (forall side, price_tolerance config < Qabs (b - p) / p ->
      fst (_should_replace_order config side p b) = true).
Proof.
  intros Hp. unfold _should_replace_order.
  assert (Hz : Decimal.eqb p 0 = false) by (apply eqb_neq; lra).
  rewrite Hz. cbn [OrderSide_eqb negb andb].
  repeat split.
  - intros Hb. apply gtb_gt in Hb. now rewrite Hb.
  - intros Hb Htol.
    assert (H1 : Decimal.gtb b p = false) by (apply gtb_le; lra).
    assert (H2 : Decimal.gtb (Qabs (b - p) / p) (price_tolerance config) = false)
      by (apply gtb_le; lra).
    now rewrite H1, H2.
  - intros Hb. apply ltb_lt in Hb. now rewrite Hb.
  - intros side Htol. apply gtb_gt in Htol. rewrite Htol.
    destruct side; cbn [OrderSide_eqb negb andb];
      [destruct (Decimal.ltb b p) | destruct (Decimal.gtb b p)]; reflexivity.
Qed.

Lemma should_replace_rule_witness :
  fst (_should_replace_order default_config SELL 100 (10002 # 100)) = true
  /\ fst (_should_replace_order default_config SELL 100 (9999 # 100)) = false
  /\ fst (_should_replace_order default_config BUY 100 (9999 # 100)) = true
  /\ fst (_should_replace_order default_config BUY 100 (10005 # 100)) = true.
Proof.
  assert (Hp : 0 < 100) by reflexivity.
  split; [| split; [| split]].
  - apply (proj1 (should_replace_rule default_config 100 (10002 # 100) Hp)). reflexivity.
  - apply (proj1 (proj2 (should_replace_rule default_config 100 (9999 # 100) Hp)));
      reflexivity.
  - apply (proj1 (proj2 (proj2 (should_replace_rule default_config 100 (9999 # 100) Hp)))).
    reflexivity.
  - apply (proj2 (proj2 (proj2 (should_replace_rule default_config 100 (10005 # 100) Hp)))).
    reflexivity.
Defined.

(** ** Rounding of quantities *)

Example round_12_345 : _round_quantity "SOLUSDT" (12345 # 1000) == 1234 # 100.
Proof. vm_compute. reflexivity. Qed.

(** C6.  At 12.346 SOL (precision 2, minimum 0.01) [_round_quantity] returns
    12.35: more than the quantity it was given, and not the value 12.34 that
    rounding down yields. *)
Theorem round_quantity_rounds_up :
  _round_quantity "SOLUSDT" (12346 # 1000) == 1235 # 100
  /\ floor_round_quantity 2 (1 # 100) (12346 # 1000) == 1234 # 100
  /\ 12346 # 1000 < _round_quantity "SOLUSDT" (12346 # 1000).
Proof. split; [|split]; vm_compute; reflexivity. Qed.

(** ** Order splitting *)

Example split_1200 :
  exists clips,
    _split_order default_config (fun _ => 250) "SOLUSDT" 100 50 12 = Some (Value clips)
    /\ length clips = 5%nat /\ Qsum clips == 12.
Proof.
  eexists. split; [vm_compute; reflexivity|].
  split; [reflexivity|]. vm_compute. reflexivity.
Qed.

(** C7, as stated, fails for a quantity between two steps: for 10.006 SOL
    at a price of 100 (notional 1000.6, above the threshold of 500) and clip
    values drawn as 200, [_split_order] returns the clips 2, 2, 2, 2 and
    2.01, whose sum 10.01 is more than the input quantity. *)
Lemma split_order_exceeds_input :
  _split_order default_config (fun _ => 200) "SOLUSDT" 100 20 (10006 # 1000)
  = Some (Value [200 # 100; 200 # 100; 200 # 100; 200 # 100; 201 # 100])
  /\ 10006 # 1000 < Qsum [200 # 100; 200 # 100; 200 # 100; 200 # 100; 201 # 100].
Proof. split; vm_compute; reflexivity. Qed.

(** ** Position deltas *)

Lemma calculate_deltas_lookup (target_positions : gmap string TargetHedgePosition.t)
      (current_positions : gmap string Position.t) (symbol : string) :
  calculate_deltas target_positions current_positions !! symbol
  = delta_for current_positions symbol <$> target_positions !! symbol.
Proof.
  unfold calculate_deltas.
  apply (map_fold_weak_ind
           (fun (r : gmap string PositionDelta.t) (m : gmap string TargetHedgePosition.t) =>
              r !! symbol = delta_for current_positions symbol <$> m !! symbol)).
  - now rewrite !lookup_empty.
  - intros i x m r Hi IH.
    destruct (decide (i = symbol)) as [->|Hne].
    + now rewrite !lookup_insert_eq.
    + now rewrite !lookup_insert_ne.
Qed.

(** C9.  The result of [calculate_deltas] has exactly the keys of the target
    map: a symbol without a target gets no delta even when it has a current
    position, and a target symbol without a current position gets a delta
    with current amount 0 and delta equal to the target amount. *)
Theorem calculate_deltas_keys (target_positions : gmap string TargetHedgePosition.t)
        (current_positions : gmap string Position.t) :
  dom (calculate_deltas target_positions current_positions) = dom target_positions
  /\ (forall symbol,
        target_positions !! symbol = None ->
        calculate_deltas target_positions current_positions !! symbol = None)
  /\ (forall symbol target,
        target_positions !! symbol = Some target ->
        current_positions !! symbol = None ->
        exists d,
          calculate_deltas target_positions current_positions !! symbol = Some d
          /\ PositionDelta.current d = 0
          /\ PositionDelta.delta d == TargetHedgePosition.amount target).
Proof.
  split; [| split].
  - apply set_eq. intros symbol.
    rewrite !elem_of_dom, calculate_deltas_lookup.
    destruct (target_positions !! symbol); simpl; split; intros [? ?]; eauto; discriminate.
  - intros symbol Hnone. now rewrite calculate_deltas_lookup, Hnone.
  - intros symbol target Hsome Hnone.
    exists (delta_for current_positions symbol target).
    rewrite calculate_deltas_lookup, Hsome. simpl.
    unfold delta_for. rewrite Hnone. simpl.
    split; [reflexivity | split; [reflexivity | ring]].
Qed.

Lemma calculate_deltas_keys_witness :
  calculate_deltas {["SOL" := sol_target]} {["ETH" := eth_position]} !! "ETH" = None
  /\ exists d,
       calculate_deltas {["SOL" := sol_target]} {["ETH" := eth_position]} !! "SOL" = Some d
       /\ PositionDelta.current d = 0
       /\ PositionDelta.delta d == 12.
Proof.
  destruct (calculate_deltas_keys {["SOL" := sol_target]} {["ETH" := eth_position]})
    as (_ & Hnone & Hsome).
  split.
  - apply Hnone. reflexivity.
  - apply (Hsome "SOL" sol_target); reflexivity.
Defined.

(** ** The configuration option [min_remaining_ratio] *)

(** No function of the engine reads [min_remaining_ratio]. *)
Lemma min_remaining_ratio_unused (r : Q) (config : MakerOrderConfig) (gw : Gateway)
      (draws : nat -> Q) (fuel : nat) (d : PositionDelta.t) :
  execute_delta (with_min_remaining_ratio r config) gw draws fuel d
  = execute_delta config gw draws fuel d.
Proof. reflexivity. Qed.

(** C8.  With [min_remaining_ratio = 0.05] and a target of one unit, after a
    first order has filled 0.96 the remaining fraction is 0.04, below the
    option's value, and the engine still places a second order, for the
    remaining 0.04 = 1/25. *)
Theorem remainder_below_min_ratio_still_placed :
  min_remaining_ratio default_config == 5 # 100
  /\ exists r w,
       _execute_maker_loop default_config fills_096_then_rest "SOLUSDT" SELL 1 false 20
                           fresh_world = Some (Value r, w)
       /\ placed_quantities (trace w) = [1; 1 # 25]
       /\ MakerExecutionResult.filled_quantity r == 1.
Proof.
  split; [reflexivity|].
  eexists. eexists. split; [vm_compute; reflexivity|].
  split; vm_compute; reflexivity.
Qed.

(** ** Building the result *)

Lemma average_price_of_value (total_value total_filled : Q) :
  exists a, average_price_of total_value total_filled = Value a
            /\ (total_filled <= 0 -> a = 0)
            /\ (0 < total_filled -> a = total_value / total_filled).
Proof.
  unfold average_price_of, Decimal.div.
  destruct (Decimal.gtb total_filled 0) eqn:Hpos.
  - apply gtb_gt in Hpos.
    assert (Hz : Decimal.eqb total_filled 0 = false) by (apply eqb_neq; lra).
    rewrite Hz. eexists. split; [reflexivity|]. split; [lra | reflexivity].
  - apply gtb_le in Hpos. exists 0. split; [reflexivity|]. split; [reflexivity | lra].
Qed.

Lemma fill_ratio_of_value (total_filled target : Q) :
  exists r, fill_ratio_of total_filled target = Value r
            /\ (target <= 0 -> r = 0)
            /\ (0 < target -> r = total_filled / target).
Proof.
  unfold fill_ratio_of, Decimal.div.
  destruct (Decimal.gtb target 0) eqn:Hpos.
  - apply gtb_gt in Hpos.
    assert (Hz : Decimal.eqb target 0 = false) by (apply eqb_neq; lra).
    rewrite Hz. eexists. split; [reflexivity|]. split; [lra | reflexivity].
  - apply gtb_le in Hpos. exists 0. split; [reflexivity|]. split; [reflexivity | lra].
Qed.

Section ResultFacts.

Variable config : MakerOrderConfig.
Variable gw : Gateway.
Variables (trading_pair : string) (side : OrderSide) (target : Q) (reduce_only : bool).

Lemma on_completion_result start_time st w r w' :
  on_completion config gw trading_pair target start_time st w = Some (r, w') ->
  exists fill_ratio avg_price elapsed,
    fill_ratio_of (total_filled st) target = Value fill_ratio
    /\ average_price_of (total_value st) (total_filled st) = Value avg_price
    /\ r = Value {| MakerExecutionResult.symbol := trading_pair;
                    MakerExecutionResult.status := classify config fill_ratio (total_filled st);
                    MakerExecutionResult.target_quantity := target;
                    MakerExecutionResult.filled_quantity := total_filled st;
                    MakerExecutionResult.average_price := avg_price;
                    MakerExecutionResult.iterations := iterations st;
                    MakerExecutionResult.elapsed_seconds := elapsed;
                    MakerExecutionResult.error := None |}.
Proof.
  unfold on_completion, bind, ret, time_time.
  destruct (fill_ratio_of_value (total_filled st) target) as (fr & -> & _).
  destruct (average_price_of_value (total_value st) (total_filled st)) as (a & -> & _).
  intros H. injection H as <- <-. eauto 10.
Qed.

Lemma on_exception_result start_time st e w r w' :
  on_exception gw trading_pair target start_time st e w = Some (r, w') ->
  exists avg_price elapsed,
    average_price_of (total_value st) (total_filled st) = Value avg_price
    /\ r = Value {| MakerExecutionResult.symbol := trading_pair;
                    MakerExecutionResult.status := FAILED;
                    MakerExecutionResult.target_quantity := target;
                    MakerExecutionResult.filled_quantity := total_filled st;
                    MakerExecutionResult.average_price := avg_price;
                    MakerExecutionResult.iterations := iterations st;
                    MakerExecutionResult.elapsed_seconds := elapsed;
                    MakerExecutionResult.error := Some e |}.
Proof.
  unfold on_exception, bind, ret, time_time.
  destruct (average_price_of_value (total_value st) (total_filled st)) as (a & -> & _).
  destruct (truthy (current_order_id st)).
  - unfold client_cancel_order.
    destruct (current_order_id st) as [s|]; [destruct (String.eqb s "")|];
      intros H; injection H as <- <-; eauto.
  - intros H; injection H as <- <-; eauto.
Qed.

(** Both ways of building the result always return one. *)
Lemma on_completion_total start_time st w :
  exists res w',
    on_completion config gw trading_pair target start_time st w = Some (Value res, w')
    /\ MakerExecutionResult.filled_quantity res = total_filled st
    /\ (total_filled st <= 0 -> MakerExecutionResult.average_price res = 0).
Proof.
  unfold on_completion, bind, ret, time_time.
  destruct (fill_ratio_of_value (total_filled st) target) as (fr & -> & _).
  destruct (average_price_of_value (total_value st) (total_filled st)) as (a & -> & Hz & _).
  do 2 eexists. split; [reflexivity|]. split; [reflexivity | exact Hz].
Qed.

Lemma on_exception_total start_time st e w :
  exists res w',
    on_exception gw trading_pair target start_time st e w = Some (Value res, w')
    /\ MakerExecutionResult.filled_quantity res = total_filled st
    /\ (total_filled st <= 0 -> MakerExecutionResult.average_price res = 0).
Proof.
  unfold on_exception, bind, ret, time_time, client_cancel_order.
  destruct (average_price_of_value (total_value st) (total_filled st)) as (a & -> & Hz & _).
  destruct (truthy (current_order_id st));
    [destruct (current_order_id st) as [s|]; [destruct (String.eqb s "")|]|];
    do 2 eexists; (split; [reflexivity|]); (split; [reflexivity | exact Hz]).
Qed.

(** What [_execute_maker_loop] returns, in terms of the state the loop
    ended in. *)
Lemma execute_maker_loop_cases fuel w r w' :
  _execute_maker_loop config gw trading_pair side target reduce_only fuel w = Some (r, w') ->
  exists start_time w0 st raised w1 res,
    maker_loop config gw trading_pair side reduce_only fuel start_time
               (initial_state target) w0 = Some ((st, raised), w1)
    /\ trace w0 = trace w
    /\ (trace w1 = trace w' \/ exists id a, trace w' = EvCancel id a :: trace w1)
    /\ r = Value res
    /\ MakerExecutionResult.filled_quantity res = total_filled st
    /\ MakerExecutionResult.target_quantity res = target
    /\ MakerExecutionResult.error res = raised
    /\ average_price_of (total_value st) (total_filled st)
       = Value (MakerExecutionResult.average_price res)
    /\ match raised with
       | None =>
         exists fill_ratio,
           fill_ratio_of (total_filled st) target = Value fill_ratio
           /\ MakerExecutionResult.status res = classify config fill_ratio (total_filled st)
       | Some _ => MakerExecutionResult.status res = FAILED
       end.
Proof.
  unfold _execute_maker_loop, bind at 1. cbn [time_time].
  unfold bind at 1.
  match goal with
  | |- context [maker_loop _ _ _ _ _ _ ?t ?s ?w0] =>
    destruct (maker_loop config gw trading_pair side reduce_only fuel t s w0)
      as [[[st raised] w1]|] eqn:Hloop; [|discriminate]
  end.
  intros Hend.
  destruct raised as [e|].
  - assert (Htr : trace w1 = trace w' \/ exists id a, trace w' = EvCancel id a :: trace w1).
    { revert Hend. unfold on_exception, bind, ret, time_time, client_cancel_order.
      destruct (average_price_of_value (total_value st) (total_filled st)) as (a & -> & _).
      destruct (truthy (current_order_id st));
        [destruct (current_order_id st) as [s|]; [destruct (String.eqb s "")|]|];
        intros H; injection H as <- <-; cbn [trace]; eauto. }
    apply on_exception_result in Hend as (avg & el & Havg & ->).
    do 6 eexists. split; [exact Hloop|]. split; [reflexivity|].
    split; [exact Htr|].
    split; [reflexivity|]. cbn. repeat split; assumption.
  - assert (Htr : trace w1 = trace w').
    { revert Hend. unfold on_completion, bind, ret, time_time.
      destruct (fill_ratio_of_value (total_filled st) target) as (fr & -> & _).
      destruct (average_price_of_value (total_value st) (total_filled st)) as (a & -> & _).
      intros H; injection H as <- <-; reflexivity. }
    apply on_completion_result in Hend as (fr & avg & el & Hfr & Havg & ->).
    do 6 eexists. split; [exact Hloop|]. split; [reflexivity|].
    split; [left; exact Htr|].
    split; [reflexivity|]. cbn. repeat split; try assumption. eauto.
Qed.

End ResultFacts.

(** ** Calls that cannot raise *)

Lemma div_some (a b : Q) : ~ b == 0 -> Decimal.div a b = Some (a / b).
Proof. intros Hb. unfold Decimal.div. apply eqb_neq in Hb. now rewrite Hb. Qed.

Lemma split_loop_returns config draws trading_pair price :
  0 < price ->
  forall fuel n_draw remaining_value acc r,
    split_loop config draws trading_pair price fuel n_draw remaining_value acc = Some r ->
    exists clips, r = Value clips.
Proof.
  intros Hprice. induction fuel as [|fuel IH]; intros n_draw rv acc r; [discriminate|].
  cbn [split_loop].
  destruct (Decimal.gtb rv 0); [|intros [= <-]; eauto].
  destruct (if Decimal.leb rv (split_order_max_value config) then _ else _) as [sv n'].
  rewrite !div_some by lra.
  destruct (Decimal.gtb (_round_quantity trading_pair (sv / price)) 0);
    [|intros [= <-]; eauto].
  destruct (Decimal.gtb _ 0); apply IH.
Qed.

Lemma split_order_returns config draws trading_pair price fuel quantity r :
  0 < price ->
  _split_order config draws trading_pair price fuel quantity = Some r ->
  exists clips, r = Value clips.
Proof.
  intros Hprice. unfold _split_order.
  destruct (negb (split_order_enabled config)); [intros [= <-]; eauto|].
  destruct (Decimal.ltb _ _); [intros [= <-]; eauto|].
  destruct (split_loop _ _ _ _ _ _ _ _) as [r0|] eqn:Hloop; [|discriminate].
  apply split_loop_returns in Hloop as [clips ->]; [|assumption].
  destruct clips; intros [= <-]; eauto.
Qed.

Lemma run_clips_returns config gw fuel trading_pair side reduce_only clips :
  forall acc w r w',
    run_clips config gw fuel trading_pair side reduce_only clips acc w = Some (r, w') ->
    exists t, r = Value t.
Proof.
  induction clips as [|q rest IH]; intros acc w r w'; cbn [run_clips].
  - intros [= <- <-]; eauto.
  - unfold bind at 1.
    destruct (_execute_maker_loop _ _ _ _ _ _ _ _) as [[r0 w0]|] eqn:Hclip; [|discriminate].
    apply execute_maker_loop_cases in Hclip
      as (? & ? & ? & ? & ? & res & _ & _ & _ & -> & _).
    destruct (MakerExecutionResult.status res); try apply IH.
    intros [= <- <-]; eauto.
Qed.

Lemma Qdiv_pos_num (a b : Q) : 0 < b -> 0 < a / b -> 0 < a.
Proof.
  intros Hb Hab.
  assert (H : a == a / b * b) by (field; lra).
  rewrite H. apply Qmult_lt_0_compat; assumption.
Qed.

Lemma Qdiv_zero_num (a b : Q) : 0 < b -> a / b == 0 -> a == 0.
Proof.
  intros Hb Hab.
  assert (H : a == a / b * b) by (field; lra).
  rewrite H, Hab. ring.
Qed.

(** ** Classification of the outcome *)

(** C3.  When [_execute_maker_loop] returns without having caught an
    exception, with [fill_ratio = filled_quantity / target_quantity] and a
    positive [partial_fill_threshold]: a ratio at or above
    [partial_fill_threshold] gives SUCCESS, a ratio strictly between 0 and the
    threshold gives PARTIAL, a ratio of 0 gives FAILED.  When the requested
    quantity rounds to 0, [execute_delta] returns SKIPPED and leaves the world
    as it was: no call reaches the gateway, so no order is placed. *)
Theorem outcome_classification :
  (forall config gw trading_pair side target reduce_only fuel w res w',
      0 < partial_fill_threshold config ->
      _execute_maker_loop config gw trading_pair side target reduce_only fuel w
      = Some (Value res, w') ->
      MakerExecutionResult.error res = None ->
      let fill_ratio := MakerExecutionResult.filled_quantity res / target in
      (partial_fill_threshold config <= fill_ratio ->
       MakerExecutionResult.status res = SUCCESS)
      /\ (0 < fill_ratio -> fill_ratio < partial_fill_threshold config ->
          MakerExecutionResult.status res = PARTIAL)
      /\ (fill_ratio == 0 -> MakerExecutionResult.status res = FAILED))
  /\ (forall config gw draws fuel d w,
         _round_quantity (_get_trading_pair (PositionDelta.symbol d))
                         (Qabs (PositionDelta.delta d)) == 0 ->
         exists res,
           execute_delta config gw draws fuel d w = Some (Value res, w)
           /\ MakerExecutionResult.status res = SKIPPED).
Proof.
  split.
  - intros config gw trading_pair side target reduce_only fuel w res w' Hthr Hrun Herr.
    apply execute_maker_loop_cases in Hrun
      as (t0 & w0 & st & raised & w1 & res' & Hloop & _ & _ & Hres & Hfilled & _ & Hraised
          & _ & Hst).
    injection Hres as <-. rewrite Herr in Hraised. subst raised.
    destruct Hst as (fr & Hfr & Hstatus).
    rewrite Hfilled, Hstatus. unfold classify. cbv zeta.
    destruct (Qlt_le_dec 0 target) as [Htarget|Htarget].
    + destruct (fill_ratio_of_value (total_filled st) target) as (fr' & Hfr' & _ & Hdiv).
      rewrite Hfr in Hfr'. injection Hfr' as <-. specialize (Hdiv Htarget).
      rewrite <- Hdiv.
      split; [|split].
      * intros Hge. apply geb_ge in Hge. now rewrite Hge.
      * intros Hpos Hlt. apply geb_lt in Hlt. rewrite Hlt.
        assert (Hf : 0 < total_filled st)
          by (apply (Qdiv_pos_num _ target); [assumption | now rewrite <- Hdiv]).
        apply gtb_gt in Hf. now rewrite Hf.
      * intros Hzero.
        assert (Hlt : Decimal.geb fr (partial_fill_threshold config) = false)
          by (apply geb_lt; rewrite Hzero; assumption).
        rewrite Hlt.
        assert (Hf : total_filled st == 0)
          by (apply (Qdiv_zero_num _ target); [assumption | now rewrite <- Hdiv]).
        assert (Hg : Decimal.gtb (total_filled st) 0 = false) by (apply gtb_le; lra).
        now rewrite Hg.
    + (* the loop does not run: nothing is filled *)
      assert (Hst : st = initial_state target).
      { destruct fuel as [|fuel]; [discriminate|]. cbn [maker_loop] in Hloop.
        assert (Hg : Decimal.gtb (remaining (initial_state target)) 0 = false)
          by (apply gtb_le; exact Htarget).
        rewrite Hg in Hloop. cbn [andb] in Hloop. now injection Hloop as <- _. }
      subst st. cbn [total_filled initial_state].
      destruct (fill_ratio_of_value 0 target) as (fr' & Hfr' & Hz & _).
      cbn [total_filled initial_state] in Hfr. rewrite Hfr in Hfr'. injection Hfr' as <-.
      rewrite (Hz Htarget).
      assert (Hratio : 0 / target == 0) by (unfold Qdiv; ring).
      assert (Hlt : Decimal.geb 0 (partial_fill_threshold config) = false)
        by (apply geb_lt; assumption).
      rewrite Hlt. cbn.
      split; [|split]; [intros H; rewrite Hratio in H; lra
                       | intros H; rewrite Hratio in H; lra
                       | reflexivity].
  - intros config gw draws fuel d w Hzero. unfold execute_delta.
    apply eqb_eq in Hzero. rewrite Hzero. eexists. split; reflexivity.
Qed.

Lemma outcome_classification_witness :
  (exists res w',
      _execute_maker_loop default_config fills_096_then_rest "SOLUSDT" SELL 1 false 20
                          fresh_world = Some (Value res, w')
      /\ MakerExecutionResult.status res = SUCCESS)
  /\ (exists res,
         execute_delta default_config fills_at_once (fun _ => 200) 20 tiny_delta fresh_world
         = Some (Value res, fresh_world)
         /\ MakerExecutionResult.status res = SKIPPED).
Proof.
  split; [| apply (proj2 outcome_classification); vm_compute; reflexivity].
  assert (Hrun : exists res w',
             _execute_maker_loop default_config fills_096_then_rest "SOLUSDT" SELL 1 false 20
                                 fresh_world = Some (Value res, w')
             /\ MakerExecutionResult.error res = None
             /\ partial_fill_threshold default_config
                <= MakerExecutionResult.filled_quantity res / 1).
  { eexists. eexists. split; [vm_compute; reflexivity|].
    split; [reflexivity | vm_compute; discriminate]. }
  destruct Hrun as (res & w' & Hrun & Herr & Hratio).
  exists res, w'. split; [exact Hrun|].
  assert (Hthr : 0 < partial_fill_threshold default_config) by reflexivity.
  exact (proj1 (proj1 outcome_classification default_config fills_096_then_rest "SOLUSDT"
                      SELL 1 false 20%nat fresh_world res w' Hthr Hrun Herr) Hratio).
Defined.

(** C10.  Building a result never divides by zero: the average price is 0
    whenever the filled total is 0 and the fill ratio is 0 whenever the target
    is 0, so that [_execute_maker_loop] and [execute_delta] never end with an
    exception and a result with nothing filled has average price 0; the code
    after the loop and the [except] clause always return a result. *)
Theorem result_construction_never_divides_by_zero :
  (forall total_value total_filled,
      exists a, average_price_of total_value total_filled = Value a
                /\ (total_filled == 0 -> a = 0))
  /\ (forall total_filled target,
         exists r, fill_ratio_of total_filled target = Value r
                   /\ (target == 0 -> r = 0))
  /\ (forall config gw trading_pair side target reduce_only fuel w r w',
         _execute_maker_loop config gw trading_pair side target reduce_only fuel w
         = Some (r, w') ->
         exists res,
           r = Value res
           /\ (MakerExecutionResult.filled_quantity res == 0 ->
               MakerExecutionResult.average_price res = 0))
  /\ (forall config gw draws fuel d w r w',
         execute_delta config gw draws fuel d w = Some (r, w') ->
         exists res,
           r = Value res
           /\ (MakerExecutionResult.filled_quantity res == 0 ->
               MakerExecutionResult.average_price res = 0))
  /\ (forall config gw trading_pair target start_time st w,
         exists res w',
           on_completion config gw trading_pair target start_time st w = Some (Value res, w')
           /\ (total_filled st == 0 -> MakerExecutionResult.average_price res = 0))
  /\ (forall gw trading_pair target start_time st e w,
         exists res w',
           on_exception gw trading_pair target start_time st e w = Some (Value res, w')
           /\ (total_filled st == 0 -> MakerExecutionResult.average_price res = 0)).
Proof.
  split; [|split; [|split; [|split; [|split]]]].
  - intros tv tf. destruct (average_price_of_value tv tf) as (a & Ha & Hz & _).
    exists a. split; [assumption|]. intros H. apply Hz. lra.
  - intros tf target. destruct (fill_ratio_of_value tf target) as (r & Hr & Hz & _).
    exists r. split; [assumption|]. intros H. apply Hz. lra.
  - intros config gw trading_pair side target reduce_only fuel w r w' Hrun.
    apply execute_maker_loop_cases in Hrun
      as (t0 & w0 & st & raised & w1 & res & _ & _ & _ & -> & Hfilled & _ & _ & Havg & _).
    exists res. split; [reflexivity|]. intros Hzero.
    destruct (average_price_of_value (total_value st) (total_filled st)) as (a & Ha & Hz & _).
    rewrite Havg in Ha. injection Ha as <-. apply Hz. rewrite <- Hfilled. lra.
  - intros config gw draws fuel d w r w'. unfold execute_delta.
    destruct (Decimal.eqb _ 0).
    { intros [= <- <-]. eexists. split; reflexivity. }
    unfold bind at 1.
    destruct (_get_orderbook gw w) as [[book wb]|]; [|discriminate].
    match goal with
    | |- context [if Decimal.gtb ?p 0 then _ else _] =>
      destruct (Decimal.gtb p 0) eqn:Hprice
    end.
    + apply gtb_gt in Hprice.
      destruct (_split_order _ _ _ _ _ _) as [sp|] eqn:Hsplit; [|discriminate].
      apply split_order_returns in Hsplit as [clips ->]; [|assumption].
      unfold bind at 1. cbn [time_time]. unfold bind at 1.
      destruct (run_clips _ _ _ _ _ _ _ _ _) as [[tot wt]|] eqn:Hclips; [|discriminate].
      apply run_clips_returns in Hclips as [t ->].
      unfold bind at 1. cbn [time_time].
      destruct (fill_ratio_of_value (sum_filled t)
                  (_round_quantity (_get_trading_pair (PositionDelta.symbol d))
                                   (Qabs (PositionDelta.delta d)))) as (fr & -> & _).
      destruct (average_price_of_value (sum_value t) (sum_filled t)) as (a & -> & Hz & _).
      intros [= <- <-]. eexists. split; [reflexivity|]. cbn. intros H. apply Hz. lra.
    + unfold bind at 1. cbn [time_time]. unfold bind at 1.
      destruct (run_clips _ _ _ _ _ _ _ _ _) as [[tot wt]|] eqn:Hclips; [|discriminate].
      apply run_clips_returns in Hclips as [t ->].
      unfold bind at 1. cbn [time_time].
      destruct (fill_ratio_of_value (sum_filled t)
                  (_round_quantity (_get_trading_pair (PositionDelta.symbol d))
                                   (Qabs (PositionDelta.delta d)))) as (fr & -> & _).
      destruct (average_price_of_value (sum_value t) (sum_filled t)) as (a & -> & Hz & _).
      intros [= <- <-]. eexists. split; [reflexivity|]. cbn. intros H. apply Hz. lra.
  - intros config gw trading_pair target start_time st w.
    destruct (on_completion_total config gw trading_pair target start_time st w)
      as (res & w' & Hrun & _ & Hz).
    exists res, w'. split; [exact Hrun|]. intros H. apply Hz. lra.
  - intros gw trading_pair target start_time st e w.
    destruct (on_exception_total gw trading_pair target start_time st e w)
      as (res & w' & Hrun & _ & Hz).
    exists res, w'. split; [exact Hrun|]. intros H. apply Hz. lra.
Qed.

Lemma result_construction_never_divides_by_zero_witness :
  exists res w',
    _execute_maker_loop default_config never_fills "SOLUSDT" SELL 1 false 200 fresh_world
    = Some (Value res, w')
    /\ MakerExecutionResult.average_price res = 0.
Proof.
  assert (Hrun : exists r w',
             _execute_maker_loop default_config never_fills "SOLUSDT" SELL 1 false 200
                                 fresh_world = Some (r, w')
             /\ forall res, r = Value res -> MakerExecutionResult.filled_quantity res == 0).
  { eexists. eexists. split; [vm_compute; reflexivity|].
    intros res [= <-]. reflexivity. }
  destruct Hrun as (r & w' & Hrun & Hzero).
  destruct (proj1 (proj2 (proj2 result_construction_never_divides_by_zero))
                  default_config never_fills "SOLUSDT" SELL 1 false 200%nat fresh_world
                  r w' Hrun) as (res & Hr & Havg).
  exists res, w'. subst r. split; [exact Hrun|]. apply Havg. apply Hzero. reflexivity.
Defined.

(** ** Orders the exchange no longer knows, and cancels that fail *)

Section Reconciliation.

Variable config : MakerOrderConfig.
Variable gw : Gateway.
Variables (trading_pair : string) (side : OrderSide) (reduce_only : bool).

Lemma fold_remaining_taken (st : LoopState) :
  taken_as_filled st (clear_order (fold_remaining st)).
Proof. unfold taken_as_filled. cbn. repeat split; reflexivity. Qed.

Lemma requery_taken (status2 : string) (filled2 : Q) (st : LoopState) :
  String.eqb status2 "FILLED" || String.eqb status2 "NOT_FOUND" = true ->
  filled2 <= 0 ->
  taken_as_filled st (requery_outcome status2 filled2 st).
Proof.
  intros Hs Hf. unfold requery_outcome. rewrite Hs.
  apply gtb_le in Hf. rewrite Hf.
  unfold taken_as_filled. cbn. repeat split; try reflexivity. ring.
Qed.

(** [_get_order_status] pairs the status it makes up for an order the
    exchange does not know with the quantity 0. *)
Lemma unknown_order_is_not_found (s : string) (w : World) :
  String.eqb s "" = false ->
  get_order gw (n_get_order w) = GetOrderError true ->
  exists w', _get_order_status gw (Some s) w = Some (("NOT_FOUND", 0), w').
Proof.
  intros Hs Hans. unfold _get_order_status, bind, client_get_order.
  rewrite Hs, Hans. eexists. reflexivity.
Qed.

Lemma after_failed_cancel_eq (st : LoopState) (w : World) status2 filled2 w' :
  _get_order_status gw (current_order_id st) w = Some ((status2, filled2), w') ->
  after_failed_cancel gw st w = Some (Continue (requery_outcome status2 filled2 st), w').
Proof.
  intros Hq. unfold after_failed_cancel, bind. rewrite Hq.
  unfold requery_outcome, ret.
  destruct (String.eqb status2 "FILLED" || String.eqb status2 "NOT_FOUND"); reflexivity.
Qed.

Lemma loop_ends_when_nothing_remains fuel start_time (st : LoopState) (w : World) :
  remaining st == 0 ->
  maker_loop config gw trading_pair side reduce_only (S fuel) start_time st w
  = Some ((st, None), w).
Proof.
  intros Hz. cbn [maker_loop].
  assert (Hg : Decimal.gtb (remaining st) 0 = false) by (apply gtb_le; lra).
  now rewrite Hg.
Qed.

(** C4.  Wherever the loop queries the status of the live order (in the
    replace check, in the wait window, at the single-order timeout, and in
    the re-query that follows a failed cancel) and the answer is NOT_FOUND,
    the order is taken as filled for all that remained: the remaining
    quantity is added to the fill total, valued at the resting price, the
    remaining quantity becomes zero and the order slot is cleared; control
    stays in the loop, which then ends without an exception. *)
Theorem not_found_taken_as_filled :
  (forall best_price st w filled w1,
      truthy (current_order_id st) = true ->
      fst (_should_replace_order config side (current_order_price st) best_price) = true ->
      _get_order_status gw (current_order_id st) w = Some (("NOT_FOUND", filled), w1) ->
      exists st',
        replace_check config gw side best_price st w = Some (Continue st', w1)
        /\ taken_as_filled st st')
  /\ (forall fuel order_start st w now w1 w2 filled w3,
         time_time gw w = Some (now, w1) ->
         Decimal.ltb (now - order_start) (order_timeout config) = true ->
         sleep (inject_Z (check_interval_ms config) / 1000) w1 = Some (tt, w2) ->
         _get_order_status gw (current_order_id st) w2 = Some (("NOT_FOUND", filled), w3) ->
         exists st',
           wait_window config gw side (S fuel) order_start st w = Some (st', w3)
           /\ taken_as_filled st st')
  /\ (forall order_start st w now w1 filled w2,
         truthy (current_order_id st) = true ->
         time_time gw w = Some (now, w1) ->
         Decimal.geb (now - order_start) (order_timeout config) = true ->
         _get_order_status gw (current_order_id st) w1 = Some (("NOT_FOUND", filled), w2) ->
         exists st',
           timeout_replace config gw order_start st w = Some (Continue st', w2)
           /\ taken_as_filled st st')
  /\ (forall st w filled w1,
         _get_order_status gw (current_order_id st) w = Some (("NOT_FOUND", filled), w1) ->
         filled <= 0 ->
         exists st',
           after_failed_cancel gw st w = Some (Continue st', w1)
           /\ taken_as_filled st st')
  /\ (forall st st' fuel start_time w,
         taken_as_filled st st' ->
         maker_loop config gw trading_pair side reduce_only (S fuel) start_time st' w
         = Some ((st', None), w)).
Proof.
  split; [|split; [|split; [|split]]].
  - intros best_price st w filled w1 Hid Hrep Hq.
    exists (clear_order (fold_remaining st)). split; [|apply fold_remaining_taken].
    unfold replace_check. rewrite Hid.
    destruct (_should_replace_order config side (current_order_price st) best_price)
      as [b reason].
    cbn in Hrep. subst b. unfold bind. rewrite Hq. reflexivity.
  - intros fuel order_start st w now w1 w2 filled w3 Hnow Hlt Hsleep Hq.
    exists (clear_order (fold_remaining st)). split; [|apply fold_remaining_taken].
    cbn [wait_window]. unfold bind at 1. rewrite Hnow, Hlt.
    unfold bind at 1. rewrite Hsleep. unfold bind at 1. rewrite Hq. reflexivity.
  - intros order_start st w now w1 filled w2 Hid Hnow Hge Hq.
    exists (clear_order (fold_remaining st)). split; [|apply fold_remaining_taken].
    unfold timeout_replace. rewrite Hid. unfold bind at 1. rewrite Hnow, Hge.
    unfold bind at 1. rewrite Hq. reflexivity.
  - intros st w filled w1 Hq Hf.
    exists (requery_outcome "NOT_FOUND" filled st).
    split; [now apply after_failed_cancel_eq | now apply requery_taken].
  - intros st st' fuel start_time w (_ & _ & Hz & _).
    now apply loop_ends_when_nothing_remains.
Qed.

(** The branch taken when [cancel_order] returns [False], in the replace
    check and at the single-order timeout alike: the engine queries the
    status of the order again; FILLED or NOT_FOUND folds the reported
    quantity, or all that remained when the report is zero, into the fill
    total; any other answer folds nothing.  Either way the order slot is
    cleared, one iteration is counted and the pass ends with [continue]. *)
Lemma failed_cancel_requeries_status :
  (forall best_price st w status filled w1 w2,
      truthy (current_order_id st) = true ->
      fst (_should_replace_order config side (current_order_price st) best_price) = true ->
      _get_order_status gw (current_order_id st) w = Some ((status, filled), w1) ->
      status_in status ["FILLED"; "CANCELED"; "EXPIRED"; "REJECTED"] = false ->
      String.eqb status "NOT_FOUND" = false ->
      client_cancel_order gw (current_order_id st) w1 = Some (Value false, w2) ->
      replace_check config gw side best_price st w = after_failed_cancel gw st w2)
  /\ (forall order_start st w now w1 status filled w2 w3,
         truthy (current_order_id st) = true ->
         time_time gw w = Some (now, w1) ->
         Decimal.geb (now - order_start) (order_timeout config) = true ->
         _get_order_status gw (current_order_id st) w1 = Some ((status, filled), w2) ->
         String.eqb status "NOT_FOUND" = false ->
         String.eqb status "FILLED" = false ->
         client_cancel_order gw (current_order_id st) w2 = Some (Value false, w3) ->
         timeout_replace config gw order_start st w = after_failed_cancel gw st w3)
  /\ (forall st w,
         truthy (current_order_id st) = true ->
         exists id answer status2 filled2 w',
           trace w' = EvGetOrder id answer :: trace w
           /\ _get_order_status gw (current_order_id st) w = Some ((status2, filled2), w')
           /\ after_failed_cancel gw st w
              = Some (Continue (requery_outcome status2 filled2 st), w')).
Proof.
  split; [|split].
  - intros best_price st w status filled w1 w2 Hid Hrep Hq Hterm Hnf Hcancel.
    unfold replace_check. rewrite Hid.
    destruct (_should_replace_order config side (current_order_price st) best_price)
      as [b reason].
    cbn in Hrep. subst b. unfold bind at 1. rewrite Hq, Hterm, Hnf.
    unfold bind at 1. rewrite Hcancel. reflexivity.
  - intros order_start st w now w1 status filled w2 w3 Hid Hnow Hge Hq Hnf Hfilled Hcancel.
    unfold timeout_replace. rewrite Hid. unfold bind at 1. rewrite Hnow, Hge.
    unfold bind at 1. rewrite Hq, Hnf, Hfilled.
    unfold bind at 1. rewrite Hcancel. reflexivity.
  - intros st w Hid.
    destruct (current_order_id st) as [s|] eqn:Hs; [|discriminate].
    cbn in Hid. apply negb_true_iff in Hid.
    assert (Hq : exists status2 filled2,
               _get_order_status gw (Some s) w
               = Some ((status2, filled2),
                       {| n_clock := n_clock w; n_depth := n_depth w;
                          n_get_order := S (n_get_order w); n_place := n_place w;
                          n_cancel := n_cancel w;
                          trace := EvGetOrder s (get_order gw (n_get_order w)) :: trace w |})).
    { unfold _get_order_status, bind, client_get_order. rewrite Hid.
      destruct (get_order gw (n_get_order w)) as [status2 filled2|[|]];
        eexists; eexists; reflexivity. }
    destruct Hq as (status2 & filled2 & Hq).
    exists s, (get_order gw (n_get_order w)), status2, filled2. eexists.
    split; [|split; [exact Hq|]].
    + reflexivity.
    + apply after_failed_cancel_eq. rewrite Hs. exact Hq.
Qed.

End Reconciliation.

Lemma not_found_taken_as_filled_witness :
  exists st' w',
    timeout_replace default_config order_vanished (- (10 # 1)) live_order fresh_world
    = Some (Continue st', w')
    /\ taken_as_filled live_order st'.
Proof.
  destruct (proj1 (proj2 (proj2 (not_found_taken_as_filled
                                   default_config order_vanished "SOLUSDT" SELL false)))
                  (- (10 # 1)) live_order fresh_world 0
                  {| n_clock := 1; n_depth := 0; n_get_order := 0; n_place := 0;
                     n_cancel := 0; trace := [] |}
                  0
                  {| n_clock := 1; n_depth := 0; n_get_order := 1; n_place := 0;
                     n_cancel := 0; trace := [EvGetOrder "1" (GetOrderError true)] |}
                  eq_refl eq_refl eq_refl eq_refl) as (st' & Hrun & Htaken).
  exists st'. eexists. split; [exact Hrun | exact Htaken].
Defined.

Lemma failed_cancel_requeries_status_witness :
  exists st' w',
    timeout_replace default_config cancel_refused_order_filled (- (10 # 1)) live_order
                    fresh_world = Some (Continue st', w')
    /\ total_filled st' == 1
    /\ current_order_id st' = None.
Proof.
  rewrite (proj1 (proj2 (failed_cancel_requeries_status
                           default_config cancel_refused_order_filled SELL))
                 (- (10 # 1)) live_order fresh_world 0
                 {| n_clock := 1; n_depth := 0; n_get_order := 0; n_place := 0;
                    n_cancel := 0; trace := [] |}
                 "NEW" 0
                 {| n_clock := 1; n_depth := 0; n_get_order := 1; n_place := 0;
                    n_cancel := 0; trace := [EvGetOrder "1" (OrderDict "NEW" 0)] |}
                 {| n_clock := 1; n_depth := 0; n_get_order := 1; n_place := 0;
                    n_cancel := 1;
                    trace := [EvCancel "1" (Value false); EvGetOrder "1" (OrderDict "NEW" 0)] |}
                 eq_refl eq_refl eq_refl eq_refl eq_refl eq_refl eq_refl).
  eexists. eexists. split; [vm_compute; reflexivity|].
  split; [vm_compute; reflexivity | reflexivity].
Defined.

(** ** Quantities on the grid of a trading pair *)

Lemma to_integral_value_whole (x : Q) (k : Z) :
  x == inject_Z k -> Decimal.to_integral_value x = k.
Proof.
  unfold Qeq, Decimal.to_integral_value. cbn [Qnum Qden inject_Z]. intros H.
  assert (Hn : Qnum x = (k * Zpos (Qden x))%Z) by lia.
  rewrite Hn, Z.div_mul, Z.mod_mul by lia.
  now destruct (Qden x).
Qed.

Lemma pow10_nonzero (p : Z) : ~ Decimal.pow10 p == 0.
Proof. apply Qpower_not_0. discriminate. Qed.

Lemma on_grid_zero trading_pair : on_grid trading_pair 0.
Proof.
  exists 0%Z. unfold Qdiv. now rewrite Qmult_0_l.
Qed.

Lemma on_grid_minus trading_pair (a b : Q) :
  on_grid trading_pair a -> on_grid trading_pair b -> on_grid trading_pair (a - b).
Proof.
  intros [ka Ha] [kb Hb]. exists (ka - kb)%Z.
  rewrite Ha, Hb. unfold Zminus. rewrite inject_Z_plus, inject_Z_opp.
  field. apply pow10_nonzero.
Qed.

(** On the grid, rounding changes nothing, except that a quantity below the
    minimum order size becomes 0. *)
Lemma round_quantity_on_grid trading_pair (q : Q) :
  on_grid trading_pair q ->
  _round_quantity trading_pair q == q \/ _round_quantity trading_pair q == 0.
Proof.
  intros [k Hk]. unfold _round_quantity.
  set (factor := Decimal.pow10 (dict_get QUANTITY_PRECISION trading_pair 2%Z)) in *.
  assert (Hf : ~ factor == 0) by apply pow10_nonzero.
  assert (Hw : q * factor == inject_Z k) by (rewrite Hk; field; exact Hf).
  rewrite (to_integral_value_whole _ _ Hw).
  destruct (Decimal.ltb _ _); [right; reflexivity | left; symmetry; exact Hk].
Qed.

Lemma round_quantity_le trading_pair (q : Q) :
  on_grid trading_pair q -> 0 <= q -> _round_quantity trading_pair q <= q.
Proof.
  intros Hg Hq. destruct (round_quantity_on_grid _ _ Hg) as [H|H]; rewrite H; lra.
Qed.

(** ** The fill total of a clip *)

Lemma fills_within_orders_suffix trading_pair (tr tr' : list Event) :
  tr `suffix_of` tr' -> fills_within_orders trading_pair tr' -> fills_within_orders trading_pair tr.
Proof.
  intros [l ->]. induction l as [|e l IH]; [trivial|].
  cbn [app fills_within_orders]. destruct e; try exact IH. intros [_ H]. now apply IH.
Qed.

Lemma extends_refl w : extends w w.
Proof. unfold extends. reflexivity. Qed.

Lemma extends_trans w1 w2 w3 : extends w1 w2 -> extends w2 w3 -> extends w1 w3.
Proof. unfold extends. intros H1 H2. etransitivity; eassumption. Qed.

Section Conservation.

Variable config : MakerOrderConfig.
Variable gw : Gateway.
Variables (trading_pair : string) (side : OrderSide) (target : Q) (reduce_only : bool).

#[local] Abbreviation conserved := (conserved trading_pair target).
#[local] Abbreviation honest := (fills_within_orders trading_pair).
#[local] Abbreviation phase_ok := (keeps_invariant trading_pair target).

Lemma conserved_fold_fill (f : Q) (st : LoopState) :
  conserved st -> 0 <= f -> f <= remaining st -> on_grid trading_pair f ->
  conserved (fold_fill f st).
Proof.
  intros (Hsum & Hpos & Hgrid) H0 Hle Hf. unfold conserved. cbn.
  split; [lra|]. split; [lra|]. now apply on_grid_minus.
Qed.

Lemma conserved_fold_if_positive (f : Q) (st : LoopState) :
  conserved st -> 0 <= f -> f <= remaining st -> on_grid trading_pair f ->
  conserved (fold_if_positive f st).
Proof.
  intros. unfold fold_if_positive.
  destruct (Decimal.gtb f 0); [now apply conserved_fold_fill | assumption].
Qed.

Lemma conserved_fold_remaining (st : LoopState) :
  conserved st -> conserved (fold_remaining st).
Proof.
  intros (Hsum & Hpos & Hgrid). unfold conserved. cbn.
  split; [lra|]. split; [lra|]. apply on_grid_zero.
Qed.

Lemma conserved_requery (f : Q) (st : LoopState) :
  conserved st -> 0 <= f -> f <= remaining st -> on_grid trading_pair f ->
  conserved (fold_fill (if Decimal.gtb f 0 then f else remaining st) st).
Proof.
  intros Hc H0 Hle Hf. destruct (Decimal.gtb f 0).
  - now apply conserved_fold_fill.
  - destruct Hc as (Hsum & Hpos & Hgrid).
    apply conserved_fold_fill; [repeat split; assumption | assumption | lra | assumption].
Qed.

(** What a status query adds to the trace and what it reports. *)
Lemma get_order_status_cases (id : option string) (w : World) status filled w' :
  _get_order_status gw id w = Some ((status, filled), w') ->
  (truthy id = true
   /\ exists s a, trace w' = EvGetOrder s a :: trace w /\ filled = reported a)
  \/ (truthy id = false /\ w' = w /\ status = "UNKNOWN").
Proof.
  unfold _get_order_status, bind, client_get_order, ret.
  destruct id as [s|]; cbn [truthy].
  - destruct (String.eqb s "").
    + intros [= <- <- <-]. right. auto.
    + destruct (get_order gw (n_get_order w)) as [st0 q|[|]];
        intros [= <- <- <-]; left; (split; [reflexivity|]); do 2 eexists;
          (split; [reflexivity|]); reflexivity.
  - intros [= <- <- <-]. right. auto.
Qed.

(** The same with the bounds a well-behaved exchange gives. *)
Lemma get_order_status_honest (id : option string) (st : LoopState) (w : World)
      status filled w' :
  _get_order_status gw id w = Some ((status, filled), w') ->
  extends w w'
  /\ last_placed (trace w') = last_placed (trace w)
  /\ (honest (trace w') ->
      (truthy id = true /\ 0 <= filled /\ filled <= last_placed (trace w)
       /\ on_grid trading_pair filled)
      \/ (truthy id = false /\ status = "UNKNOWN")).
Proof.
  intros H. apply get_order_status_cases in H as [(Hid & s & a & Htr & ->)|(Hid & -> & ->)].
  - split; [unfold extends; rewrite Htr; apply suffix_cons_r; reflexivity|].
    split; [now rewrite Htr|].
    rewrite Htr. cbn [fills_within_orders]. intros ((H0 & Hle & Hg) & _). left. auto.
  - split; [apply extends_refl|]. split; [reflexivity|]. intros _. right. auto.
Qed.

Lemma cancel_order_extends (id : option string) (w : World) r w' :
  client_cancel_order gw id w = Some (r, w') ->
  extends w w' /\ last_placed (trace w') = last_placed (trace w).
Proof.
  unfold client_cancel_order.
  destruct id as [s|]; [destruct (String.eqb s "")|]; intros [= <- <-];
    (split; [|reflexivity]); try apply extends_refl.
  unfold extends. cbn [trace]. apply suffix_cons_r. reflexivity.
Qed.

Lemma order_bounded_cleared (st : LoopState) (w : World) :
  current_order_id st = None -> order_bounded st w.
Proof. unfold order_bounded. intros ->. discriminate. Qed.

Lemma phase_ok_refl (st : LoopState) (w : World) : phase_ok st w st w.
Proof. split; [apply extends_refl | auto]. Qed.

Lemma after_failed_cancel_ok (st : LoopState) (w : World) flow w' :
  truthy (current_order_id st) = true ->
  after_failed_cancel gw st w = Some (flow, w') ->
  phase_ok st w (state_of flow) w'.
Proof.
  intros Hid. unfold after_failed_cancel, bind.
  destruct (_get_order_status gw (current_order_id st) w) as [[[status2 filled2] w1]|] eqn:Hq;
    [|discriminate].
  intros [= <- <-].
  apply (get_order_status_honest _ st) in Hq as (Hext & Hlp & Hh).
  split; [exact Hext|]. intros Hc Hb Hhon. cbn [state_of].
  split; [|now apply order_bounded_cleared].
  destruct (Hh Hhon) as [(_ & H0 & Hle & Hg)|(Hf & _)]; [|congruence].
  specialize (Hb Hid).
  destruct (String.eqb status2 "FILLED" || String.eqb status2 "NOT_FOUND"); [|exact Hc].
  apply conserved_requery; [assumption | assumption | lra | assumption].
Qed.

(** The part shared by the replace check and the timeout: cancel, then
    reconcile. *)
Lemma cancel_then_reconcile_ok (st : LoopState) (w : World) (filled : Q) flow w' :
  truthy (current_order_id st) = true ->
  (let* cancelled := client_cancel_order gw (current_order_id st) in
   match cancelled with
   | Exception e => ret (Raise st e)
   | Value true =>
     ret (Proceed (clear_order (count_iteration (fold_if_positive filled st))))
   | Value false => after_failed_cancel gw st
   end) w = Some (flow, w') ->
  extends w w'
  /\ (conserved st -> order_bounded st w ->
      0 <= filled -> filled <= last_placed (trace w) -> on_grid trading_pair filled ->
      honest (trace w') ->
      conserved (state_of flow) /\ order_bounded (state_of flow) w').
Proof.
  intros Hid. unfold bind at 1.
  destruct (client_cancel_order gw (current_order_id st) w) as [[c w2]|] eqn:Hcancel;
    [|discriminate].
  apply cancel_order_extends in Hcancel as (Hext & Hlp).
  destruct c as [[|]|e].
  - intros [= <- <-]. split; [exact Hext|]. intros Hc Hb H0 Hle Hg _. cbn [state_of].
    split; [|now apply order_bounded_cleared].
    specialize (Hb Hid).
    apply conserved_fold_if_positive; [assumption | assumption | lra | assumption].
  - intros Hrun. apply after_failed_cancel_ok in Hrun as (Hext2 & Hinv); [|exact Hid].
    split; [eapply extends_trans; eassumption|].
    intros Hc Hb _ _ _ Hhon. apply Hinv; [exact Hc | | exact Hhon].
    unfold order_bounded. rewrite Hlp. exact Hb.
  - intros [= <- <-]. split; [exact Hext|]. intros Hc Hb _ _ _ _. cbn [state_of].
    split; [exact Hc|]. unfold order_bounded. rewrite Hlp. exact Hb.
Qed.

Lemma replace_check_ok (best_price : Q) (st : LoopState) (w : World) flow w' :
  replace_check config gw side best_price st w = Some (flow, w') ->
  phase_ok st w (state_of flow) w'.
Proof.
  unfold replace_check.
  destruct (truthy (current_order_id st)) eqn:Hid;
    [|intros [= <- <-]; apply phase_ok_refl].
  destruct (_should_replace_order config side (current_order_price st) best_price)
    as [[|] reason]; [|intros [= <- <-]; apply phase_ok_refl].
  unfold bind at 1.
  destruct (_get_order_status gw (current_order_id st) w) as [[[status filled] w1]|] eqn:Hq;
    [|discriminate].
  apply (get_order_status_honest _ st) in Hq as (Hext & Hlp & Hh).
  destruct (status_in status ["FILLED"; "CANCELED"; "EXPIRED"; "REJECTED"]).
  { intros [= <- <-]. split; [exact Hext|]. intros Hc Hb Hhon. cbn [state_of].
    split; [|now apply order_bounded_cleared].
    destruct (Hh Hhon) as [(_ & H0 & Hle & Hg)|(Hf & _)]; [|congruence].
    specialize (Hb Hid).
    apply conserved_fold_if_positive; [assumption | assumption | lra | assumption]. }
  destruct (String.eqb status "NOT_FOUND").
  { intros [= <- <-]. split; [exact Hext|]. intros Hc Hb Hhon. cbn [state_of].
    split; [|now apply order_bounded_cleared].
    now apply conserved_fold_remaining. }
  intros Hrun.
  apply cancel_then_reconcile_ok in Hrun as (Hext2 & Hinv); [|exact Hid].
  split; [eapply extends_trans; eassumption|].
  intros Hc Hb Hhon.
  assert (Hhon1 : honest (trace w1))
    by (eapply fills_within_orders_suffix; [exact Hext2 | exact Hhon]).
  destruct (Hh Hhon1) as [(_ & H0 & Hle & Hg)|(Hf & _)]; [|congruence].
  apply Hinv; try assumption.
  - unfold order_bounded. rewrite Hlp. exact Hb.
  - now rewrite Hlp.
Qed.

Lemma place_if_none_ok (best_price : Q) (st : LoopState) (w : World) flow w' :
  place_if_none gw side reduce_only best_price
                (_round_quantity trading_pair (remaining st)) st w = Some (flow, w') ->
  phase_ok st w (state_of flow) w'.
Proof.
  unfold place_if_none.
  destruct (current_order_id st) as [id|] eqn:Hid;
    [intros [= <- <-]; apply phase_ok_refl|].
  unfold bind at 1, _place_maker_order.
  assert (Hround : conserved st ->
                   _round_quantity trading_pair (remaining st) <= remaining st).
  { intros (_ & Hpos & Hgrid). now apply round_quantity_le. }
  destruct (place_order gw (n_place w)) as [r|e].
  - destruct (success r).
    + destruct (status r) as [s|]; [destruct (String.eqb s "REJECTED")|].
      * unfold bind, sleep, ret. intros [= <- <-].
        split; [unfold extends; cbn [trace]; do 2 apply suffix_cons_r; reflexivity|].
        intros Hc _ _. cbn [state_of]. split; [exact Hc|].
        now apply order_bounded_cleared.
      * intros [= <- <-].
        split; [unfold extends; cbn [trace]; apply suffix_cons_r; reflexivity|].
        intros Hc _ _. cbn [state_of]. split; [exact Hc|].
        intros _. cbn. now apply Hround.
      * intros [= <- <-].
        split; [unfold extends; cbn [trace]; apply suffix_cons_r; reflexivity|].
        intros Hc _ _. cbn [state_of]. split; [exact Hc|].
        intros _. cbn. now apply Hround.
    + unfold bind, sleep, ret. intros [= <- <-].
      split; [unfold extends; cbn [trace]; do 2 apply suffix_cons_r; reflexivity|].
      intros Hc _ _. cbn [state_of]. split; [exact Hc|].
      now apply order_bounded_cleared.
  - intros [= <- <-].
    split; [unfold extends; cbn [trace]; apply suffix_cons_r; reflexivity|].
    intros Hc _ _. cbn [state_of]. split; [exact Hc|].
    now apply order_bounded_cleared.
Qed.

Lemma phase_ok_quiet (st : LoopState) (w w' : World) : quiet w w' -> phase_ok st w st w'.
Proof.
  intros (Hext & Hlp). split; [exact Hext|]. intros Hc Hb _.
  split; [exact Hc|]. unfold order_bounded. rewrite Hlp. exact Hb.
Qed.

Lemma phase_ok_trans (st st1 st2 : LoopState) (w w1 w2 : World) :
  phase_ok st w st1 w1 -> phase_ok st1 w1 st2 w2 -> phase_ok st w st2 w2.
Proof.
  intros (Hext1 & H1) (Hext2 & H2). split; [eapply extends_trans; eassumption|].
  intros Hc Hb Hhon.
  assert (Hhon1 : honest (trace w1))
    by (eapply fills_within_orders_suffix; [exact Hext2 | exact Hhon]).
  destruct (H1 Hc Hb Hhon1) as (Hc1 & Hb1). now apply H2.
Qed.

Lemma time_time_quiet (w : World) now w' : time_time gw w = Some (now, w') -> quiet w w'.
Proof. intros [= <- <-]. split; [unfold extends; reflexivity | reflexivity]. Qed.

Lemma sleep_quiet (seconds : Q) (w : World) u w' : sleep seconds w = Some (u, w') -> quiet w w'.
Proof.
  intros [= <- <-]. split; [|reflexivity].
  unfold extends. cbn [trace]. apply suffix_cons_r. reflexivity.
Qed.

Lemma get_orderbook_quiet (w : World) book w' :
  _get_orderbook gw w = Some (book, w') -> quiet w w'.
Proof.
  unfold _get_orderbook, bind, client_get_depth, ret.
  assert (Hq : quiet w {| n_clock := n_clock w; n_depth := S (n_depth w);
                          n_get_order := n_get_order w; n_place := n_place w;
                          n_cancel := n_cancel w;
                          trace := EvDepth (get_depth gw (n_depth w)) :: trace w |}).
  { split; [|reflexivity]. unfold extends. cbn [trace]. apply suffix_cons_r. reflexivity. }
  destruct (get_depth gw (n_depth w)) as [d|e]; [|intros [= <- <-]; exact Hq].
  destruct (bids d) as [|[bid1 ?] ?]; [intros [= <- <-]; exact Hq|].
  destruct (asks d) as [|[ask1 ?] ?]; intros [= <- <-]; exact Hq.
Qed.

Lemma wait_window_ok (fuel : nat) :
  forall order_start st w st' w',
    wait_window config gw side fuel order_start st w = Some (st', w') ->
    phase_ok st w st' w'.
Proof.
  induction fuel as [|fuel IH]; intros order_start st w st' w'; [discriminate|].
  cbn [wait_window]. unfold bind at 1.
  destruct (time_time gw w) as [[now w1]|] eqn:Htime; [|discriminate].
  apply time_time_quiet in Htime.
  destruct (Decimal.ltb (now - order_start) (order_timeout config));
    [|intros [= <- <-]; now apply phase_ok_quiet].
  unfold bind at 1.
  destruct (sleep _ w1) as [[u w2]|] eqn:Hsleep; [|discriminate].
  apply sleep_quiet in Hsleep.
  intros Hrun.
  apply (phase_ok_trans st st st' w w1 w'); [now apply phase_ok_quiet|].
  apply (phase_ok_trans st st st' w1 w2 w'); [now apply phase_ok_quiet|].
  clear Htime Hsleep w w1. revert Hrun.
  unfold bind at 1.
  destruct (_get_order_status gw (current_order_id st) w2) as [[[status filled] w3]|] eqn:Hq;
    [|discriminate].
  apply (get_order_status_honest _ st) in Hq as (Hext & Hlp & Hh).
  assert (Hquiet : quiet w2 w3) by (split; assumption).
  destruct (String.eqb status "FILLED") eqn:Hfilled.
  { intros [= <- <-]. split; [exact Hext|]. intros Hc Hb Hhon.
    split; [|now apply order_bounded_cleared].
    destruct (Hh Hhon) as [(Hid & H0 & Hle & Hg)|(_ & ->)]; [|discriminate].
    specialize (Hb Hid).
    apply conserved_fold_fill; [assumption | assumption | lra | assumption]. }
  destruct (status_in status ["CANCELED"; "EXPIRED"; "REJECTED"]) eqn:Hended.
  { intros [= <- <-]. split; [exact Hext|]. intros Hc Hb Hhon.
    split; [|now apply order_bounded_cleared].
    destruct (Hh Hhon) as [(Hid & H0 & Hle & Hg)|(_ & ->)]; [|discriminate].
    specialize (Hb Hid).
    apply conserved_fold_if_positive; [assumption | assumption | lra | assumption]. }
  destruct (String.eqb status "NOT_FOUND").
  { intros [= <- <-]. split; [exact Hext|]. intros Hc Hb Hhon.
    split; [|now apply order_bounded_cleared].
    now apply conserved_fold_remaining. }
  intros Hrun.
  apply (phase_ok_trans st st st' w2 w3 w'); [now apply phase_ok_quiet|].
  revert Hrun.
  destruct (String.eqb status "PARTIALLY_FILLED"); [|apply IH].
  unfold bind at 1.
  destruct (_get_orderbook gw w3) as [[book w4]|] eqn:Hbook; [|discriminate].
  apply get_orderbook_quiet in Hbook.
  intros Hrun.
  apply (phase_ok_trans st st st' w3 w4 w'); [now apply phase_ok_quiet|].
  revert Hrun.
  destruct book as [[new_bid1 new_ask1]|e]; [|apply IH].
  destruct (fst (_should_replace_order config side (current_order_price st) _));
    [|apply IH].
  intros [= <- <-]. apply phase_ok_refl.
Qed.

Lemma timeout_replace_ok (order_start : Q) (st : LoopState) (w : World) flow w' :
  timeout_replace config gw order_start st w = Some (flow, w') ->
  phase_ok st w (state_of flow) w'.
Proof.
  unfold timeout_replace.
  destruct (truthy (current_order_id st)) eqn:Hid;
    [|intros [= <- <-]; apply phase_ok_refl].
  unfold bind at 1.
  destruct (time_time gw w) as [[now w1]|] eqn:Htime; [|discriminate].
  apply time_time_quiet in Htime.
  intros Hrun.
  apply (phase_ok_trans st st (state_of flow) w w1 w'); [now apply phase_ok_quiet|].
  clear Htime w. revert Hrun.
  destruct (Decimal.geb (now - order_start) (order_timeout config));
    [|intros [= <- <-]; apply phase_ok_refl].
  unfold bind at 1.
  destruct (_get_order_status gw (current_order_id st) w1) as [[[status filled] w2]|] eqn:Hq;
    [|discriminate].
  apply (get_order_status_honest _ st) in Hq as (Hext & Hlp & Hh).
  destruct (String.eqb status "NOT_FOUND").
  { intros [= <- <-]. split; [exact Hext|]. intros Hc Hb Hhon. cbn [state_of].
    split; [|now apply order_bounded_cleared].
    now apply conserved_fold_remaining. }
  destruct (String.eqb status "FILLED").
  { intros [= <- <-]. split; [exact Hext|]. intros Hc Hb Hhon. cbn [state_of].
    split; [|now apply order_bounded_cleared].
    destruct (Hh Hhon) as [(_ & H0 & Hle & Hg)|(Hf & _)]; [|congruence].
    specialize (Hb Hid).
    apply conserved_fold_fill; [assumption | assumption | lra | assumption]. }
  intros Hrun.
  apply cancel_then_reconcile_ok in Hrun as (Hext2 & Hinv); [|exact Hid].
  split; [eapply extends_trans; eassumption|].
  intros Hc Hb Hhon.
  assert (Hhon1 : honest (trace w2))
    by (eapply fills_within_orders_suffix; [exact Hext2 | exact Hhon]).
  destruct (Hh Hhon1) as [(_ & H0 & Hle & Hg)|(Hf & _)]; [|congruence].
  apply Hinv; try assumption.
  - unfold order_bounded. rewrite Hlp. exact Hb.
  - now rewrite Hlp.
Qed.

Lemma loop_body_ok (fuel : nat) (start_time : Q) (st : LoopState) (w : World) flow w' :
  loop_body config gw trading_pair side reduce_only fuel start_time st w = Some (flow, w') ->
  phase_ok st w (state_of flow) w'.
Proof.
  unfold loop_body. unfold bind at 1.
  destruct (time_time gw w) as [[now w1]|] eqn:Htime; [|discriminate].
  apply time_time_quiet in Htime. intros Hrun.
  apply (phase_ok_trans st st (state_of flow) w w1 w'); [now apply phase_ok_quiet|].
  clear Htime w. revert Hrun.
  destruct (Decimal.gtb (now - start_time) (total_timeout config));
    [intros [= <- <-]; apply phase_ok_refl|].
  unfold bind at 1.
  destruct (_get_orderbook gw w1) as [[book w2]|] eqn:Hbook; [|discriminate].
  apply get_orderbook_quiet in Hbook. intros Hrun.
  apply (phase_ok_trans st st (state_of flow) w1 w2 w'); [now apply phase_ok_quiet|].
  clear Hbook w1. revert Hrun.
  destruct book as [[bid1 ask1]|e].
  2:{ unfold bind at 1.
      destruct (sleep 1 w2) as [[u w3]|] eqn:Hsleep; [|discriminate].
      apply sleep_quiet in Hsleep. intros [= <- <-]. now apply phase_ok_quiet. }
  unfold bind at 1.
  destruct (replace_check config gw side _ st w2) as [[checked w3]|] eqn:Hcheck;
    [|discriminate].
  apply replace_check_ok in Hcheck.
  destruct checked as [st1|st1|st1|st1 e]; try (intros [= <- <-]; exact Hcheck).
  cbn [state_of] in Hcheck. intros Hrun.
  apply (phase_ok_trans st st1 (state_of flow) w2 w3 w'); [exact Hcheck|].
  clear Hcheck. revert Hrun.
  destruct (Decimal.eqb (_round_quantity trading_pair (remaining st1)) 0);
    [intros [= <- <-]; apply phase_ok_refl|].
  unfold bind at 1.
  destruct (place_if_none gw side reduce_only _ _ st1 w3) as [[placed w4]|] eqn:Hplace;
    [|discriminate].
  apply place_if_none_ok in Hplace.
  destruct placed as [st2|st2|st2|st2 e]; try (intros [= <- <-]; exact Hplace).
  cbn [state_of] in Hplace. intros Hrun.
  apply (phase_ok_trans st1 st2 (state_of flow) w3 w4 w'); [exact Hplace|].
  clear Hplace. revert Hrun.
  unfold bind at 1.
  destruct (time_time gw w4) as [[order_start w5]|] eqn:Htime; [|discriminate].
  apply time_time_quiet in Htime. intros Hrun.
  apply (phase_ok_trans st2 st2 (state_of flow) w4 w5 w'); [now apply phase_ok_quiet|].
  clear Htime. revert Hrun.
  unfold bind at 1.
  destruct (wait_window config gw side fuel order_start st2 w5) as [[st3 w6]|] eqn:Hwait;
    [|discriminate].
  apply wait_window_ok in Hwait. intros Hrun.
  apply (phase_ok_trans st2 st3 (state_of flow) w5 w6 w'); [exact Hwait|].
  now apply timeout_replace_ok in Hrun.
Qed.

Lemma maker_loop_ok (fuel : nat) :
  forall start_time st w st' raised w',
    maker_loop config gw trading_pair side reduce_only fuel start_time st w
    = Some ((st', raised), w') ->
    phase_ok st w st' w'.
Proof.
  induction fuel as [|fuel IH]; intros start_time st w st' raised w'; [discriminate|].
  cbn [maker_loop].
  destruct (Decimal.gtb (remaining st) 0 && (iterations st <? max_iterations config)%Z);
    [|intros [= <- <- <-]; apply phase_ok_refl].
  unfold bind at 1.
  destruct (loop_body config gw trading_pair side reduce_only fuel start_time st w)
    as [[flow w1]|] eqn:Hbody; [|discriminate].
  apply loop_body_ok in Hbody.
  destruct flow as [st1|st1|st1|st1 e]; cbn [state_of] in Hbody.
  - intros Hrun. apply IH in Hrun. eapply phase_ok_trans; eassumption.
  - intros Hrun. apply IH in Hrun. eapply phase_ok_trans; eassumption.
  - intros [= <- <- <-]. exact Hbody.
  - intros [= <- <- <-]. exact Hbody.
Qed.


End Conservation.

(** The loop adds the executed quantity as it is reported and has no clamp
    of its own: were an order for one unit reported as filled for two, the
    result would have [filled_quantity = 2] for a target of 1.  The bound
    on the fill total therefore rests on the exchange reporting the fills of
    the order it was sent. *)
Lemma filled_can_exceed_target :
  exists res w',
    _execute_maker_loop default_config reports_two "SOLUSDT" SELL 1 false 10 fresh_world
    = Some (Value res, w')
    /\ ~ MakerExecutionResult.filled_quantity res <= MakerExecutionResult.target_quantity res.
Proof.
  eexists. eexists. split; [vm_compute; reflexivity|]. vm_compute. intros H. now apply H.
Qed.

(** ** Splitting a quantity that is on the grid *)

Lemma on_grid_Qeq trading_pair (a b : Q) : a == b -> on_grid trading_pair a -> on_grid trading_pair b.
Proof. intros Hab [k Hk]. exists k. now rewrite <- Hab. Qed.

Lemma round_quantity_lands_on_grid trading_pair (q : Q) :
  on_grid trading_pair (_round_quantity trading_pair q).
Proof.
  unfold _round_quantity. destruct (Decimal.ltb _ _); [apply on_grid_zero|].
  eexists. reflexivity.
Qed.

(** The result of [_round_quantity] is 0 or at least the minimum order size. *)
Lemma round_quantity_zero_or_minimum trading_pair (q : Q) :
  _round_quantity trading_pair q = 0
  \/ dict_get MIN_QUANTITY trading_pair (1 # 1000) <= _round_quantity trading_pair q.
Proof.
  unfold _round_quantity. destruct (Decimal.ltb _ _) eqn:H; [left; reflexivity|].
  right. now apply ltb_ge in H.
Qed.

Lemma Qsum_snoc (l : list Q) (x : Q) : Qsum (l ++ [x]) == Qsum l + x.
Proof.
  induction l as [|y l IH]; cbn; [ring|].
  unfold Qsum in IH. rewrite IH. ring.
Qed.

Lemma Qdiv_nonneg (a b : Q) : 0 <= a -> 0 < b -> 0 <= a / b.
Proof. intros Ha Hb. apply Qle_shift_div_l; [assumption | lra]. Qed.

Lemma Qmult_le_of_div (a b c : Q) : 0 < c -> a <= b / c -> a * c <= b.
Proof.
  intros Hc H. assert (Hb : b == b / c * c) by (field; lra).
  rewrite Hb. apply Qmult_le_r; assumption.
Qed.

Section SplitOnGrid.

Variable config : MakerOrderConfig.
Variable draws : nat -> Q.
Variable trading_pair : string.
Variables price quantity : Q.
Hypothesis price_positive : 0 < price.

Lemma split_loop_within (fuel : nat) :
  forall n_draw remaining_value acc clips,
    0 <= remaining_value ->
    on_grid trading_pair (remaining_value / price) ->
    Qsum acc + remaining_value / price == quantity ->
    split_loop config draws trading_pair price fuel n_draw remaining_value acc
    = Some (Value clips) ->
    Qsum clips <= quantity.
Proof.
  induction fuel as [|fuel IH]; intros n_draw rv acc clips Hrv Hgrid Hsum; [discriminate|].
  assert (Hrq : 0 <= rv / price) by now apply Qdiv_nonneg.
  cbn [split_loop].
  destruct (Decimal.gtb rv 0); [|intros [= <-]; lra].
  destruct (if Decimal.leb rv (split_order_max_value config) then _ else _) as [sv n'].
  rewrite !div_some by lra.
  destruct (Decimal.gtb (_round_quantity trading_pair (sv / price)) 0);
    [|intros [= <-]; lra].
  set (split_qty := if Decimal.gtb (_round_quantity trading_pair (sv / price)) (rv / price)
                    then _round_quantity trading_pair (rv / price)
                    else _round_quantity trading_pair (sv / price)).
  assert (Hle : split_qty <= rv / price).
  { subst split_qty. destruct (Decimal.gtb _ (rv / price)) eqn:Hgt.
    - now apply round_quantity_le.
    - now apply gtb_le in Hgt. }
  assert (Hsg : on_grid trading_pair split_qty).
  { subst split_qty. destruct (Decimal.gtb _ (rv / price));
      apply round_quantity_lands_on_grid. }
  destruct (Decimal.gtb split_qty 0); [|now apply IH].
  assert (Hdiv : (rv - split_qty * price) / price == rv / price - split_qty)
    by (field; lra).
  apply IH.
  - apply Qmult_le_of_div in Hle; [lra | assumption].
  - apply (on_grid_Qeq _ (rv / price - split_qty)); [now symmetry|].
    now apply on_grid_minus.
  - rewrite Qsum_snoc, Hdiv. lra.
Qed.

(** For a quantity on the grid, as [execute_delta] passes it, the clips of
    [_split_order] add up to no more than the quantity. *)
Lemma split_order_within_input (fuel : nat) (clips : list Q) :
  0 <= quantity ->
  on_grid trading_pair quantity ->
  _split_order config draws trading_pair price fuel quantity = Some (Value clips) ->
  Qsum clips <= quantity.
Proof.
  intros Hq Hgrid. unfold _split_order.
  assert (Hone : Qsum [quantity] <= quantity) by (cbn; lra).
  destruct (negb (split_order_enabled config)); [intros [= <-]; exact Hone|].
  destruct (Decimal.ltb _ _); [intros [= <-]; exact Hone|].
  destruct (split_loop _ _ _ _ _ _ _ _) as [[l|e]|] eqn:Hloop; try discriminate.
  assert (Hl : Qsum l <= quantity).
  { apply (split_loop_within fuel 0%nat (quantity * price) [] l); try assumption.
    - apply Qmult_le_0_compat; lra.
    - apply (on_grid_Qeq _ quantity); [field; lra | assumption].
    - cbn. field. lra. }
  destruct l; intros [= <-]; [exact Hone | exact Hl].
Qed.

End SplitOnGrid.

(** ** The rounding mode of [to_integral_value] *)

(** [to_integral_value] returns an integer at distance at most one half, and
    an even one when the distance is exactly one half. *)
Lemma to_integral_value_nearest (x : Q) :
  let k := Decimal.to_integral_value x in
  - (1 # 2) <= inject_Z k - x /\ inject_Z k - x <= 1 # 2
  /\ (inject_Z k - x == 1 # 2 \/ inject_Z k - x == - (1 # 2) -> Z.even k = true).
Proof.
  destruct x as [n d]. unfold Decimal.to_integral_value. cbn [Qnum Qden].
  pose proof (Z.div_mod n (Zpos d) ltac:(lia)) as Hdm.
  pose proof (Z.mod_pos_bound n (Zpos d) ltac:(lia)) as Hr.
  set (fl := (n / Zpos d)%Z) in *. set (r := (n mod Zpos d)%Z) in *.
  assert (Hval : forall k : Z, inject_Z k - (n # d) == (k * Zpos d - n) # d).
  { intros k. unfold Qeq, Qminus, Qplus, Qopp, inject_Z. cbn. lia. }
  assert (Hle : forall (a : Z) (p q : Z), (a # d) <= p # 2 <-> (2 * a <= p * Zpos d)%Z).
  { intros a p q. unfold Qle. cbn. lia. }
  destruct (2 * r ?= Zpos d)%Z eqn:Hc.
  - apply Z.compare_eq in Hc.
    destruct (Z.even fl) eqn:Hev; cbv zeta; rewrite Hval; unfold Qle, Qeq; cbn.
    + split; [lia|]. split; [lia|]. intros _. exact Hev.
    + split; [lia|]. split; [lia|]. intros _. rewrite Z.even_add, Hev. reflexivity.
  - rewrite Z.compare_lt_iff in Hc. cbv zeta. rewrite Hval. unfold Qle, Qeq. cbn.
    split; [lia|]. split; [lia|]. intros [H|H]; lia.
  - rewrite Z.compare_gt_iff in Hc. cbv zeta. rewrite Hval. unfold Qle, Qeq. cbn.
    split; [lia|]. split; [lia|]. intros [H|H]; lia.
Qed.

(** There is only one such integer. *)
Lemma nearest_even_unique (x : Q) (k1 k2 : Z) :
  - (1 # 2) <= inject_Z k1 - x -> inject_Z k1 - x <= 1 # 2 ->
  (inject_Z k1 - x == 1 # 2 \/ inject_Z k1 - x == - (1 # 2) -> Z.even k1 = true) ->
  - (1 # 2) <= inject_Z k2 - x -> inject_Z k2 - x <= 1 # 2 ->
  (inject_Z k2 - x == 1 # 2 \/ inject_Z k2 - x == - (1 # 2) -> Z.even k2 = true) ->
  k1 = k2.
Proof.
  intros L1 U1 E1 L2 U2 E2.
  assert (Hd : inject_Z k1 - inject_Z k2 <= 1 /\ - (1) <= inject_Z k1 - inject_Z k2).
  { clear E1 E2. set (q1 := inject_Z k1) in *. set (q2 := inject_Z k2) in *.
    clearbody q1 q2. split; lra. }
  destruct Hd as (Hd1 & Hd2).
  assert (Hz : (k1 - k2 <= 1)%Z /\ (-1 <= k1 - k2)%Z).
  { split.
    - assert (H : inject_Z (k1 - k2) <= inject_Z 1).
      { unfold Z.sub. rewrite inject_Z_plus, inject_Z_opp. change (inject_Z 1) with 1. lra. }
      now rewrite <- Zle_Qle in H.
    - assert (H : inject_Z (-1) <= inject_Z (k1 - k2)).
      { unfold Z.sub. rewrite inject_Z_plus, inject_Z_opp. change (inject_Z (-1)) with (- (1)).
        lra. }
      now rewrite <- Zle_Qle in H. }
  destruct (Z.eq_dec k1 k2) as [|Hne]; [assumption|exfalso].
  assert (Hcase : (k1 = k2 + 1 \/ k2 = k1 + 1)%Z) by lia.
  destruct Hcase as [->| ->].
  - rewrite inject_Z_plus in *. change (inject_Z 1) with 1 in *.
    assert (Ha : inject_Z k2 + 1 - x == 1 # 2) by lra.
    assert (Hb : inject_Z k2 - x == - (1 # 2)) by lra.
    specialize (E1 (or_introl Ha)). specialize (E2 (or_intror Hb)).
    rewrite Z.even_add, E2 in E1. discriminate.
  - rewrite inject_Z_plus in *. change (inject_Z 1) with 1 in *.
    assert (Ha : inject_Z k1 + 1 - x == 1 # 2) by lra.
    assert (Hb : inject_Z k1 - x == - (1 # 2)) by lra.
    specialize (E2 (or_introl Ha)). specialize (E1 (or_intror Hb)).
    rewrite Z.even_add, E1 in E2. discriminate.
Qed.

Lemma to_integral_value_Qeq (x y : Q) :
  x == y -> Decimal.to_integral_value x = Decimal.to_integral_value y.
Proof.
  intros Hxy.
  destruct (to_integral_value_nearest x) as (L1 & U1 & E1).
  destruct (to_integral_value_nearest y) as (L2 & U2 & E2).
  apply (nearest_even_unique x); try assumption; rewrite ?Hxy; assumption.
Qed.

Lemma to_integral_value_monotone (x y : Q) :
  x <= y -> (Decimal.to_integral_value x <= Decimal.to_integral_value y)%Z.
Proof.
  intros Hxy.
  destruct (to_integral_value_nearest x) as (L1 & U1 & E1).
  destruct (to_integral_value_nearest y) as (L2 & U2 & E2).
  set (k1 := Decimal.to_integral_value x) in *.
  set (k2 := Decimal.to_integral_value y) in *.
  destruct (Z_le_gt_dec k1 k2) as [|Hgt]; [assumption|exfalso].
  assert (Hq : inject_Z (k2 + 1) <= inject_Z k1) by (rewrite <- Zle_Qle; lia).
  rewrite inject_Z_plus in Hq. change (inject_Z 1) with 1 in Hq.
  assert (Ha : inject_Z k1 - x == 1 # 2) by lra.
  assert (Hb : inject_Z k2 - y == - (1 # 2)) by lra.
  assert (Hk : inject_Z k1 == inject_Z k2 + inject_Z 1) by (change (inject_Z 1) with 1; lra).
  specialize (E1 (or_introl Ha)). specialize (E2 (or_intror Hb)).
  assert (Hk' : k1 = (k2 + 1)%Z).
  { assert (Hle : inject_Z k1 <= inject_Z (k2 + 1)) by (rewrite inject_Z_plus; lra).
    rewrite <- Zle_Qle in Hle. lia. }
  rewrite Hk', Z.even_add, E2 in E1. discriminate.
Qed.

(** ** Rounding to the grid of a trading pair *)

Lemma pow10_positive (p : Z) : 0 < Decimal.pow10 p.
Proof. apply Qpower_0_lt. reflexivity. Qed.

Lemma min_quantity_positive (trading_pair : string) :
  0 < dict_get MIN_QUANTITY trading_pair (1 # 1000).
Proof.
  unfold dict_get, MIN_QUANTITY. rewrite !lookup_insert, lookup_empty.
  repeat case_decide; reflexivity.
Qed.


(** Scaling, rounding to an integer and scaling back moves a number by at
    most half a unit of the last place. *)
Lemma rescaled_nearest (p : Z) (x : Q) :
  Qabs (inject_Z (Decimal.to_integral_value (x * Decimal.pow10 p)) / Decimal.pow10 p - x)
  <= (1 # 2) / Decimal.pow10 p.
Proof.
  pose proof (pow10_positive p) as HF. set (F := Decimal.pow10 p) in *.
  destruct (to_integral_value_nearest (x * F)) as (L & U & _).
  set (k := inject_Z (Decimal.to_integral_value (x * F))) in *.
  assert (Hd : k / F - x == (k - x * F) / F) by (field; lra).
  rewrite Hd. apply Qabs_Qle_condition. split.
  - apply Qle_shift_div_l; [assumption|].
    assert (He : - ((1 # 2) / F) * F == - (1 # 2)) by (field; lra).
    rewrite He. exact L.
  - apply Qle_shift_div_r; [assumption|].
    assert (He : (1 # 2) / F * F == 1 # 2) by (field; lra).
    rewrite He. exact U.
Qed.

Lemma rescaled_monotone (p : Z) (x y : Q) :
  x <= y ->
  inject_Z (Decimal.to_integral_value (x * Decimal.pow10 p)) / Decimal.pow10 p
  <= inject_Z (Decimal.to_integral_value (y * Decimal.pow10 p)) / Decimal.pow10 p.
Proof.
  intros Hxy. pose proof (pow10_positive p) as HF. set (F := Decimal.pow10 p) in *.
  assert (Hm : x * F <= y * F) by (apply Qmult_le_compat_r; lra).
  apply to_integral_value_monotone in Hm. rewrite Zle_Qle in Hm.
  unfold Qdiv. apply Qmult_le_compat_r; [exact Hm|].
  apply Qlt_le_weak, Qinv_lt_0_compat, HF.
Qed.

Lemma round_quantity_on_grid_at_least_min trading_pair (q : Q) :
  on_grid trading_pair q ->
  dict_get MIN_QUANTITY trading_pair (1 # 1000) <= q ->
  _round_quantity trading_pair q == q.
Proof.
  intros [k Hk] Hmin. unfold _round_quantity.
  set (factor := Decimal.pow10 (dict_get QUANTITY_PRECISION trading_pair 2%Z)) in *.
  assert (Hf : ~ factor == 0) by apply pow10_nonzero.
  assert (Hw : q * factor == inject_Z k) by (rewrite Hk; field; exact Hf).
  rewrite (to_integral_value_whole _ _ Hw).
  assert (Hlt : Decimal.ltb (inject_Z k / factor) (dict_get MIN_QUANTITY trading_pair (1 # 1000))
                = false) by (apply ltb_ge; rewrite <- Hk; exact Hmin).
  rewrite Hlt. symmetry. exact Hk.
Qed.

(** X1.  What [_round_quantity] returns is a whole number of quantity steps,
    it is 0 or at least the minimum order size, and rounding it again
    changes nothing. *)
Theorem round_quantity_idempotent (trading_pair : string) (q : Q) :
  on_grid trading_pair (_round_quantity trading_pair q)
  /\ (_round_quantity trading_pair q = 0
      \/ dict_get MIN_QUANTITY trading_pair (1 # 1000) <= _round_quantity trading_pair q)
  /\ _round_quantity trading_pair (_round_quantity trading_pair q)
     == _round_quantity trading_pair q.
Proof.
  split; [apply round_quantity_lands_on_grid|].
  split; [apply round_quantity_zero_or_minimum|].
  destruct (round_quantity_zero_or_minimum trading_pair q) as [Hz|Hmin].
  - rewrite Hz.
    destruct (round_quantity_on_grid trading_pair 0 (on_grid_zero _)) as [H|H]; exact H.
  - apply round_quantity_on_grid_at_least_min; [apply round_quantity_lands_on_grid | exact Hmin].
Qed.

(** X2.  Unless it returns 0, [_round_quantity] returns a quantity within
    half a step of its argument (above or below it), and it does not return 0
    for an argument of at least the minimum order size plus half a step. *)
Theorem round_quantity_nearest (trading_pair : string) (q : Q) :
  let step := 1 / Decimal.pow10 (dict_get QUANTITY_PRECISION trading_pair 2%Z) in
  (_round_quantity trading_pair q = 0
   \/ Qabs (_round_quantity trading_pair q - q) <= step / 2)
  /\ (dict_get MIN_QUANTITY trading_pair (1 # 1000) + step / 2 <= q ->
      dict_get MIN_QUANTITY trading_pair (1 # 1000) <= _round_quantity trading_pair q).
Proof.
  cbv zeta. unfold _round_quantity.
  pose proof (rescaled_nearest (dict_get QUANTITY_PRECISION trading_pair 2%Z) q) as Hn.
  pose proof (pow10_positive (dict_get QUANTITY_PRECISION trading_pair 2%Z)) as HF.
  set (F := Decimal.pow10 (dict_get QUANTITY_PRECISION trading_pair 2%Z)) in *.
  set (rounded := inject_Z (Decimal.to_integral_value (q * F)) / F) in *.
  assert (Hs : 1 / F / 2 == (1 # 2) / F) by (field; lra).
  rewrite Hs.
  split.
  - destruct (Decimal.ltb rounded _); [left; reflexivity | right; exact Hn].
  - intros Hq. apply Qabs_Qle_condition in Hn as (Hl & _).
    assert (Hmin : dict_get MIN_QUANTITY trading_pair (1 # 1000) <= rounded) by lra.
    assert (Hlt : Decimal.ltb rounded (dict_get MIN_QUANTITY trading_pair (1 # 1000)) = false)
      by (apply ltb_ge; exact Hmin).
    rewrite Hlt. exact Hmin.
Qed.

(** X3.  [_round_quantity] is monotone: a larger quantity never rounds to a
    smaller one. *)
Theorem round_quantity_monotone (trading_pair : string) (q1 q2 : Q) :
  q1 <= q2 -> _round_quantity trading_pair q1 <= _round_quantity trading_pair q2.
Proof.
  intros Hq. unfold _round_quantity.
  pose proof (rescaled_monotone (dict_get QUANTITY_PRECISION trading_pair 2%Z) q1 q2 Hq) as Hm.
  pose proof (min_quantity_positive trading_pair) as Hmin.
  set (F := Decimal.pow10 (dict_get QUANTITY_PRECISION trading_pair 2%Z)) in *.
  set (r1 := inject_Z (Decimal.to_integral_value (q1 * F)) / F) in *.
  set (r2 := inject_Z (Decimal.to_integral_value (q2 * F)) / F) in *.
  set (m := dict_get MIN_QUANTITY trading_pair (1 # 1000)) in *.
  destruct (Decimal.ltb r1 m) eqn:H1; destruct (Decimal.ltb r2 m) eqn:H2.
  - lra.
  - apply ltb_ge in H2. lra.
  - apply ltb_ge in H1. apply ltb_lt in H2. lra.
  - exact Hm.
Qed.

Lemma round_quantity_monotone_witness :
  _round_quantity "SOLUSDT" (12345 # 1000) <= _round_quantity "SOLUSDT" (12346 # 1000).
Proof. apply round_quantity_monotone. vm_compute. discriminate. Defined.

Lemma round_quantity_nearest_witness :
  (1 # 100) <= _round_quantity "SOLUSDT" (15 # 1000).
Proof.
  apply (proj2 (round_quantity_nearest "SOLUSDT" (15 # 1000))). vm_compute. discriminate.
Defined.

(** X4.  [_round_price] returns a price within half a tick of its argument,
    is monotone, and leaves a price it has returned unchanged. *)
Theorem round_price_nearest (config : MakerOrderConfig) (trading_pair : string) (p1 p2 : Q) :
  let tick := 1 / Decimal.pow10 (dict_get (price_precision config) trading_pair 2%Z) in
  Qabs (_round_price config trading_pair p1 - p1) <= tick / 2
  /\ (p1 <= p2 -> _round_price config trading_pair p1 <= _round_price config trading_pair p2)
  /\ _round_price config trading_pair (_round_price config trading_pair p1)
     == _round_price config trading_pair p1.
Proof.
  cbv zeta. unfold _round_price.
  pose proof (pow10_positive (dict_get (price_precision config) trading_pair 2%Z)) as HF.
  set (prec := dict_get (price_precision config) trading_pair 2%Z) in *.
  set (F := Decimal.pow10 prec) in *.
  assert (Hs : 1 / F / 2 == (1 # 2) / F) by (field; lra).
  split; [rewrite Hs; apply rescaled_nearest|].
  split; [apply rescaled_monotone|].
  set (k := Decimal.to_integral_value (p1 * F)).
  assert (Hw : inject_Z k / F * F == inject_Z k) by (field; lra).
  rewrite (to_integral_value_whole _ _ Hw). reflexivity.
Qed.

Lemma round_price_nearest_witness :
  _round_price default_config "SOLUSDT" (9999 # 100) <= _round_price default_config "SOLUSDT" 100.
Proof.
  apply (proj1 (proj2 (round_price_nearest default_config "SOLUSDT" (9999 # 100) 100))).
  vm_compute. discriminate.
Defined.

(** ** The clips of [_split_order] *)

Lemma round_quantity_positive_at_least_min trading_pair (q : Q) :
  0 < _round_quantity trading_pair q ->
  dict_get MIN_QUANTITY trading_pair (1 # 1000) <= _round_quantity trading_pair q.
Proof.
  intros Hpos. destruct (round_quantity_zero_or_minimum trading_pair q) as [Hz|H]; [|exact H].
  rewrite Hz in Hpos. lra.
Qed.




Section SplitClips.

Variable config : MakerOrderConfig.
Variable draws : nat -> Q.
Variable trading_pair : string.
Variable price : Q.

Lemma split_loop_clips_ok (fuel : nat) :
  forall n_draw remaining_value acc clips,
    Forall (clip_ok trading_pair) acc ->
    split_loop config draws trading_pair price fuel n_draw remaining_value acc
    = Some (Value clips) ->
    Forall (clip_ok trading_pair) clips.
Proof.
  induction fuel as [|fuel IH]; intros n_draw rv acc clips Hacc; [discriminate|].
  cbn [split_loop].
  destruct (Decimal.gtb rv 0); [|intros [= <-]; exact Hacc].
  destruct (if Decimal.leb rv (split_order_max_value config) then _ else _) as [sv n'].
  destruct (Decimal.div sv price) as [q0|]; [|discriminate].
  destruct (Decimal.gtb (_round_quantity trading_pair q0) 0); [|intros [= <-]; exact Hacc].
  destruct (Decimal.div rv price) as [rq|]; [|discriminate].
  set (split_qty := if Decimal.gtb (_round_quantity trading_pair q0) rq
                    then _round_quantity trading_pair rq
                    else _round_quantity trading_pair q0).
  destruct (Decimal.gtb split_qty 0) eqn:Hpos; [|now apply IH].
  apply IH. apply Forall_app. split; [exact Hacc|]. constructor; [|constructor].
  apply gtb_gt in Hpos.
  assert (Hform : exists x, split_qty = _round_quantity trading_pair x)
    by (subst split_qty; destruct (Decimal.gtb _ rq); eauto).
  destruct Hform as (x & Hx). rewrite Hx in *.
  split; [exact Hpos|]. split; [apply round_quantity_lands_on_grid|].
  now apply round_quantity_positive_at_least_min.
Qed.

Lemma split_order_shape (fuel : nat) (quantity : Q) (clips : list Q) :
  _split_order config draws trading_pair price fuel quantity = Some (Value clips) ->
  clips = [quantity] \/ (clips <> [] /\ Forall (clip_ok trading_pair) clips).
Proof.
  unfold _split_order.
  destruct (negb (split_order_enabled config)); [intros [= <-]; now left|].
  destruct (Decimal.ltb _ _); [intros [= <-]; now left|].
  destruct (split_loop _ _ _ _ _ _ _ _) as [[l|e]|] eqn:Hloop; try discriminate.
  apply split_loop_clips_ok in Hloop; [|constructor].
  destruct l as [|c l]; intros [= <-]; [now left|right].
  split; [discriminate | exact Hloop].
Qed.

(** X5.  [_split_order] never returns an empty list: it returns either the
    input quantity alone, or clips that are each positive, a whole number of
    steps and at least the minimum order size.  For a positive price and an
    input that is itself not negative and a whole number of steps, the clips
    add up to no more than the input. *)
Theorem split_order_clips (fuel : nat) (quantity : Q) (clips : list Q) :
  _split_order config draws trading_pair price fuel quantity = Some (Value clips) ->
  (clips = [quantity] \/ (clips <> [] /\ Forall (clip_ok trading_pair) clips))
  /\ (0 < price -> 0 <= quantity -> on_grid trading_pair quantity ->
      Qsum clips <= quantity).
Proof.
  intros Hrun. split; [now apply (split_order_shape fuel)|].
  intros Hprice Hq Hgrid.
  now apply (split_order_within_input config draws trading_pair price quantity Hprice fuel).
Qed.



End SplitClips.

Lemma split_order_clips_witness :
  exists clips,
    _split_order default_config (fun _ => 250) "SOLUSDT" 100 50 12 = Some (Value clips)
    /\ Qsum clips <= 12.
Proof.
  assert (Hrun : exists clips,
             _split_order default_config (fun _ => 250) "SOLUSDT" 100 50 12
             = Some (Value clips)) by (eexists; vm_compute; reflexivity).
  destruct Hrun as (clips & Hrun). exists clips. split; [exact Hrun|].
  apply (proj2 (split_order_clips default_config (fun _ => 250) "SOLUSDT" 100 50 12 clips Hrun)).
  - reflexivity.
  - discriminate.
  - exists 1200%Z. vm_compute. reflexivity.
Defined.



(** ** What one run of the loop adds to the trace and to the counters *)

Lemma added_same_trace (allowed : Event -> Prop) (w w' : World) :
  trace w' = trace w -> added allowed w w'.
Proof. intros H. exists []. split; [exact H | constructor]. Qed.

Lemma added_one (allowed : Event -> Prop) (e : Event) (w w' : World) :
  allowed e -> trace w' = e :: trace w -> added allowed w w'.
Proof. intros He H. exists [e]. split; [exact H | repeat constructor; exact He]. Qed.

Lemma added_trans (allowed : Event -> Prop) (w1 w2 w3 : World) :
  added allowed w1 w2 -> added allowed w2 w3 -> added allowed w1 w3.
Proof.
  intros (e1 & H1 & F1) (e2 & H2 & F2). exists (e2 ++ e1)%list. split.
  - rewrite H2, H1. apply app_assoc.
  - apply Forall_app. split; assumption.
Qed.

Lemma added_weaken (P R : Event -> Prop) (w w' : World) :
  (forall e, P e -> R e) -> added P w w' -> added R w w'.
Proof.
  intros HPR (evs & H & F). exists evs. split; [exact H|].
  eapply Forall_impl; [exact F | exact HPR].
Qed.

Lemma order_event_not_place (e : Event) : order_event e -> not_place e.
Proof. destruct e; cbn; tauto. Qed.

Lemma added_extends (allowed : Event -> Prop) (w w' : World) : added allowed w w' -> extends w w'.
Proof. intros (evs & H & _). exists evs. exact H. Qed.

Lemma same_total_refl (st : LoopState) : same_total st st.
Proof. unfold same_total. reflexivity. Qed.

Lemma same_total_trans (st1 st2 st3 : LoopState) :
  same_total st1 st2 -> same_total st2 st3 -> same_total st1 st3.
Proof. unfold same_total. intros H1 H2. now rewrite H2. Qed.

Lemma advances_same (allowed : Event -> Prop) (st : LoopState) (w w' : World) :
  added allowed w w' -> advances allowed 0 st w st w'.
Proof. intros H. split; [exact H|]. split; [lia | apply same_total_refl]. Qed.

Lemma advances_trans (allowed : Event -> Prop) (k1 k2 : Z)
      (st1 st2 st3 : LoopState) (w1 w2 w3 : World) :
  advances allowed k1 st1 w1 st2 w2 -> advances allowed k2 st2 w2 st3 w3 ->
  advances allowed (k1 + k2) st1 w1 st3 w3.
Proof.
  intros (A1 & I1 & T1) (A2 & I2 & T2).
  split; [eapply added_trans; eassumption|].
  split; [lia | eapply same_total_trans; eassumption].
Qed.

Lemma advances_weaken (P R : Event -> Prop) (k k' : Z) st w st' w' :
  (forall e, P e -> R e) -> (k <= k')%Z ->
  advances P k st w st' w' -> advances R k' st w st' w'.
Proof.
  intros HPQ Hk (A & I & T). split; [now apply (added_weaken P)|]. split; [lia | exact T].
Qed.

(** The updates of the state keep the total; only [count_iteration] touches
    the counter. *)
Lemma fold_fill_total (f : Q) (st : LoopState) : same_total st (fold_fill f st).
Proof. unfold same_total. cbn. ring. Qed.

Lemma fold_if_positive_total (f : Q) (st : LoopState) : same_total st (fold_if_positive f st).
Proof.
  unfold fold_if_positive. destruct (Decimal.gtb f 0);
    [apply fold_fill_total | apply same_total_refl].
Qed.

Lemma fold_remaining_total (st : LoopState) : same_total st (fold_remaining st).
Proof. unfold same_total. cbn. ring. Qed.

Lemma fold_if_positive_iterations (f : Q) (st : LoopState) :
  iterations (fold_if_positive f st) = iterations st.
Proof. unfold fold_if_positive. now destruct (Decimal.gtb f 0). Qed.

Lemma requery_outcome_moves (status2 : string) (filled2 : Q) (st : LoopState) :
  iterations (requery_outcome status2 filled2 st) = (iterations st + 1)%Z
  /\ same_total st (requery_outcome status2 filled2 st).
Proof.
  unfold requery_outcome.
  destruct (String.eqb status2 "FILLED" || String.eqb status2 "NOT_FOUND");
    (split; [reflexivity|]); unfold same_total; cbn; ring.
Qed.

Section Run.

Variable config : MakerOrderConfig.
Variable gw : Gateway.
Variables (trading_pair : string) (side : OrderSide) (reduce_only : bool).

Lemma time_time_added (allowed : Event -> Prop) (w : World) now w' :
  time_time gw w = Some (now, w') -> added allowed w w'.
Proof. intros [= <- <-]. now apply added_same_trace. Qed.

Lemma sleep_added (seconds : Q) (w : World) u w' :
  sleep seconds w = Some (u, w') -> added not_place w w'.
Proof. intros [= <- <-]. now apply (added_one _ (EvSleep seconds)). Qed.

(** [_get_orderbook] adds one depth call, whose answer it returns the top
    of. *)
Lemma get_orderbook_added (w : World) book w' :
  _get_orderbook gw w = Some (book, w') ->
  exists a,
    trace w' = EvDepth a :: trace w
    /\ forall bid1 ask1, book = Value (bid1, ask1) -> top_of_book a = Some (bid1, ask1).
Proof.
  unfold _get_orderbook, bind, client_get_depth, ret.
  destruct (get_depth gw (n_depth w)) as [d|e] eqn:Hd.
  - cbn [top_of_book]. destruct (bids d) as [|[bid1 ?] ?] eqn:Hb.
    + intros [= <- <-]. exists (Value d). split; [reflexivity | discriminate].
    + destruct (asks d) as [|[ask1 ?] ?] eqn:Ha; intros [= <- <-]; exists (Value d);
        (split; [reflexivity|]); cbn [top_of_book]; rewrite Hb, Ha;
          [discriminate | now intros ? ? [= <- <-]].
  - intros [= <- <-]. exists (Exception e). split; [reflexivity | discriminate].
Qed.

Lemma get_orderbook_not_place (w : World) book w' :
  _get_orderbook gw w = Some (book, w') -> added not_place w w'.
Proof.
  intros H. apply get_orderbook_added in H as (a & Htr & _).
  now apply (added_one _ (EvDepth a)).
Qed.

Lemma get_order_status_added (id : option string) (w : World) r w' :
  _get_order_status gw id w = Some (r, w') -> added order_event w w'.
Proof.
  destruct r as [status filled]. intros H.
  apply get_order_status_cases in H as [(_ & s & a & Htr & _)|(_ & -> & _)].
  - now apply (added_one _ (EvGetOrder s a)).
  - now apply added_same_trace.
Qed.

Lemma cancel_order_added (id : option string) (w : World) r w' :
  client_cancel_order gw id w = Some (r, w') -> added order_event w w'.
Proof.
  unfold client_cancel_order.
  destruct id as [s|]; [destruct (String.eqb s "")|]; intros [= <- <-];
    try (now apply added_same_trace).
  now apply (added_one _ (EvCancel s (cancel_order gw (n_cancel w)))).
Qed.

Lemma after_failed_cancel_advances (st : LoopState) (w : World) flow w' :
  after_failed_cancel gw st w = Some (flow, w') ->
  advances order_event 1 st w (state_of flow) w'.
Proof.
  unfold after_failed_cancel, bind.
  destruct (_get_order_status gw (current_order_id st) w) as [[[status2 filled2] w1]|] eqn:Hq;
    [|discriminate].
  apply get_order_status_added in Hq. intros [= <- <-]. cbn [state_of].
  destruct (requery_outcome_moves status2 filled2 st) as (Hi & Ht).
  unfold requery_outcome in Hi, Ht.
  split; [exact Hq|]. split; [lia | exact Ht].
Qed.

Lemma cancel_then_reconcile_advances (st : LoopState) (w : World) (filled : Q) flow w' :
  (let* cancelled := client_cancel_order gw (current_order_id st) in
   match cancelled with
   | Exception e => ret (Raise st e)
   | Value true =>
     ret (Proceed (clear_order (count_iteration (fold_if_positive filled st))))
   | Value false => after_failed_cancel gw st
   end) w = Some (flow, w') ->
  advances order_event 1 st w (state_of flow) w'.
Proof.
  unfold bind at 1.
  destruct (client_cancel_order gw (current_order_id st) w) as [[c w2]|] eqn:Hcancel;
    [|discriminate].
  apply cancel_order_added in Hcancel.
  destruct c as [[|]|e].
  - intros [= <- <-]. cbn [state_of]. split; [exact Hcancel|]. split.
    + cbn [iterations clear_order count_iteration]. rewrite fold_if_positive_iterations. lia.
    + apply fold_if_positive_total.
  - intros Hrun. apply after_failed_cancel_advances in Hrun.
    apply (advances_trans order_event 0 1 st st (state_of flow) w w2 w');
      [now apply advances_same | exact Hrun].
  - intros [= <- <-]. cbn [state_of].
    apply (advances_weaken order_event order_event 0 1); [auto | lia | now apply advances_same].
Qed.

Lemma replace_check_advances (best_price : Q) (st : LoopState) (w : World) flow w' :
  replace_check config gw side best_price st w = Some (flow, w') ->
  advances order_event 1 st w (state_of flow) w'.
Proof.
  assert (Hrefl : forall w0, advances order_event 1 st w0 st w0).
  { intros w0. apply (advances_weaken order_event order_event 0 1); [auto | lia |].
    now apply advances_same, added_same_trace. }
  unfold replace_check.
  destruct (truthy (current_order_id st)); [|intros [= <- <-]; apply Hrefl].
  destruct (_should_replace_order config side (current_order_price st) best_price)
    as [[|] reason]; [|intros [= <- <-]; apply Hrefl].
  unfold bind at 1.
  destruct (_get_order_status gw (current_order_id st) w) as [[[status filled] w1]|] eqn:Hq;
    [|discriminate].
  apply get_order_status_added in Hq.
  destruct (status_in status ["FILLED"; "CANCELED"; "EXPIRED"; "REJECTED"]).
  { intros [= <- <-]. cbn [state_of]. split; [exact Hq|]. split.
    - cbn [iterations clear_order]. rewrite fold_if_positive_iterations. lia.
    - apply fold_if_positive_total. }
  destruct (String.eqb status "NOT_FOUND").
  { intros [= <- <-]. cbn [state_of]. split; [exact Hq|]. split.
    - cbn. lia.
    - apply fold_remaining_total. }
  intros Hrun. apply cancel_then_reconcile_advances in Hrun.
  apply (advances_trans order_event 0 1 st st (state_of flow) w w1 w');
    [now apply advances_same | exact Hrun].
Qed.

Lemma timeout_replace_advances (order_start : Q) (st : LoopState) (w : World) flow w' :
  timeout_replace config gw order_start st w = Some (flow, w') ->
  advances order_event 1 st w (state_of flow) w'.
Proof.
  assert (Hrefl : forall w0 w1, added order_event w0 w1 -> advances order_event 1 st w0 st w1).
  { intros w0 w1 H. apply (advances_weaken order_event order_event 0 1); [auto | lia |].
    now apply advances_same. }
  unfold timeout_replace.
  destruct (truthy (current_order_id st));
    [|intros [= <- <-]; now apply Hrefl, added_same_trace].
  unfold bind at 1.
  destruct (time_time gw w) as [[now w1]|] eqn:Htime; [|discriminate].
  apply (time_time_added order_event) in Htime.
  destruct (Decimal.geb (now - order_start) (order_timeout config));
    [|intros [= <- <-]; now apply Hrefl].
  unfold bind at 1.
  destruct (_get_order_status gw (current_order_id st) w1) as [[[status filled] w2]|] eqn:Hq;
    [|discriminate].
  apply get_order_status_added in Hq.
  assert (Hq2 : added order_event w w2) by (eapply added_trans; eassumption).
  destruct (String.eqb status "NOT_FOUND").
  { intros [= <- <-]. cbn [state_of]. split; [exact Hq2|]. split.
    - cbn. lia.
    - apply fold_remaining_total. }
  destruct (String.eqb status "FILLED").
  { intros [= <- <-]. cbn [state_of]. split; [exact Hq2|]. split.
    - cbn. lia.
    - apply fold_fill_total. }
  intros Hrun. apply cancel_then_reconcile_advances in Hrun.
  apply (advances_trans order_event 0 1 st st (state_of flow) w w2 w');
    [now apply advances_same | exact Hrun].
Qed.

Lemma wait_window_advances (fuel : nat) :
  forall order_start st w st' w',
    wait_window config gw side fuel order_start st w = Some (st', w') ->
    advances not_place 0 st w st' w'.
Proof.
  induction fuel as [|fuel IH]; intros order_start st w st' w'; [discriminate|].
  cbn [wait_window]. unfold bind at 1.
  destruct (time_time gw w) as [[now w1]|] eqn:Htime; [|discriminate].
  apply (time_time_added not_place) in Htime.
  destruct (Decimal.ltb (now - order_start) (order_timeout config));
    [|intros [= <- <-]; now apply advances_same].
  unfold bind at 1.
  destruct (sleep _ w1) as [[u w2]|] eqn:Hsleep; [|discriminate].
  apply sleep_added in Hsleep.
  unfold bind at 1.
  destruct (_get_order_status gw (current_order_id st) w2) as [[[status filled] w3]|] eqn:Hq;
    [|discriminate].
  apply get_order_status_added, (added_weaken _ not_place) in Hq;
    [|exact order_event_not_place].
  assert (H3 : added not_place w w3)
    by (eapply added_trans; [eapply added_trans; [exact Htime | exact Hsleep] | exact Hq]).
  clear Htime Hsleep Hq.
  destruct (String.eqb status "FILLED").
  { intros [= <- <-]. split; [exact H3|]. split; [cbn; lia | apply fold_fill_total]. }
  destruct (status_in status ["CANCELED"; "EXPIRED"; "REJECTED"]).
  { intros [= <- <-]. split; [exact H3|]. split.
    - cbn [iterations clear_order]. rewrite fold_if_positive_iterations. lia.
    - apply fold_if_positive_total. }
  destruct (String.eqb status "NOT_FOUND").
  { intros [= <- <-]. split; [exact H3|]. split; [cbn; lia | apply fold_remaining_total]. }
  assert (Hrec : forall w4, added not_place w w4 ->
                            wait_window config gw side fuel order_start st w4 = Some (st', w') ->
                            advances not_place 0 st w st' w').
  { intros w4 H4 Hrun. apply IH in Hrun.
    apply (advances_trans not_place 0 0 st st st' w w4 w'); [now apply advances_same | exact Hrun]. }
  destruct (String.eqb status "PARTIALLY_FILLED"); [|now apply Hrec].
  unfold bind at 1.
  destruct (_get_orderbook gw w3) as [[book w4]|] eqn:Hbook; [|discriminate].
  apply get_orderbook_not_place in Hbook.
  assert (H4 : added not_place w w4) by (eapply added_trans; eassumption).
  destruct book as [[new_bid1 new_ask1]|e]; [|now apply Hrec].
  destruct (fst (_should_replace_order config side (current_order_price st) _));
    [|now apply Hrec].
  intros [= <- <-]. now apply advances_same.
Qed.

Lemma well_placed_app (evs tr : list Event) :
  Forall not_place evs ->
  orders_well_placed config trading_pair side reduce_only tr ->
  orders_well_placed config trading_pair side reduce_only (evs ++ tr).
Proof.
  induction 1 as [|e evs He _ IH]; intros Htr; [exact Htr|].
  cbn [app]. destruct e; cbn in He |- *; try contradiction; now apply IH.
Qed.

Lemma well_placed_added (w w' : World) :
  added not_place w w' ->
  orders_well_placed config trading_pair side reduce_only (trace w) ->
  orders_well_placed config trading_pair side reduce_only (trace w').
Proof. intros (evs & -> & F). now apply well_placed_app. Qed.

Lemma last_depth_added (w w' : World) :
  added order_event w w' -> last_depth (trace w') = last_depth (trace w).
Proof.
  intros (evs & -> & F). induction F as [|e evs He _ IH]; [reflexivity|].
  cbn [app]. destruct e; cbn in He |- *; try contradiction; exact IH.
Qed.

(** A rounded remaining quantity that is not zero is a proper order size. *)
Lemma rounded_remaining_ok (q : Q) :
  Decimal.eqb (_round_quantity trading_pair q) 0 = false ->
  clip_ok trading_pair (_round_quantity trading_pair q).
Proof.
  intros Hnz. pose proof (min_quantity_positive trading_pair) as Hmin.
  destruct (round_quantity_zero_or_minimum trading_pair q) as [Hz|Hge].
  - rewrite Hz in Hnz. discriminate.
  - split; [lra|]. split; [apply round_quantity_lands_on_grid | exact Hge].
Qed.

Lemma place_if_none_advances (best_price rounded_remaining : Q) (st : LoopState)
      (w : World) flow w' :
  place_if_none gw side reduce_only best_price rounded_remaining st w = Some (flow, w') ->
  extends w w'
  /\ iterations (state_of flow) = iterations st
  /\ same_total st (state_of flow)
  /\ (clip_ok trading_pair rounded_remaining ->
      (exists bid1 ask1,
          last_depth (trace w) ≫= top_of_book = Some (bid1, ask1)
          /\ best_price = _round_price config trading_pair
                                       (if OrderSide_eqb side SELL then ask1 else bid1)) ->
      orders_well_placed config trading_pair side reduce_only (trace w) ->
      orders_well_placed config trading_pair side reduce_only (trace w')).
Proof.
  unfold place_if_none.
  destruct (current_order_id st) as [id|] eqn:Hid.
  { intros [= <- <-]. split; [apply extends_refl|]. split; [reflexivity|].
    split; [unfold same_total; cbn; reflexivity | auto]. }
  unfold bind at 1, _place_maker_order.
  set (w1 := {| n_clock := n_clock w; n_depth := n_depth w; n_get_order := n_get_order w;
                n_place := S (n_place w); n_cancel := n_cancel w;
                trace := EvPlace side rounded_remaining best_price reduce_only
                                 (place_order gw (n_place w)) :: trace w |}).
  assert (Hext : extends w w1) by (unfold extends; cbn [trace w1]; apply suffix_cons_r; reflexivity).
  assert (Hwp : clip_ok trading_pair rounded_remaining ->
                (exists bid1 ask1,
                    last_depth (trace w) ≫= top_of_book = Some (bid1, ask1)
                    /\ best_price = _round_price config trading_pair
                                                 (if OrderSide_eqb side SELL then ask1 else bid1)) ->
                orders_well_placed config trading_pair side reduce_only (trace w) ->
                orders_well_placed config trading_pair side reduce_only (trace w1)).
  { intros Hclip Hbook Hold. cbn [trace w1 orders_well_placed]. auto. }
  assert (Hsleep : forall seconds u w2, sleep seconds w1 = Some (u, w2) ->
                                        extends w w2
                                        /\ (orders_well_placed config trading_pair side reduce_only
                                                               (trace w1) ->
                                            orders_well_placed config trading_pair side reduce_only
                                                               (trace w2))).
  { intros seconds u w2 [= <- <-]. split; [|auto].
    unfold extends. cbn [trace w1]. do 2 apply suffix_cons_r. reflexivity. }
  destruct (place_order gw (n_place w)) as [r|e].
  - destruct (success r).
    + destruct (status r) as [s|]; [destruct (String.eqb s "REJECTED")|].
      * unfold bind at 1. destruct (sleep (1 # 10) w1) as [[u w2]|] eqn:Hs; [|discriminate].
        apply Hsleep in Hs as (He & Hw). intros [= <- <-].
        split; [exact He|]. split; [reflexivity|]. split; [unfold same_total; cbn; reflexivity | auto].
      * intros [= <- <-]. split; [exact Hext|]. split; [reflexivity|].
        split; [unfold same_total; cbn; reflexivity | exact Hwp].
      * intros [= <- <-]. split; [exact Hext|]. split; [reflexivity|].
        split; [unfold same_total; cbn; reflexivity | exact Hwp].
    + unfold bind at 1. destruct (sleep (1 # 2) w1) as [[u w2]|] eqn:Hs; [|discriminate].
      apply Hsleep in Hs as (He & Hw). intros [= <- <-].
      split; [exact He|]. split; [reflexivity|]. split; [unfold same_total; cbn; reflexivity | auto].
  - intros [= <- <-]. split; [exact Hext|]. split; [reflexivity|].
    split; [unfold same_total; cbn; reflexivity | exact Hwp].
Qed.

(** One pass through the loop body. *)
Lemma loop_body_pass (fuel : nat) (start_time : Q) (st : LoopState) (w : World) flow w' :
  loop_body config gw trading_pair side reduce_only fuel start_time st w = Some (flow, w') ->
  (iterations st <= iterations (state_of flow) <= iterations st + 2)%Z
  /\ same_total st (state_of flow)
  /\ (orders_well_placed config trading_pair side reduce_only (trace w) ->
      orders_well_placed config trading_pair side reduce_only (trace w')).
Proof.
  unfold loop_body. unfold bind at 1.
  destruct (time_time gw w) as [[now w1]|] eqn:Htime; [|discriminate].
  apply (time_time_added not_place) in Htime.
  destruct (Decimal.gtb (now - start_time) (total_timeout config)).
  { intros [= <- <-]. cbn [state_of]. split; [lia|]. split; [apply same_total_refl|].
    now apply well_placed_added. }
  unfold bind at 1.
  destruct (_get_orderbook gw w1) as [[book w2]|] eqn:Hbook; [|discriminate].
  pose proof (get_orderbook_not_place _ _ _ Hbook) as Hbook_np.
  apply get_orderbook_added in Hbook as (a & Htr2 & Htop).
  assert (H2 : added not_place w w2) by (eapply added_trans; eassumption).
  destruct book as [[bid1 ask1]|e].
  2:{ unfold bind at 1.
      destruct (sleep 1 w2) as [[u w3]|] eqn:Hsleep; [|discriminate].
      apply sleep_added in Hsleep. intros [= <- <-]. cbn [state_of].
      split; [lia|]. split; [apply same_total_refl|].
      apply well_placed_added. eapply added_trans; eassumption. }
  specialize (Htop bid1 ask1 eq_refl).
  unfold bind at 1.
  destruct (replace_check config gw side _ st w2) as [[checked w3]|] eqn:Hcheck;
    [|discriminate].
  apply replace_check_advances in Hcheck as (A3 & I3 & T3).
  assert (H3 : added not_place w w3).
  { eapply added_trans; [exact H2|]. eapply added_weaken; [|exact A3].
    exact order_event_not_place. }
  assert (Hdepth : last_depth (trace w3) ≫= top_of_book = Some (bid1, ask1)).
  { rewrite (last_depth_added _ _ A3), Htr2. exact Htop. }
  destruct checked as [st1|st1|st1|st1 e]; cbn [state_of] in I3, T3;
    try (intros [= <- <-]; cbn [state_of]; split; [lia|]; split; [exact T3|];
         now apply well_placed_added).
  destruct (Decimal.eqb (_round_quantity trading_pair (remaining st1)) 0) eqn:Hnz.
  { intros [= <- <-]. cbn [state_of]. split; [lia|]. split; [exact T3|].
    now apply well_placed_added. }
  apply rounded_remaining_ok in Hnz.
  unfold bind at 1.
  destruct (place_if_none gw side reduce_only _ _ st1 w3) as [[placed w4]|] eqn:Hplace;
    [|discriminate].
  apply place_if_none_advances in Hplace as (_ & I4 & T4 & W4).
  assert (Hw4 : orders_well_placed config trading_pair side reduce_only (trace w) ->
                orders_well_placed config trading_pair side reduce_only (trace w4)).
  { intros Hw. apply W4; [exact Hnz | eauto | now apply (well_placed_added w)]. }
  destruct placed as [st2|st2|st2|st2 e]; cbn [state_of] in I4, T4;
    try (intros [= <- <-]; cbn [state_of]; split; [lia|];
         split; [eapply same_total_trans; eassumption | exact Hw4]).
  unfold bind at 1.
  destruct (time_time gw w4) as [[order_start w5]|] eqn:Htime5; [|discriminate].
  apply (time_time_added not_place) in Htime5.
  unfold bind at 1.
  destruct (wait_window config gw side fuel order_start st2 w5) as [[st3 w6]|] eqn:Hwait;
    [|discriminate].
  apply wait_window_advances in Hwait as (A6 & I6 & T6).
  intros Hrun. apply timeout_replace_advances in Hrun as (A7 & I7 & T7).
  split; [lia|].
  split.
  { apply (same_total_trans st st1); [exact T3|]. apply (same_total_trans st1 st2); [exact T4|].
    apply (same_total_trans st2 st3); [exact T6 | exact T7]. }
  intros Hw. apply (well_placed_added w4); [|now apply Hw4].
  eapply added_trans; [exact Htime5|]. eapply added_trans; [exact A6|].
  eapply added_weaken; [|exact A7]. exact order_event_not_place.
Qed.

Lemma maker_loop_run (fuel : nat) :
  forall start_time st w st' raised w',
    maker_loop config gw trading_pair side reduce_only fuel start_time st w
    = Some ((st', raised), w') ->
    (iterations st <= iterations st' <= Z.max (iterations st) (max_iterations config + 1))%Z
    /\ same_total st st'
    /\ (orders_well_placed config trading_pair side reduce_only (trace w) ->
        orders_well_placed config trading_pair side reduce_only (trace w')).
Proof.
  induction fuel as [|fuel IH]; intros start_time st w st' raised w'; [discriminate|].
  cbn [maker_loop].
  destruct (Decimal.gtb (remaining st) 0 && (iterations st <? max_iterations config)%Z)
    eqn:Hguard.
  2:{ intros [= <- <- <-]. split; [lia|]. split; [apply same_total_refl | auto]. }
  apply andb_true_iff in Hguard as (_ & Hit). apply Z.ltb_lt in Hit.
  unfold bind at 1.
  destruct (loop_body config gw trading_pair side reduce_only fuel start_time st w)
    as [[flow w1]|] eqn:Hbody; [|discriminate].
  apply loop_body_pass in Hbody as (I1 & T1 & W1).
  destruct flow as [st1|st1|st1|st1 e]; cbn [state_of] in I1, T1.
  - intros Hrun. apply IH in Hrun as (I2 & T2 & W2).
    split; [lia|]. split; [eapply same_total_trans; eassumption | auto].
  - intros Hrun. apply IH in Hrun as (I2 & T2 & W2).
    split; [lia|]. split; [eapply same_total_trans; eassumption | auto].
  - intros [= <- <- <-]. split; [lia|]. split; [exact T1 | exact W1].
  - intros [= <- <- <-]. split; [lia|]. split; [exact T1 | exact W1].
Qed.

(** What [_execute_maker_loop] returns, field by field, in terms of the state
    the loop ended in. *)
Lemma execute_maker_loop_state (target : Q) (fuel : nat) (w : World) r w' :
  _execute_maker_loop config gw trading_pair side target reduce_only fuel w = Some (r, w') ->
  exists start_time w0 st raised w1 res,
    maker_loop config gw trading_pair side reduce_only fuel start_time
               (initial_state target) w0 = Some ((st, raised), w1)
    /\ trace w0 = trace w
    /\ added not_place w1 w'
    /\ r = Value res
    /\ MakerExecutionResult.symbol res = trading_pair
    /\ MakerExecutionResult.target_quantity res = target
    /\ MakerExecutionResult.filled_quantity res = total_filled st
    /\ MakerExecutionResult.iterations res = iterations st
    /\ MakerExecutionResult.error res = raised.
Proof.
  unfold _execute_maker_loop, bind at 1. cbn [time_time]. unfold bind at 1.
  match goal with
  | |- context [maker_loop _ _ _ _ _ _ ?t ?s ?w0] =>
    destruct (maker_loop config gw trading_pair side reduce_only fuel t s w0)
      as [[[st raised] w1]|] eqn:Hloop; [|discriminate]
  end.
  intros Hend.
  destruct raised as [e|].
  - assert (Hadded : added not_place w1 w').
    { revert Hend. unfold on_exception, bind, ret, time_time, client_cancel_order.
      destruct (average_price_of_value (total_value st) (total_filled st)) as (a & -> & _).
      destruct (truthy (current_order_id st));
        [destruct (current_order_id st) as [s|]; [destruct (String.eqb s "")|]|];
        intros H; injection H as <- <-; try (now apply added_same_trace).
      now apply (added_one _ (EvCancel s (cancel_order gw (n_cancel w1)))). }
    apply on_exception_result in Hend as (avg & el & _ & ->).
    do 6 eexists. split; [exact Hloop|]. split; [reflexivity|]. split; [exact Hadded|].
    split; [reflexivity|]. cbn. repeat split.
  - assert (Hadded : added not_place w1 w').
    { revert Hend. unfold on_completion, bind, ret, time_time.
      destruct (fill_ratio_of_value (total_filled st) target) as (fr & -> & _).
      destruct (average_price_of_value (total_value st) (total_filled st)) as (a & -> & _).
      intros H; injection H as <- <-. now apply added_same_trace. }
    apply on_completion_result in Hend as (fr & avg & el & _ & _ & ->).
    do 6 eexists. split; [exact Hloop|]. split; [reflexivity|]. split; [exact Hadded|].
    split; [reflexivity|]. cbn. repeat split.
Qed.

End Run.


(** ** Iterations, totals and orders of a clip *)

Section Clip.

Variable config : MakerOrderConfig.
Variable gw : Gateway.
Variables (trading_pair : string) (side : OrderSide) (target : Q) (reduce_only : bool).

(** X7.  The iteration count of a result is never negative and never more
    than [max_iterations + 1]: a pass that starts below [max_iterations] can
    count two cancels, one before it replaces the order and one at the timeout
    of the replacement. *)
Theorem iterations_within_budget (fuel : nat) (w : World) res w' :
  _execute_maker_loop config gw trading_pair side target reduce_only fuel w
  = Some (Value res, w') ->
  (0 <= MakerExecutionResult.iterations res
   <= Z.max 0 (max_iterations config + 1))%Z.
Proof.
  intros Hrun.
  apply execute_maker_loop_state in Hrun
    as (t0 & w0 & st & raised & w1 & res' & Hloop & _ & _ & Hres & _ & _ & _ & Hit & _).
  injection Hres as <-. rewrite Hit.
  apply maker_loop_run in Hloop as (Hi & _). cbn [iterations initial_state] in Hi. exact Hi.
Qed.

(** X8.  Whatever the exchange answers, the loop keeps
    [total_filled + remaining] equal to the target: every quantity it counts
    as filled it takes off the remaining quantity. *)
Theorem maker_loop_keeps_total (fuel : nat) (start_time : Q) (w : World) st' raised w' :
  maker_loop config gw trading_pair side reduce_only fuel start_time (initial_state target) w
  = Some ((st', raised), w') ->
  total_filled st' + remaining st' == target.
Proof.
  intros Hloop. apply maker_loop_run in Hloop as (_ & Ht & _).
  unfold same_total in Ht. cbn [total_filled remaining initial_state] in Ht.
  rewrite Ht. ring.
Qed.

(** X9.  Every order [_execute_maker_loop] places is on the side and with the
    reduce-only flag it was called with, for a positive whole number of
    quantity steps of at least the minimum order size, and at the rounded
    best ask (when selling) or best bid (when buying) of the book it read
    last. *)
Theorem maker_orders_well_placed (fuel : nat) (w : World) r w' :
  orders_well_placed config trading_pair side reduce_only (trace w) ->
  _execute_maker_loop config gw trading_pair side target reduce_only fuel w = Some (r, w') ->
  orders_well_placed config trading_pair side reduce_only (trace w').
Proof.
  intros Hw Hrun.
  apply execute_maker_loop_state in Hrun
    as (t0 & w0 & st & raised & w1 & res' & Hloop & Htr0 & Hadded & _).
  apply maker_loop_run in Hloop as (_ & _ & Hwp).
  apply (well_placed_added config trading_pair side reduce_only w1); [exact Hadded|].
  apply Hwp. rewrite Htr0. exact Hw.
Qed.

End Clip.

Lemma iterations_within_budget_witness :
  exists res w',
    _execute_maker_loop one_iteration_config rising_book "SOLUSDT" SELL 1 false 20 fresh_world
    = Some (Value res, w')
    /\ MakerExecutionResult.iterations res = 2%Z.
Proof.
  assert (Hrun : exists res w',
             _execute_maker_loop one_iteration_config rising_book "SOLUSDT" SELL 1 false 20
                                 fresh_world = Some (Value res, w')
             /\ (2 <= MakerExecutionResult.iterations res)%Z).
  { eexists. eexists. split; [vm_compute; reflexivity | vm_compute; discriminate]. }
  destruct Hrun as (res & w' & Hrun & Hge).
  exists res, w'. split; [exact Hrun|].
  pose proof (iterations_within_budget one_iteration_config rising_book "SOLUSDT" SELL 1 false
                                       20%nat fresh_world res w' Hrun) as Hle.
  change (Z.max 0 (max_iterations one_iteration_config + 1)) with 2%Z in Hle. lia.
Defined.

Lemma maker_loop_keeps_total_witness :
  exists st' raised w',
    maker_loop default_config fills_096_then_rest "SOLUSDT" SELL false 20 0 (initial_state 1)
               fresh_world = Some ((st', raised), w')
    /\ total_filled st' + remaining st' == 1.
Proof.
  assert (Hrun : exists st' raised w',
             maker_loop default_config fills_096_then_rest "SOLUSDT" SELL false 20 0
                        (initial_state 1) fresh_world = Some ((st', raised), w'))
    by (do 3 eexists; vm_compute; reflexivity).
  destruct Hrun as (st' & raised & w' & Hrun). exists st', raised, w'.
  split; [exact Hrun|].
  exact (maker_loop_keeps_total default_config fills_096_then_rest "SOLUSDT" SELL 1 false
                                20%nat 0 fresh_world st' raised w' Hrun).
Defined.

Lemma maker_orders_well_placed_witness :
  exists r w',
    _execute_maker_loop default_config fills_096_then_rest "SOLUSDT" SELL 1 false 20 fresh_world
    = Some (r, w')
    /\ orders_well_placed default_config "SOLUSDT" SELL false (trace w').
Proof.
  assert (Hrun : exists r w',
             _execute_maker_loop default_config fills_096_then_rest "SOLUSDT" SELL 1 false 20
                                 fresh_world = Some (r, w'))
    by (do 2 eexists; vm_compute; reflexivity).
  destruct Hrun as (r & w' & Hrun). exists r, w'. split; [exact Hrun|].
  apply (maker_orders_well_placed default_config fills_096_then_rest "SOLUSDT" SELL 1 false
                                  20%nat fresh_world r w'); [exact I | exact Hrun].
Defined.


(** ** A whole delta: its clips one after the other *)

Section Delta.

Variable config : MakerOrderConfig.
Variable gw : Gateway.
Variable draws : nat -> Q.

Lemma clip_run_extends trading_pair side target reduce_only fuel w r w' :
  _execute_maker_loop config gw trading_pair side target reduce_only fuel w = Some (r, w') ->
  extends w w'.
Proof.
  intros Hrun.
  apply execute_maker_loop_state in Hrun
    as (t0 & w0 & st & raised & w1 & res & Hloop & Htr0 & Hadded & _).
  apply (maker_loop_ok config gw trading_pair side target reduce_only) in Hloop as (Hext & _).
  apply added_extends in Hadded. unfold extends in *. rewrite <- Htr0.
  etransitivity; eassumption.
Qed.

(** One clip, with an exchange that reports fills as they can occur. *)
Lemma clip_run_within trading_pair side target reduce_only fuel w res w' :
  0 <= target ->
  on_grid trading_pair target ->
  _execute_maker_loop config gw trading_pair side target reduce_only fuel w
  = Some (Value res, w') ->
  fills_within_orders trading_pair (trace w') ->
  MakerExecutionResult.filled_quantity res <= target.
Proof.
  intros Hpos Hgrid Hrun Hhon.
  apply execute_maker_loop_state in Hrun
    as (t0 & w0 & st & raised & w1 & res' & Hloop & _ & Hadded & Hres & _ & _ & Hf & _).
  injection Hres as <-. rewrite Hf.
  apply (maker_loop_ok config gw trading_pair side target reduce_only) in Hloop as (_ & Hinv).
  destruct Hinv as ((Hsum & Hrem & _) & _).
  - unfold conserved, initial_state. cbn. split; [ring | split; assumption].
  - now apply order_bounded_cleared.
  - eapply fills_within_orders_suffix; [|exact Hhon]. now apply added_extends in Hadded.
  - lra.
Qed.

Lemma clip_run_well_placed trading_pair side target reduce_only fuel w r w' :
  orders_well_placed config trading_pair side reduce_only (trace w) ->
  _execute_maker_loop config gw trading_pair side target reduce_only fuel w = Some (r, w') ->
  orders_well_placed config trading_pair side reduce_only (trace w').
Proof.
  intros Hw Hrun.
  apply execute_maker_loop_state in Hrun
    as (t0 & w0 & st & raised & w1 & res' & Hloop & Htr0 & Hadded & _).
  apply maker_loop_run in Hloop as (_ & _ & Hwp).
  apply (well_placed_added config trading_pair side reduce_only w1); [exact Hadded|].
  apply Hwp. rewrite Htr0. exact Hw.
Qed.

Lemma run_clips_extends fuel trading_pair side reduce_only clips :
  forall acc w r w',
    run_clips config gw fuel trading_pair side reduce_only clips acc w = Some (r, w') ->
    extends w w'.
Proof.
  induction clips as [|c rest IH]; intros acc w r w'; cbn [run_clips].
  - intros [= <- <-]. apply extends_refl.
  - unfold bind at 1.
    destruct (_execute_maker_loop _ _ _ _ _ _ _ _) as [[r0 w0]|] eqn:Hclip; [|discriminate].
    apply clip_run_extends in Hclip.
    destruct r0 as [res|m]; [|intros [= <- <-]; exact Hclip].
    destruct (MakerExecutionResult.status res);
      try (intros Hrest; apply IH in Hrest; eapply extends_trans; eassumption).
    intros [= <- <-]. exact Hclip.
Qed.

Lemma run_clips_well_placed fuel trading_pair side reduce_only clips :
  forall acc w r w',
    orders_well_placed config trading_pair side reduce_only (trace w) ->
    run_clips config gw fuel trading_pair side reduce_only clips acc w = Some (r, w') ->
    orders_well_placed config trading_pair side reduce_only (trace w').
Proof.
  induction clips as [|c rest IH]; intros acc w r w' Hw; cbn [run_clips].
  - intros [= <- <-]. exact Hw.
  - unfold bind at 1.
    destruct (_execute_maker_loop _ _ _ _ _ _ _ _) as [[r0 w0]|] eqn:Hclip; [|discriminate].
    apply (clip_run_well_placed _ _ _ _ _ _ _ _ Hw) in Hclip.
    destruct r0 as [res|m]; [|intros [= <- <-]; exact Hclip].
    destruct (MakerExecutionResult.status res); try (apply IH; exact Hclip).
    intros [= <- <-]. exact Hclip.
Qed.

Lemma Qsum_nonneg (l : list Q) : Forall (fun c => 0 <= c) l -> 0 <= Qsum l.
Proof.
  induction 1 as [|c l Hc _ IH]; [cbn; lra|].
  change (Qsum (c :: l)) with (c + Qsum l). lra.
Qed.

Lemma run_clips_within fuel trading_pair side reduce_only clips :
  forall acc w t w',
    Forall (fun c => 0 <= c) clips ->
    Forall (on_grid trading_pair) clips ->
    run_clips config gw fuel trading_pair side reduce_only clips acc w = Some (Value t, w') ->
    fills_within_orders trading_pair (trace w') ->
    sum_filled t <= sum_filled acc + Qsum clips.
Proof.
  induction clips as [|c rest IH]; intros acc w t w' Hpos Hgrid; cbn [run_clips].
  - intros [= <- <-] _. cbn. lra.
  - apply Forall_cons_1 in Hpos as (Hc & Hpos). apply Forall_cons_1 in Hgrid as (Hg & Hgrid).
    change (Qsum (c :: rest)) with (c + Qsum rest).
    pose proof (Qsum_nonneg rest Hpos) as Hrest.
    unfold bind at 1.
    destruct (_execute_maker_loop _ _ _ _ _ _ _ _) as [[r0 w0]|] eqn:Hclip; [|discriminate].
    destruct r0 as [res|m]; [|discriminate].
    assert (Hone : forall wf, extends w0 wf -> fills_within_orders trading_pair (trace wf) ->
                              MakerExecutionResult.filled_quantity res <= c).
    { intros wf Hext Hhon. apply (clip_run_within _ _ _ _ _ _ _ _ Hc Hg Hclip).
      eapply fills_within_orders_suffix; [exact Hext | exact Hhon]. }
    destruct (MakerExecutionResult.status res);
      try (intros Hrun Hhon;
           pose proof (Hone w' (run_clips_extends _ _ _ _ _ _ _ _ _ Hrun) Hhon) as H1;
           apply (IH _ _ _ _ Hpos Hgrid Hrun) in Hhon; cbn [sum_filled] in Hhon; lra).
    intros [= <- <-] Hhon. pose proof (Hone w0 (extends_refl w0) Hhon) as H1.
    cbn [sum_filled]. lra.
Qed.

(** The course of [execute_delta]: it skips at once, or reads the book,
    splits the rounded quantity and runs the clips. *)
Lemma execute_delta_run (fuel : nat) (d : PositionDelta.t) (w : World) r w' :
  let trading_pair := _get_trading_pair (PositionDelta.symbol d) in
  let rounded_qty := _round_quantity trading_pair (Qabs (PositionDelta.delta d)) in
  let side := if Decimal.gtb (PositionDelta.delta d) 0 then SELL else BUY in
  let reduce_only := Decimal.ltb (PositionDelta.delta d) 0 in
  execute_delta config gw draws fuel d w = Some (r, w') ->
  (Decimal.eqb rounded_qty 0 = true /\ w' = w
   /\ exists res,
       r = Value res
       /\ MakerExecutionResult.symbol res = trading_pair
       /\ MakerExecutionResult.status res = SKIPPED
       /\ MakerExecutionResult.target_quantity res = Qabs (PositionDelta.delta d)
       /\ MakerExecutionResult.filled_quantity res = 0)
  \/ (Decimal.eqb rounded_qty 0 = false
      /\ exists wb clips w1 t wt res,
          added not_place w wb
          /\ (clips = [rounded_qty]
              \/ exists price,
                  0 < price
                  /\ _split_order config draws trading_pair price fuel rounded_qty
                     = Some (Value clips))
          /\ trace w1 = trace wb
          /\ run_clips config gw fuel trading_pair side reduce_only clips
                       {| sum_filled := 0; sum_value := 0; sum_iterations := 0 |} w1
             = Some (Value t, wt)
          /\ trace w' = trace wt
          /\ r = Value res
          /\ MakerExecutionResult.symbol res = trading_pair
          /\ MakerExecutionResult.status res <> SKIPPED
          /\ MakerExecutionResult.target_quantity res = rounded_qty
          /\ MakerExecutionResult.filled_quantity res = sum_filled t).
Proof.
  intros trading_pair rounded_qty side reduce_only. unfold execute_delta.
  fold trading_pair. fold rounded_qty.
  destruct (Decimal.eqb rounded_qty 0) eqn:Hskip.
  { intros [= <- <-]. left. split; [reflexivity|]. split; [reflexivity|].
    eexists. repeat split. }
  intros Hrun. right. split; [reflexivity|]. revert Hrun. unfold bind at 1.
  destruct (_get_orderbook gw w) as [[book wb]|] eqn:Hbook; [|discriminate].
  apply get_orderbook_not_place in Hbook.
  match goal with
  | |- context [if Decimal.gtb ?p 0 then _split_order _ _ _ _ _ _ else _] =>
    destruct (Decimal.gtb p 0) eqn:Hprice;
      [apply gtb_gt in Hprice;
       destruct (_split_order config draws trading_pair p fuel rounded_qty) as [sp|] eqn:Hsplit;
       [|discriminate];
       pose proof Hsplit as Hsp;
       apply split_order_returns in Hsp as [clips ->]; [|assumption];
       assert (Hclips : clips = [rounded_qty]
                        \/ exists price,
                            0 < price
                            /\ _split_order config draws trading_pair price fuel rounded_qty
                               = Some (Value clips)) by (right; eauto)
      | set (clips := [rounded_qty]);
        assert (Hclips : clips = [rounded_qty]
                         \/ exists price,
                             0 < price
                             /\ _split_order config draws trading_pair price fuel rounded_qty
                                = Some (Value clips)) by (left; reflexivity)]
  end.
  all: unfold bind at 1; cbn [time_time]; unfold bind at 1;
    fold side; fold reduce_only;
    match goal with
    | |- context [run_clips _ _ _ _ _ _ _ _ ?w1] =>
      destruct (run_clips config gw fuel trading_pair side reduce_only clips
                          {| sum_filled := 0; sum_value := 0; sum_iterations := 0 |} w1)
        as [[tot wt]|] eqn:Hrun; [|discriminate];
        pose proof Hrun as Hval; apply run_clips_returns in Hval as [t ->];
        unfold bind at 1; cbn [time_time];
        destruct (fill_ratio_of_value (sum_filled t) rounded_qty) as (fr & -> & _);
        destruct (average_price_of_value (sum_value t) (sum_filled t)) as (a & -> & _);
        intros [= <- <-];
        exists wb, clips, w1, t, wt; eexists;
        split; [exact Hbook|]; split; [exact Hclips|]; split; [reflexivity|];
        split; [exact Hrun|]; split; [reflexivity|]; split; [reflexivity|];
        split; [reflexivity|]; split; [|split; reflexivity];
        cbn [MakerExecutionResult.status]; unfold classify;
        destruct (Decimal.geb fr (partial_fill_threshold config)); [discriminate|];
        destruct (Decimal.gtb (sum_filled t) 0); discriminate
    end.
Qed.

Lemma execute_delta_extends (fuel : nat) (d : PositionDelta.t) (w : World) r w' :
  execute_delta config gw draws fuel d w = Some (r, w') -> extends w w'.
Proof.
  intros Hrun. apply execute_delta_run in Hrun as [(_ & -> & _)|(_ & Hrun)].
  - apply extends_refl.
  - destruct Hrun as (wb & clips & w1 & t & wt & res & Hb & _ & H1 & Hclips & Hw' & _).
    apply added_extends in Hb. apply run_clips_extends in Hclips.
    unfold extends in *. rewrite Hw'. rewrite H1 in Hclips. etransitivity; eassumption.
Qed.

Lemma round_quantity_nonneg trading_pair (q : Q) : 0 <= _round_quantity trading_pair q.
Proof.
  pose proof (min_quantity_positive trading_pair) as Hmin.
  destruct (round_quantity_zero_or_minimum trading_pair q) as [H|H]; [rewrite H|]; lra.
Qed.

Lemma round_quantity_of_zero trading_pair (q : Q) :
  q == 0 -> _round_quantity trading_pair q == 0.
Proof.
  intros Hq.
  assert (Hg : on_grid trading_pair q).
  { destruct (on_grid_zero trading_pair) as [k Hk]. exists k. rewrite Hq. exact Hk. }
  destruct (round_quantity_on_grid _ _ Hg) as [H|H]; rewrite H; [exact Hq | reflexivity].
Qed.

Lemma well_placed_no_orders trading_pair side reduce_only (tr : list Event) :
  Forall not_place tr -> orders_well_placed config trading_pair side reduce_only tr.
Proof.
  intros F. rewrite <- (app_nil_r tr). apply well_placed_app; [exact F | exact I].
Qed.

Lemma match_sign_no_orders (delta : Q) (tr : list Event) :
  Forall not_place tr -> orders_match_sign delta tr.
Proof.
  induction 1 as [|e tr He _ IH]; [exact I|].
  destruct e; cbn in He |- *; try contradiction; exact IH.
Qed.

Lemma well_placed_match_sign trading_pair (delta : Q) (tr : list Event) :
  ~ delta == 0 ->
  orders_well_placed config trading_pair
                     (if Decimal.gtb delta 0 then SELL else BUY) (Decimal.ltb delta 0) tr ->
  orders_match_sign delta tr.
Proof.
  intros Hnz. induction tr as [|e tr IH]; [intros _; exact I|].
  destruct e; cbn [orders_well_placed orders_match_sign]; try exact IH.
  intros ((Hs & Hr & _) & Htr). split; [|exact (IH Htr)].
  destruct (Decimal.gtb delta 0) eqn:Hgt.
  - apply gtb_gt in Hgt. left. split; [exact Hgt|]. split; [exact Hs|].
    rewrite Hr. apply ltb_ge. lra.
  - apply gtb_le in Hgt. right. assert (Hlt : delta < 0).
    { destruct (Qlt_le_dec delta 0) as [H|H]; [exact H|]. exfalso. apply Hnz. lra. }
    split; [exact Hlt|]. split; [exact Hs|]. rewrite Hr. apply ltb_lt. exact Hlt.
Qed.

(** X10.  The sign of a delta decides the kind of every order
    [execute_delta] places for it: a positive delta only gives sells that
    may open a position, a negative delta only reduce-only buys, and a delta
    of 0 no order at all. *)
Theorem delta_sign_determines_side (fuel : nat) (d : PositionDelta.t) (w : World) r w' :
  Forall not_place (trace w) ->
  execute_delta config gw draws fuel d w = Some (r, w') ->
  orders_match_sign (PositionDelta.delta d) (trace w').
Proof.
  intros Hw Hrun. apply execute_delta_run in Hrun as [(_ & -> & _)|(Hnz & Hrun)].
  - now apply match_sign_no_orders.
  - destruct Hrun as (wb & clips & w1 & t & wt & res & Hb & _ & H1 & Hclips & Hw' & _).
    rewrite Hw'.
    apply (well_placed_match_sign (_get_trading_pair (PositionDelta.symbol d))).
    + intros Hz. apply eqb_neq in Hnz. apply Hnz. apply round_quantity_of_zero.
      rewrite Hz. reflexivity.
    + eapply run_clips_well_placed; [|exact Hclips]. rewrite H1.
      eapply well_placed_added; [exact Hb|]. now apply well_placed_no_orders.
Qed.

(** X11.  When the exchange reports fills as they can occur, [execute_delta]
    never reports more filled than the target quantity of its result, over
    all the clips the quantity was split into. *)
Theorem delta_filled_within_target (fuel : nat) (d : PositionDelta.t) (w : World) res w' :
  execute_delta config gw draws fuel d w = Some (Value res, w') ->
  fills_within_orders (_get_trading_pair (PositionDelta.symbol d)) (trace w') ->
  MakerExecutionResult.filled_quantity res <= MakerExecutionResult.target_quantity res.
Proof.
  intros Hrun Hhon.
  apply execute_delta_run in Hrun as [(_ & _ & res0 & Hres & _ & _ & Ht & Hf)|(_ & Hrun)].
  - injection Hres as <-. rewrite Ht, Hf. apply Qabs_nonneg.
  - destruct Hrun as (wb & clips & w1 & t & wt & res0 & _ & Hsplit & _ & Hclips & Hw'
                      & Hres & _ & _ & Ht & Hf).
    injection Hres as <-. rewrite Ht, Hf. rewrite Hw' in Hhon.
    set (trading_pair := _get_trading_pair (PositionDelta.symbol d)) in *.
    set (rounded_qty := _round_quantity trading_pair (Qabs (PositionDelta.delta d))) in *.
    pose proof (round_quantity_nonneg trading_pair (Qabs (PositionDelta.delta d))) as Hpos.
    pose proof (round_quantity_lands_on_grid trading_pair (Qabs (PositionDelta.delta d)))
      as Hgrid.
    fold rounded_qty in Hpos, Hgrid.
    assert (Hshape : (Forall (fun c => 0 <= c) clips /\ Forall (on_grid trading_pair) clips)
                     /\ Qsum clips <= rounded_qty).
    { assert (Hone : (Forall (fun c => 0 <= c) [rounded_qty]
                      /\ Forall (on_grid trading_pair) [rounded_qty])
                     /\ Qsum [rounded_qty] <= rounded_qty).
      { split; [split; repeat constructor; assumption | cbn; lra]. }
      destruct Hsplit as [->|(price & Hprice & Hsplit)]; [exact Hone|].
      split.
      - apply split_order_shape in Hsplit as Hsh.
        destruct Hsh as [->|(_ & Hok)]; [exact (proj1 Hone)|].
        split; (eapply Forall_impl; [exact Hok|]); intros c (Hc & Hg & _);
          [lra | exact Hg].
      - now apply (split_order_within_input config draws trading_pair price rounded_qty
                                            Hprice fuel). }
    destruct Hshape as ((Hnn & Hgr) & Hsum).
    pose proof (run_clips_within _ _ _ _ _ _ _ _ _ Hnn Hgr Hclips Hhon) as Hle.
    cbn [sum_filled] in Hle. lra.
Qed.

Lemma execute_delta_result (fuel : nat) (d : PositionDelta.t) (w : World) r w' :
  execute_delta config gw draws fuel d w = Some (r, w') ->
  exists res,
    r = Value res /\ result_of_delta d res
    /\ (_round_quantity (_get_trading_pair (PositionDelta.symbol d))
                        (Qabs (PositionDelta.delta d)) == 0 -> w' = w).
Proof.
  intros Hrun. unfold result_of_delta.
  apply execute_delta_run in Hrun as [(Hz & -> & res & -> & Hs & Hst & Ht & _)|(Hnz & Hrun)].
  - exists res. split; [reflexivity|]. rewrite Hz. apply eqb_eq in Hz.
    split; [|reflexivity]. split; [exact Hs|]. split; [tauto | exact Ht].
  - destruct Hrun as (wb & clips & w1 & t & wt & res & _ & _ & _ & _ & _
                      & -> & Hs & Hst & Ht & _).
    exists res. split; [reflexivity|]. rewrite Hnz. apply eqb_neq in Hnz.
    split; [|tauto]. split; [exact Hs|]. split; [tauto | exact Ht].
Qed.

Lemma execute_all_loop_results (fuel : nat) (deltas : list PositionDelta.t) :
  forall acc w r w',
    execute_all_loop config gw draws fuel deltas acc w = Some (r, w') ->
    exists results,
      r = Value (acc ++ results)%list
      /\ Forall2 result_of_delta deltas results
      /\ extends w w'
      /\ (Forall (fun d => _round_quantity (_get_trading_pair (PositionDelta.symbol d))
                                           (Qabs (PositionDelta.delta d)) == 0) deltas ->
          w' = w).
Proof.
  induction deltas as [|d rest IH]; intros acc w r w'; cbn [execute_all_loop].
  - intros [= <- <-]. exists []. rewrite app_nil_r.
    split; [reflexivity|]. split; [constructor|]. split; [apply extends_refl | reflexivity].
  - unfold bind at 1.
    destruct (execute_delta config gw draws fuel d w) as [[r0 w0]|] eqn:Hd; [|discriminate].
    pose proof (execute_delta_extends _ _ _ _ _ Hd) as Hext.
    apply execute_delta_result in Hd as (res & -> & Hres & Hskip).
    intros Hrest. apply IH in Hrest as (results & -> & Hall & Hext' & Hskips).
    exists (res :: results). rewrite <- app_assoc.
    split; [reflexivity|]. split; [constructor; assumption|].
    split; [eapply extends_trans; eassumption|].
    intros F. apply Forall_cons_1 in F as (Hd0 & F).
    rewrite (Hskips F). exact (Hskip Hd0).
Qed.

(** X12.  [execute_all] never raises and returns one result per delta, in
    the order of the deltas: each carries the trading pair of its delta, is
    [SKIPPED] exactly when the delta rounds to 0, and has as target the
    rounded quantity (the unrounded one when skipped).  A delta that ends as
    [FAILED] does not stop the batch, and a batch whose deltas all round to 0
    makes no call to the exchange. *)
Theorem execute_all_results (fuel : nat) (deltas : list PositionDelta.t) (w : World) r w' :
  execute_all config gw draws fuel deltas w = Some (r, w') ->
  exists results,
    r = Value results
    /\ Forall2 result_of_delta deltas results
    /\ extends w w'
    /\ (Forall (fun d => _round_quantity (_get_trading_pair (PositionDelta.symbol d))
                                         (Qabs (PositionDelta.delta d)) == 0) deltas ->
        w' = w).
Proof.
  unfold execute_all. destruct deltas as [|d rest].
  - intros [= <- <-]. exists [].
    split; [reflexivity|]. split; [constructor|]. split; [apply extends_refl | reflexivity].
  - intros Hrun. apply execute_all_loop_results in Hrun as (results & -> & H).
    exists results. split; [reflexivity | exact H].
Qed.

End Delta.

Lemma delta_sign_determines_side_witness :
  exists r w',
    execute_delta default_config reports_two (fun _ => 200) 20 buy_back_two_sol fresh_world
    = Some (r, w')
    /\ placed_quantities (trace w') = [2]
    /\ orders_match_sign (- (2)) (trace w').
Proof.
  assert (Hrun : exists r w',
             execute_delta default_config reports_two (fun _ => 200) 20 buy_back_two_sol
                           fresh_world = Some (r, w')
             /\ placed_quantities (trace w') = [2])
    by (do 2 eexists; split; vm_compute; reflexivity).
  destruct Hrun as (r & w' & Hrun & Hq). exists r, w'.
  split; [exact Hrun|]. split; [exact Hq|].
  apply (delta_sign_determines_side default_config reports_two (fun _ => 200) 20%nat
                                    buy_back_two_sol fresh_world r w');
    [constructor | exact Hrun].
Defined.

Lemma delta_filled_within_target_witness :
  exists res w',
    execute_delta default_config reports_two (fun _ => 200) 20 sell_six_sol fresh_world
    = Some (Value res, w')
    /\ placed_quantities (trace w') = [2; 2; 2]
    /\ MakerExecutionResult.filled_quantity res <= MakerExecutionResult.target_quantity res.
Proof.
  assert (Hrun : exists res w',
             execute_delta default_config reports_two (fun _ => 200) 20 sell_six_sol
                           fresh_world = Some (Value res, w')
             /\ placed_quantities (trace w') = [2; 2; 2]
             /\ fills_within_orders "SOLUSDT" (trace w')).
  { eexists. eexists. split; [vm_compute; reflexivity|]. split; [vm_compute; reflexivity|].
    cbn [trace fills_within_orders last_placed reported].
    repeat split; try (vm_compute; discriminate); exists 200%Z; vm_compute; reflexivity. }
  destruct Hrun as (res & w' & Hrun & Hq & Hhon).
  exists res, w'. split; [exact Hrun|]. split; [exact Hq|].
  exact (delta_filled_within_target default_config reports_two (fun _ => 200) 20%nat
                                    sell_six_sol fresh_world res w' Hrun Hhon).
Defined.

Lemma execute_all_results_witness :
  exists results w',
    execute_all default_config never_fills (fun _ => 200) 200
                [buy_back_two_sol; tiny_delta] fresh_world
    = Some (Value results, w')
    /\ map MakerExecutionResult.status results = [FAILED; SKIPPED]
    /\ Forall2 result_of_delta [buy_back_two_sol; tiny_delta] results.
Proof.
  assert (Hrun : exists r w',
             execute_all default_config never_fills (fun _ => 200) 200
                         [buy_back_two_sol; tiny_delta] fresh_world = Some (r, w')
             /\ forall results,
                 r = Value results ->
                 map MakerExecutionResult.status results = [FAILED; SKIPPED]).
  { eexists. eexists. split; [vm_compute; reflexivity|].
    intros results [= <-]. reflexivity. }
  destruct Hrun as (r & w' & Hrun & Hst).
  destruct (execute_all_results default_config never_fills (fun _ => 200) 200%nat
                                [buy_back_two_sol; tiny_delta] fresh_world r w' Hrun)
    as (results & Hr & Hall & _).
  exists results, w'. subst r. split; [exact Hrun|]. split; [now apply Hst | exact Hall].
Defined.


(** ** Which deltas are rebalanced *)

Section Filter.

Variable rebalance_threshold : Q.
Variable min_order_sizes : gmap string Q.
Variable target_positions : gmap string TargetHedgePosition.t.

Lemma deviation_pct_of_value (delta : PositionDelta.t) (target : TargetHedgePosition.t) :
  exists q,
    deviation_pct_of delta target = Value q
    /\ (rebalance_threshold <= q <->
        (0 < TargetHedgePosition.amount target
         /\ rebalance_threshold * TargetHedgePosition.amount target
            <= Qabs (PositionDelta.delta delta))
        \/ (TargetHedgePosition.amount target <= 0 /\ rebalance_threshold <= 0)).
Proof.
  unfold deviation_pct_of.
  destruct (Decimal.gtb (TargetHedgePosition.amount target) 0) eqn:Hpos.
  - apply gtb_gt in Hpos. rewrite div_some by lra. eexists. split; [reflexivity|].
    split.
    + intros Hq. left. split; [exact Hpos|].
      apply (Qmult_le_r _ _ _ Hpos) in Hq.
      assert (He : Qabs (PositionDelta.delta delta) / TargetHedgePosition.amount target
                   * TargetHedgePosition.amount target
                   == Qabs (PositionDelta.delta delta)) by (field; lra).
      rewrite He in Hq. exact Hq.
    + intros [(_ & Hq)|(Hneg & _)]; [|lra].
      apply Qle_shift_div_l; assumption.
  - apply gtb_le in Hpos. exists 0. split; [reflexivity|].
    split; [intros Hq; right; split; assumption|].
    intros [(Hp & _)|(_ & Hq)]; [lra | exact Hq].
Qed.

(** One pass of the loop: it never raises, and it adds the delta exactly when
    it is worth an order. *)
Lemma filter_step_value (symbol : string) (delta : PositionDelta.t)
      (significant : gmap string PositionDelta.t) :
  (filter_step rebalance_threshold min_order_sizes target_positions symbol delta significant
   = Value (<[symbol := delta]> significant)
   /\ worth_rebalancing rebalance_threshold min_order_sizes target_positions symbol
                        (PositionDelta.delta delta))
  \/ (filter_step rebalance_threshold min_order_sizes target_positions symbol delta significant
      = Value significant
      /\ ~ worth_rebalancing rebalance_threshold min_order_sizes target_positions symbol
                             (PositionDelta.delta delta)).
Proof.
  unfold filter_step, worth_rebalancing.
  destruct (target_positions !! symbol) as [target|] eqn:Ht.
  2:{ right. split; [reflexivity|]. intros (t & Hn & _). discriminate. }
  destruct (deviation_pct_of_value delta target) as (q & -> & Hq).
  destruct (Decimal.ltb q rebalance_threshold) eqn:Hdev.
  { apply ltb_lt in Hdev. right. split; [reflexivity|].
    intros (t & [= <-] & Hc & _). apply Hq in Hc. lra. }
  apply ltb_ge in Hdev.
  destruct (Decimal.ltb _ (dict_get min_order_sizes symbol (1 # 1000))) eqn:Hmin.
  { apply ltb_lt in Hmin. right. split; [reflexivity|].
    intros (t & _ & _ & Hc). lra. }
  apply ltb_ge in Hmin. left. split; [reflexivity|].
  exists target. split; [reflexivity|]. split; [now apply Hq | exact Hmin].
Qed.

Lemma filter_significant_deltas_lookup (deltas : gmap string PositionDelta.t) :
  exists significant,
    filter_significant_deltas rebalance_threshold min_order_sizes deltas target_positions
    = Value significant
    /\ forall symbol delta,
        significant !! symbol = Some delta
        <-> deltas !! symbol = Some delta
            /\ worth_rebalancing rebalance_threshold min_order_sizes target_positions symbol
                                 (PositionDelta.delta delta).
Proof.
  unfold filter_significant_deltas.
  apply (map_fold_weak_ind
           (fun (r : Raisable (gmap string PositionDelta.t))
                (m : gmap string PositionDelta.t) =>
              exists significant,
                r = Value significant
                /\ forall symbol delta,
                    significant !! symbol = Some delta
                    <-> m !! symbol = Some delta
                        /\ worth_rebalancing rebalance_threshold min_order_sizes
                                             target_positions symbol
                                             (PositionDelta.delta delta))).
  - exists ∅. split; [reflexivity|]. intros symbol delta. rewrite !lookup_empty.
    split; [discriminate | intros (H & _); discriminate].
  - intros i x m r Hi (significant & -> & IH).
    destruct (filter_step_value i x significant) as [(-> & Hw)|(-> & Hw)];
      eexists; (split; [reflexivity|]); intros symbol delta;
        destruct (decide (i = symbol)) as [->|Hne].
    + rewrite !lookup_insert_eq. split; [intros [= <-]; now split | now intros (H & _)].
    + rewrite !lookup_insert_ne by assumption. apply IH.
    + rewrite lookup_insert_eq. rewrite IH, Hi. split; [intros (H & _); discriminate|].
      intros ([= <-] & H). contradiction.
    + rewrite lookup_insert_ne by assumption. apply IH.
Qed.

(** X13.  [filter_significant_deltas] never raises (its division is never by
    zero), and it keeps a delta, unchanged, exactly when the symbol has a
    target, the deviation is at least the threshold (for a target amount
    [a > 0]: [|delta| >= threshold * a]; for [a <= 0] the deviation counts as
    0) and [|delta|] is at least the minimum order size; filtering the result
    again changes nothing. *)
Theorem filter_significant_deltas_keeps (deltas : gmap string PositionDelta.t) :
  exists significant,
    filter_significant_deltas rebalance_threshold min_order_sizes deltas target_positions
    = Value significant
    /\ (forall symbol delta,
           significant !! symbol = Some delta
           <-> deltas !! symbol = Some delta
               /\ worth_rebalancing rebalance_threshold min_order_sizes target_positions symbol
                                    (PositionDelta.delta delta))
    /\ significant ⊆ deltas
    /\ filter_significant_deltas rebalance_threshold min_order_sizes significant
                                 target_positions
       = Value significant.
Proof.
  destruct (filter_significant_deltas_lookup deltas) as (significant & Hrun & Hlook).
  exists significant. split; [exact Hrun|]. split; [exact Hlook|]. split.
  - apply map_subseteq_spec. intros symbol delta H. now apply Hlook in H.
  - destruct (filter_significant_deltas_lookup significant) as (again & -> & Hagain).
    f_equal. apply map_eq. intros symbol. apply option_eq. intros delta.
    rewrite Hagain, Hlook. tauto.
Qed.

(** X14.  From targets and current positions to the deltas that are
    rebalanced: a symbol is kept exactly when it has a target and the
    difference between the target amount and the size of the current position
    passes both tests.  So a position whose symbol has no target is never
    rebalanced, and with a positive threshold neither is a symbol whose target
    amount is 0, whatever position is open. *)
Theorem rebalance_selection (current_positions : gmap string Position.t) :
  exists significant,
    filter_significant_deltas rebalance_threshold min_order_sizes
                              (calculate_deltas target_positions current_positions)
                              target_positions
    = Value significant
    /\ (forall symbol delta,
           significant !! symbol = Some delta
           <-> exists target,
               target_positions !! symbol = Some target
               /\ delta = delta_for current_positions symbol target
               /\ worth_rebalancing rebalance_threshold min_order_sizes target_positions
                                    symbol (PositionDelta.delta delta))
    /\ (forall symbol, target_positions !! symbol = None -> significant !! symbol = None)
    /\ (0 < rebalance_threshold ->
        forall symbol target,
          target_positions !! symbol = Some target ->
          TargetHedgePosition.amount target <= 0 ->
          significant !! symbol = None).
Proof.
  destruct (filter_significant_deltas_lookup
              (calculate_deltas target_positions current_positions))
    as (significant & Hrun & Hlook).
  exists significant. split; [exact Hrun|].
  assert (Hchar : forall symbol delta,
             significant !! symbol = Some delta
             <-> exists target,
                 target_positions !! symbol = Some target
                 /\ delta = delta_for current_positions symbol target
                 /\ worth_rebalancing rebalance_threshold min_order_sizes target_positions
                                      symbol (PositionDelta.delta delta)).
  { intros symbol delta. rewrite Hlook, calculate_deltas_lookup. split.
    - intros (Hd & Hw). destruct (target_positions !! symbol) as [target|]; [|discriminate].
      injection Hd as <-. exists target. now repeat split.
    - intros (target & -> & -> & Hw). now split. }
  split; [exact Hchar|]. split.
  - intros symbol Hnone. apply eq_None_not_Some. intros [delta Hd].
    apply Hchar in Hd as (target & Ht & _). rewrite Hnone in Ht. discriminate.
  - intros Hthr symbol target Ht Hamount. apply eq_None_not_Some. intros [delta Hd].
    apply Hchar in Hd as (_ & _ & _ & (t & Ht' & Hc & _)).
    rewrite Ht in Ht'. injection Ht' as <-. lra.
Qed.

End Filter.

Lemma rebalance_selection_witness :
  exists significant,
    filter_significant_deltas (2 # 100) default_min_order_sizes
                              (calculate_deltas
                                 (<["ETH" := eth_target_closed]> (<["SOL" := sol_target]> ∅))
                                 (<["ETH" := eth_position]> ∅))
                              (<["ETH" := eth_target_closed]> (<["SOL" := sol_target]> ∅))
    = Value significant
    /\ significant !! "ETH" = None.
Proof.
  destruct (rebalance_selection (2 # 100) default_min_order_sizes
                                (<["ETH" := eth_target_closed]> (<["SOL" := sol_target]> ∅))
                                (<["ETH" := eth_position]> ∅))
    as (significant & Hrun & _ & _ & Hzero).
  exists significant. split; [exact Hrun|].
  apply (Hzero eq_refl "ETH" eth_target_closed); [apply lookup_insert_eq | discriminate].
Defined.

(** ** The current positions *)

Lemma symbol_of_pair_spec (pair symbol : string) :
  symbol_of_pair SYMBOL_MAPPING_items pair = Some symbol
  <-> symbol ∈ ["SOL"; "ETH"; "BTC"] /\ pair = _get_trading_pair symbol.
Proof.
  cbn [symbol_of_pair SYMBOL_MAPPING_items]. split.
  - destruct (String.eqb_spec pair "SOLUSDT") as [->|_];
      [intros [= <-]; split; [set_solver | reflexivity]|].
    destruct (String.eqb_spec pair "ETHUSDT") as [->|_];
      [intros [= <-]; split; [set_solver | reflexivity]|].
    destruct (String.eqb_spec pair "BTCUSDT") as [->|_];
      [intros [= <-]; split; [set_solver | reflexivity]|].
    discriminate.
  - intros (Hin & ->).
    repeat (apply elem_of_cons in Hin as [->|Hin]; [reflexivity|]).
    now apply elem_of_nil in Hin.
Qed.

Lemma get_current_positions_fold (positions : list Position.t) (symbol : string) :
  get_current_positions positions !! symbol
  = if decide (symbol ∈ ["SOL"; "ETH"; "BTC"])
    then last (filter (fun p => Position.symbol p = _get_trading_pair symbol) positions)
    else None.
Proof.
  unfold get_current_positions.
  induction positions as [|p positions IH] using rev_ind.
  - cbn. rewrite lookup_empty. now destruct (decide _).
  - rewrite fold_left_app, filter_app. cbn [fold_left].
    destruct (symbol_of_pair SYMBOL_MAPPING_items (Position.symbol p)) as [s|] eqn:Hs.
    + apply symbol_of_pair_spec in Hs as (Hin & Hp).
      destruct (decide (s = symbol)) as [->|Hne].
      * rewrite lookup_insert_eq, filter_cons_True by exact Hp.
        rewrite filter_nil, last_snoc. now rewrite decide_True by exact Hin.
      * rewrite lookup_insert_ne by exact Hne. rewrite IH.
        destruct (decide (symbol ∈ _)) as [Hsym|_]; [|reflexivity].
        rewrite filter_cons_False, filter_nil, app_nil_r; [reflexivity|].
        rewrite Hp. intros Heq. apply Hne. revert Heq.
        repeat (apply elem_of_cons in Hin as [->|Hin]);
          try (now apply elem_of_nil in Hin);
          repeat (apply elem_of_cons in Hsym as [->|Hsym]);
          try (now apply elem_of_nil in Hsym);
          try reflexivity; vm_compute; discriminate.
    + rewrite IH. destruct (decide (symbol ∈ _)) as [Hsym|_]; [|reflexivity].
      rewrite filter_cons_False, filter_nil, app_nil_r; [reflexivity|].
      intros Heq.
      assert (Hsome : symbol_of_pair SYMBOL_MAPPING_items (Position.symbol p) = Some symbol)
        by (apply symbol_of_pair_spec; now split).
      rewrite Hs in Hsome. discriminate.
Qed.

(** X15.  [get_current_positions] keeps, for each of SOL, ETH and BTC, the
    last position of the list on the trading pair of that symbol, and drops
    every other position: its keys are among the three symbols, and the
    position kept under a symbol is on the pair [_get_trading_pair] gives for
    it. *)
Theorem get_current_positions_lookup (positions : list Position.t) (symbol : string)
        (pos : Position.t) :
  get_current_positions positions !! symbol = Some pos
  <-> symbol ∈ ["SOL"; "ETH"; "BTC"]
      /\ last (filter (fun p => Position.symbol p = _get_trading_pair symbol) positions)
         = Some pos.
Proof.
  rewrite get_current_positions_fold.
  destruct (decide (symbol ∈ _)) as [Hsym|Hsym].
  - split; [intros H; now split | now intros (_ & H)].
  - split; [discriminate | intros (H & _); contradiction].
Qed.

(** X16.  The size of the current position that [calculate_deltas] takes off
    the target of a symbol, when the current positions are those
    [get_current_positions] builds: the absolute quantity of the last listed
    position on the symbol's trading pair for SOL, ETH and BTC, and 0 for a
    symbol with no such position and for every other symbol, whatever
    positions are open. *)
Theorem delta_uses_last_position (positions : list Position.t)
        (target_positions : gmap string TargetHedgePosition.t)
        (symbol : string) (target : TargetHedgePosition.t) :
  target_positions !! symbol = Some target ->
  exists delta,
    calculate_deltas target_positions (get_current_positions positions) !! symbol = Some delta
    /\ PositionDelta.delta delta
       = TargetHedgePosition.amount target - PositionDelta.current delta
    /\ PositionDelta.current delta
       = match last (filter (fun p => Position.symbol p = _get_trading_pair symbol)
                            positions) with
         | Some pos =>
           if decide (symbol ∈ ["SOL"; "ETH"; "BTC"]) then Qabs (Position.quantity pos) else 0
         | None => 0
         end.
Proof.
  intros Ht. rewrite calculate_deltas_lookup, Ht. eexists. split; [reflexivity|].
  unfold delta_for. cbn [PositionDelta.delta PositionDelta.current].
  split; [reflexivity|]. rewrite get_current_positions_fold.
  destruct (decide (symbol ∈ _)); [reflexivity|]. now destruct (last _).
Qed.

Lemma delta_uses_last_position_witness :
  exists delta,
    calculate_deltas (<["ETH" := eth_target]> ∅)
                     (get_current_positions [eth_position; sol_long]) !! "ETH"
    = Some delta
    /\ PositionDelta.delta delta = 5 - Qabs (- (3 # 1)).
Proof.
  destruct (delta_uses_last_position [eth_position; sol_long] (<["ETH" := eth_target]> ∅)
                                     "ETH" eth_target (lookup_insert_eq _ _ _))
    as (delta & Hd & Hdelta & Hcur).
  exists delta. split; [exact Hd|]. rewrite Hdelta, Hcur. reflexivity.
Defined.


(** ** The order executor outside the maker mode *)

Section Market.

Variable slippage : Q.
Variable use_market_order : bool.
Variable maker_config : MakerOrderConfig.
Variable draws : nat -> Q.
Variable ex : OrderExecutor.Exchange.

Lemma open_short_run (trading_pair : string) (quantity : Q) (s : OrderExecutor.State) :
  exists r s',
    OrderExecutor._open_short slippage use_market_order ex trading_pair quantity s
    = Some (r, s')
    /\ short_order_run use_market_order trading_pair SELL false quantity s r s'.
Proof.
  unfold OrderExecutor._open_short, short_order_run.
  destruct (Decimal.eqb (_round_quantity trading_pair quantity) 0) eqn:Hz.
  { do 2 eexists. split; [reflexivity|]. split; [reflexivity|]. left. now repeat split. }
  destruct use_market_order.
  - do 2 eexists. split; [reflexivity|]. split; [reflexivity|]. right.
    split; [reflexivity|]. eexists [_]. split; [reflexivity|].
    split; [|right; eexists; reflexivity].
    repeat constructor.
  - unfold OrderExecutor.exec_bind, OrderExecutor._get_current_price,
      OrderExecutor.client_get_ticker_price.
    destruct (OrderExecutor.ticker_answer ex (OrderExecutor.n_ticker s)) as [price|m].
    + do 2 eexists. split; [reflexivity|]. split; [reflexivity|]. right.
      split; [reflexivity|]. eexists [_; _]. split; [reflexivity|].
      split; [|right; eexists; reflexivity].
      repeat constructor; try reflexivity; discriminate.
    + do 2 eexists. split; [reflexivity|]. split; [reflexivity|]. right.
      split; [reflexivity|]. eexists [_]. split; [reflexivity|].
      split; [|left; split; [reflexivity | eexists; reflexivity]].
      repeat constructor.
Qed.

Lemma close_short_run (trading_pair : string) (quantity : Q) (s : OrderExecutor.State) :
  exists r s',
    OrderExecutor._close_short slippage use_market_order ex trading_pair quantity s
    = Some (r, s')
    /\ short_order_run use_market_order trading_pair BUY true quantity s r s'.
Proof.
  unfold OrderExecutor._close_short, short_order_run.
  destruct (Decimal.eqb (_round_quantity trading_pair quantity) 0) eqn:Hz.
  { do 2 eexists. split; [reflexivity|]. split; [reflexivity|]. left. now repeat split. }
  destruct use_market_order.
  - do 2 eexists. split; [reflexivity|]. split; [reflexivity|]. right.
    split; [reflexivity|]. eexists [_]. split; [reflexivity|].
    split; [|right; eexists; reflexivity].
    repeat constructor.
  - unfold OrderExecutor.exec_bind, OrderExecutor._get_current_price,
      OrderExecutor.client_get_ticker_price.
    destruct (OrderExecutor.ticker_answer ex (OrderExecutor.n_ticker s)) as [price|m].
    + do 2 eexists. split; [reflexivity|]. split; [reflexivity|]. right.
      split; [reflexivity|]. eexists [_; _]. split; [reflexivity|].
      split; [|right; eexists; reflexivity].
      repeat constructor; try reflexivity; discriminate.
    + do 2 eexists. split; [reflexivity|]. split; [reflexivity|]. right.
      split; [reflexivity|]. eexists [_]. split; [reflexivity|].
      split; [|left; split; [reflexivity | eexists; reflexivity]].
      repeat constructor.
Qed.

(** The order of a delta: [_open_short] for a positive delta, [_close_short]
    otherwise. *)
Lemma delta_order_run (delta : PositionDelta.t) (s : OrderExecutor.State) :
  let trading_pair := _get_trading_pair (PositionDelta.symbol delta) in
  let quantity := Qabs (PositionDelta.delta delta) in
  exists r s',
    (if Decimal.gtb (PositionDelta.delta delta) 0
     then OrderExecutor._open_short slippage use_market_order ex trading_pair quantity
     else OrderExecutor._close_short slippage use_market_order ex trading_pair quantity) s
    = Some (r, s')
    /\ exists side reduce_only,
        short_order_run use_market_order trading_pair side reduce_only quantity s r s'
        /\ ((0 < PositionDelta.delta delta /\ side = SELL /\ reduce_only = false)
            \/ (PositionDelta.delta delta <= 0 /\ side = BUY /\ reduce_only = true)).
Proof.
  intros trading_pair quantity.
  destruct (Decimal.gtb (PositionDelta.delta delta) 0) eqn:Hsign.
  - apply gtb_gt in Hsign.
    destruct (open_short_run trading_pair quantity s) as (r & s' & Hrun & Hshort).
    exists r, s'. split; [exact Hrun|]. exists SELL, false. split; [exact Hshort|].
    left. now repeat split.
  - apply gtb_le in Hsign.
    destruct (close_short_run trading_pair quantity s) as (r & s' & Hrun & Hshort).
    exists r, s'. split; [exact Hrun|]. exists BUY, true. split; [exact Hshort|].
    right. now repeat split.
Qed.

(** X17.  Outside the maker mode [execute_delta] always returns a result and
    never raises, whatever the exchange answers.  The result carries the
    symbol of the delta and the unrounded [|delta|] as target; it is
    [SUCCESS] only with at least 95% of that target filled and [PARTIAL] only
    with less; a [FAILED] or [SKIPPED] result reports nothing filled; and a
    delta that rounds to 0 is [SKIPPED] without any call. *)
Theorem market_delta_outcome (fuel : nat) (delta : PositionDelta.t)
        (s : OrderExecutor.State) :
  let quantity := Qabs (PositionDelta.delta delta) in
  exists res s',
    OrderExecutor.execute_delta slippage use_market_order false maker_config draws ex
                                fuel delta s
    = Some (Value res, s')
    /\ OrderExecutor.ExecutionResult.symbol res = PositionDelta.symbol delta
    /\ OrderExecutor.ExecutionResult.target_quantity res = quantity
    /\ (OrderExecutor.ExecutionResult.status res = ExecutionStatus.SUCCESS ->
        quantity * (95 # 100) <= OrderExecutor.ExecutionResult.filled_quantity res)
    /\ (OrderExecutor.ExecutionResult.status res = ExecutionStatus.PARTIAL ->
        OrderExecutor.ExecutionResult.filled_quantity res < quantity * (95 # 100))
    /\ (OrderExecutor.ExecutionResult.status res = ExecutionStatus.FAILED
        \/ OrderExecutor.ExecutionResult.status res = ExecutionStatus.SKIPPED ->
        OrderExecutor.ExecutionResult.filled_quantity res = 0)
    /\ (_round_quantity (_get_trading_pair (PositionDelta.symbol delta)) quantity == 0 ->
        s' = s /\ OrderExecutor.ExecutionResult.status res = ExecutionStatus.SKIPPED)
    /\ OrderExecutor.maker_world s' = OrderExecutor.maker_world s.
Proof.
  cbv zeta. unfold OrderExecutor.execute_delta, OrderExecutor.exec_bind.
  destruct (delta_order_run delta s) as (r & s' & -> & side & ro & (Hworld & Hshort) & _).
  assert (Hskip : _round_quantity (_get_trading_pair (PositionDelta.symbol delta)) (Qabs (PositionDelta.delta delta))
                  == 0 ->
                  s' = s /\ r = Value (OrderExecutor.skipped_order
                                         (_get_trading_pair (PositionDelta.symbol delta)))).
  { intros Hz. destruct Hshort as [(_ & -> & ->)|(Hnz & _)]; [now split|].
    apply eqb_neq in Hnz. contradiction. }
  destruct r as [result|e].
  2:{ do 2 eexists. split; [reflexivity|]. cbn.
      split; [reflexivity|]. split; [reflexivity|]. split; [discriminate|].
      split; [discriminate|]. split; [reflexivity|]. split; [|exact Hworld].
      intros Hz. destruct (Hskip Hz) as (_ & Hr). discriminate. }
  destruct (OrderExecutor.success result) eqn:Hsuccess.
  2:{ do 2 eexists. split; [reflexivity|]. cbn.
      split; [reflexivity|]. split; [reflexivity|]. split; [discriminate|].
      split; [discriminate|]. split; [reflexivity|]. split; [|exact Hworld].
      intros Hz. destruct (Hskip Hz) as (_ & [= ->]). discriminate. }
  destruct (match OrderExecutor.order_id result with
            | Some id => String.eqb id "SKIPPED"
            | None => false
            end) eqn:Hid.
  { do 2 eexists. split; [reflexivity|]. cbn.
    split; [reflexivity|]. split; [reflexivity|]. split; [discriminate|].
    split; [discriminate|]. split; [reflexivity|]. split; [|exact Hworld].
    intros Hz. destruct (Hskip Hz) as (-> & _). now split. }
  destruct (Decimal.geb (OrderExecutor.or_zero (OrderExecutor.filled_quantity result))
                        ((Qabs (PositionDelta.delta delta)) * (95 # 100))) eqn:Hfill;
    do 2 eexists; (split; [reflexivity|]); cbn;
      (split; [reflexivity|]); (split; [reflexivity|]).
  - apply geb_ge in Hfill.
    split; [intros _; exact Hfill|]. split; [discriminate|].
    split; [intros [H|H]; discriminate|]. split; [|exact Hworld].
    intros Hz. destruct (Hskip Hz) as (_ & [= ->]). discriminate.
  - apply geb_lt in Hfill.
    split; [discriminate|]. split; [intros _; exact Hfill|].
    split; [intros [H|H]; discriminate|]. split; [|exact Hworld].
    intros Hz. destruct (Hskip Hz) as (_ & [= ->]). discriminate.
Qed.

(** X18.  The calls [execute_delta] makes for a delta outside the maker
    mode: at most one order, on the trading pair of the delta, for the
    rounded [|delta|], which is then a proper order size; a sell without
    reduce-only for a positive delta and a reduce-only buy for a negative one,
    so that no order can open a long position; a market order exactly when
    [use_market_order] is set, and ticker requests only when it is not.  A
    [SUCCESS] or [PARTIAL] result means exactly one order was sent, and a
    delta of 0 makes no call. *)
Theorem market_delta_order (fuel : nat) (delta : PositionDelta.t)
        (s : OrderExecutor.State) r s' :
  OrderExecutor.execute_delta slippage use_market_order false maker_config draws ex
                              fuel delta s
  = Some (r, s') ->
  exists res new,
    r = Value res
    /\ OrderExecutor.calls s' = (new ++ OrderExecutor.calls s)%list
    /\ Forall (delta_call_ok use_market_order delta) new
    /\ (length (orders_among new) <= 1)%nat
    /\ (OrderExecutor.ExecutionResult.status res = ExecutionStatus.SUCCESS
        \/ OrderExecutor.ExecutionResult.status res = ExecutionStatus.PARTIAL ->
        length (orders_among new) = 1%nat)
    /\ (PositionDelta.delta delta == 0 -> new = []).
Proof.
  unfold OrderExecutor.execute_delta, OrderExecutor.exec_bind.
  destruct (delta_order_run delta s) as (r0 & s0 & -> & side & ro & (_ & Hshort) & Hsign).
  set (trading_pair := _get_trading_pair (PositionDelta.symbol delta)) in *.
  set (quantity := Qabs (PositionDelta.delta delta)) in *.
  assert (Hcalls : exists new,
             OrderExecutor.calls s0 = (new ++ OrderExecutor.calls s)%list
             /\ Forall (delta_call_ok use_market_order delta) new
             /\ (length (orders_among new) <= 1)%nat
             /\ (PositionDelta.delta delta == 0 -> new = [])
             /\ (orders_among new = [] ->
                 (exists m, r0 = Exception m)
                 \/ r0 = Value (OrderExecutor.skipped_order trading_pair))).
  { destruct Hshort as [(_ & -> & ->)|(Hnz & new & Hnew & Hall & Hcount)].
    - exists []. split; [reflexivity|]. split; [constructor|]. split; [cbn; lia|].
      split; [reflexivity|]. intros _. now right.
    - exists new. split; [exact Hnew|].
      pose proof (rounded_remaining_ok trading_pair quantity Hnz) as Hclip.
      assert (Hdelta : ~ PositionDelta.delta delta == 0).
      { intros Hz. apply eqb_neq in Hnz. apply Hnz. apply round_quantity_of_zero.
        unfold quantity. rewrite Hz. reflexivity. }
      split.
      { eapply Forall_impl; [exact Hall|]. intros c Hc. unfold delta_call_ok.
        fold trading_pair. fold quantity.
        destruct c as [tp a|tp sd ot q p tif r1 a|a]; [exact Hc| |exact Hc].
        destruct Hc as (-> & -> & -> & -> & Hmarket).
        split; [reflexivity|]. split; [reflexivity|]. split; [exact Hclip|].
        split; [|exact Hmarket].
        destruct Hsign as [(Hpos & -> & ->)|(Hneg & -> & ->)]; [left; now repeat split|].
        right. split; [|now split].
        destruct (Qlt_le_dec (PositionDelta.delta delta) 0) as [H|H]; [exact H|].
        exfalso. apply Hdelta. lra. }
      split; [destruct Hcount as [(-> & _)|(c & ->)]; cbn; lia|].
      split; [intros Hz; contradiction|].
      intros Hnone. left. destruct Hcount as [(_ & Hm)|(c & Hc)]; [exact Hm|].
      rewrite Hc in Hnone. discriminate. }
  destruct Hcalls as (new & Hnew & Hall & Hcount & Hzero & Hnone).
  assert (Hone : forall res : OrderExecutor.ExecutionResult.t,
             (orders_among new = [] ->
              ~ (OrderExecutor.ExecutionResult.status res = ExecutionStatus.SUCCESS
                 \/ OrderExecutor.ExecutionResult.status res = ExecutionStatus.PARTIAL)) ->
             OrderExecutor.ExecutionResult.status res = ExecutionStatus.SUCCESS
             \/ OrderExecutor.ExecutionResult.status res = ExecutionStatus.PARTIAL ->
             length (orders_among new) = 1%nat).
  { intros res Hno Hst. destruct (orders_among new) as [|c [|c' l]] eqn:Ho.
    - exfalso. now apply Hno.
    - reflexivity.
    - cbn in Hcount. lia. }
  destruct r0 as [result|e].
  2:{ intros [= <- <-]. do 2 eexists. split; [reflexivity|].
      split; [exact Hnew|]. split; [exact Hall|]. split; [exact Hcount|].
      split; [|exact Hzero]. intros [H|H]; discriminate. }
  destruct (OrderExecutor.success result) eqn:Hsuccess.
  2:{ intros [= <- <-]. do 2 eexists. split; [reflexivity|].
      split; [exact Hnew|]. split; [exact Hall|]. split; [exact Hcount|].
      split; [|exact Hzero]. intros [H|H]; discriminate. }
  destruct (match OrderExecutor.order_id result with
            | Some id => String.eqb id "SKIPPED"
            | None => false
            end) eqn:Hid.
  { intros [= <- <-]. do 2 eexists. split; [reflexivity|].
    split; [exact Hnew|]. split; [exact Hall|]. split; [exact Hcount|].
    split; [|exact Hzero]. intros [H|H]; discriminate. }
  intros [= <- <-]. do 2 eexists. split; [reflexivity|].
  split; [exact Hnew|]. split; [exact Hall|]. split; [exact Hcount|].
  split; [|exact Hzero]. apply Hone. intros Ho _.
  destruct (Hnone Ho) as [(m & Hm)|Hs]; [discriminate|].
  injection Hs as ->. discriminate.
Qed.

(** The part of the outcome [execute_all] relies on. *)
Lemma market_delta_returns (fuel : nat) (delta : PositionDelta.t) (s : OrderExecutor.State) :
  exists res s',
    OrderExecutor.execute_delta slippage use_market_order false maker_config draws ex
                                fuel delta s
    = Some (Value res, s')
    /\ OrderExecutor.ExecutionResult.symbol res = PositionDelta.symbol delta
    /\ OrderExecutor.ExecutionResult.target_quantity res = Qabs (PositionDelta.delta delta).
Proof.
  unfold OrderExecutor.execute_delta, OrderExecutor.exec_bind.
  destruct (delta_order_run delta s) as (r & s' & -> & _).
  destruct r as [result|e]; [|do 2 eexists; now repeat split].
  destruct (OrderExecutor.success result); [|do 2 eexists; now repeat split].
  destruct (match OrderExecutor.order_id result with
            | Some id => String.eqb id "SKIPPED"
            | None => false
            end); do 2 eexists; now repeat split.
Qed.

Lemma market_execute_all_loop (fuel : nat) (deltas : list PositionDelta.t) :
  forall acc s,
  exists results s',
    OrderExecutor.execute_all_loop slippage use_market_order false maker_config draws ex
                                   fuel deltas acc s
    = Some (Value (acc ++ results)%list, s')
    /\ Forall2 (fun delta res =>
                  OrderExecutor.ExecutionResult.symbol res = PositionDelta.symbol delta
                  /\ OrderExecutor.ExecutionResult.target_quantity res
                     = Qabs (PositionDelta.delta delta))
               deltas results.
Proof.
  induction deltas as [|delta rest IH]; intros acc s; cbn [OrderExecutor.execute_all_loop].
  - exists [], s. rewrite app_nil_r. split; [reflexivity | constructor].
  - unfold OrderExecutor.exec_bind.
    destruct (market_delta_returns fuel delta s) as (res & s1 & -> & Hres).
    destruct (IH (acc ++ [res])%list s1) as (results & s' & Hrun & Hall).
    exists (res :: results), s'. rewrite <- app_assoc in Hrun.
    split; [exact Hrun | constructor; assumption].
Qed.

(** X19.  Outside the maker mode [execute_all] always returns, never raises,
    and gives one result per delta, in the order of the deltas, each with the
    symbol of its delta and [|delta|] as target: no answer of the exchange to
    one order keeps the later deltas from being tried. *)
Theorem market_execute_all (fuel : nat) (deltas : list PositionDelta.t)
        (s : OrderExecutor.State) :
  exists results s',
    OrderExecutor.execute_all slippage use_market_order false maker_config draws ex
                              fuel deltas s
    = Some (Value results, s')
    /\ Forall2 (fun delta res =>
                  OrderExecutor.ExecutionResult.symbol res = PositionDelta.symbol delta
                  /\ OrderExecutor.ExecutionResult.target_quantity res
                     = Qabs (PositionDelta.delta delta))
               deltas results.
Proof.
  unfold OrderExecutor.execute_all. destruct deltas as [|delta rest].
  - exists [], s. split; [reflexivity | constructor].
  - destruct (market_execute_all_loop fuel (delta :: rest) [] s) as (results & s' & Hrun & H).
    exists results, s'. split; [exact Hrun | exact H].
Qed.

Lemma close_loop_run (positions : list Position.t) :
  forall acc s,
  exists r s' new,
    OrderExecutor.close_loop slippage use_market_order ex positions acc s = Some (r, s')
    /\ OrderExecutor.calls s' = (new ++ OrderExecutor.calls s)%list
    /\ Forall closing_call new
    /\ forall results,
        r = Value results ->
        exists closed,
          results = (acc ++ closed)%list
          /\ Forall2 closes
                     (List.filter (fun pos => Decimal.ltb (Position.quantity pos) 0) positions)
                     closed.
Proof.
  induction positions as [|pos rest IH]; intros acc s; cbn [OrderExecutor.close_loop List.filter].
  - exists (Value acc), s, []. split; [reflexivity|]. split; [reflexivity|].
    split; [constructor|]. intros results [= <-]. exists [].
    rewrite app_nil_r. split; [reflexivity | constructor].
  - destruct (Decimal.ltb (Position.quantity pos) 0) eqn:Hshort; [|apply IH].
    unfold OrderExecutor.exec_bind.
    destruct (close_short_run (Position.symbol pos) (Qabs (Position.quantity pos)) s)
      as (r & s1 & -> & _ & Hrun).
    assert (Hcalls : exists new,
               OrderExecutor.calls s1 = (new ++ OrderExecutor.calls s)%list
               /\ Forall closing_call new).
    { destruct Hrun as [(_ & -> & _)|(Hnz & new & Hnew & Hall & _)].
      - exists []. split; [reflexivity | constructor].
      - exists new. split; [exact Hnew|].
        eapply Forall_impl; [exact Hall|]. intros c Hc.
        destruct c as [tp a|tp sd ot q p tif r1 a|a]; [exact I| |exact Hc].
        destruct Hc as (_ & -> & -> & -> & _). split; [reflexivity|]. split; [reflexivity|].
        pose proof (rounded_remaining_ok _ _ Hnz) as (Hpos & _). exact Hpos. }
    destruct Hcalls as (new1 & Hnew1 & Hall1).
    destruct r as [result|m].
    2:{ exists (Exception m), s1, new1. split; [reflexivity|]. split; [exact Hnew1|].
        split; [exact Hall1|]. discriminate. }
    match goal with
    | |- context [OrderExecutor.close_loop _ _ _ rest ?acc' s1] =>
      destruct (IH acc' s1) as (r & s' & new2 & Hloop & Hnew2 & Hall2 & Hres)
    end.
    exists r, s', (new2 ++ new1)%list. split; [exact Hloop|].
    split; [rewrite Hnew2, Hnew1; apply app_assoc|].
    split; [apply Forall_app; now split|].
    intros results Hr. destruct (Hres results Hr) as (closed & -> & Hclosed).
    eexists (_ :: closed). rewrite <- app_assoc. split; [reflexivity|].
    constructor; [|exact Hclosed].
    split; [reflexivity|]. split; [reflexivity|]. exists result.
    split; [reflexivity|]. split; [reflexivity|].
    intros Hz. cbn [OrderExecutor.ExecutionResult.status
                      OrderExecutor.ExecutionResult.filled_quantity].
    destruct Hrun as [(_ & _ & [= ->])|(Hnz & _)].
    + split; reflexivity.
    + apply eqb_neq in Hnz. contradiction.
Qed.

(** X20.  [close_all_positions] reads the positions once and then sends only
    reduce-only buys of a positive quantity (and ticker requests): it cannot
    open or enlarge a position.  When it returns, its results are those of the
    positions with a negative quantity, one each and in their order; a short
    too small for an order is reported as [SUCCESS] with nothing filled. *)
Theorem close_all_positions_closes_shorts (s : OrderExecutor.State) :
  exists r s' new,
    OrderExecutor.close_all_positions slippage use_market_order ex s = Some (r, s')
    /\ OrderExecutor.calls s'
       = (new ++ OrderExecutor.CallPositions
                   (OrderExecutor.positions_answer ex (OrderExecutor.n_positions s))
              :: OrderExecutor.calls s)%list
    /\ Forall closing_call new
    /\ forall results,
        r = Value results ->
        exists positions,
          OrderExecutor.positions_answer ex (OrderExecutor.n_positions s) = Value positions
          /\ Forall2 closes
                     (List.filter (fun pos => Decimal.ltb (Position.quantity pos) 0) positions)
                     results.
Proof.
  unfold OrderExecutor.close_all_positions, OrderExecutor.exec_bind,
    OrderExecutor.client_get_positions.
  destruct (OrderExecutor.positions_answer ex (OrderExecutor.n_positions s))
    as [positions|m].
  - match goal with
    | |- context [OrderExecutor.close_loop _ _ _ positions [] ?s1] =>
      destruct (close_loop_run positions [] s1) as (r & s' & new & Hloop & Hnew & Hall & Hres)
    end.
    exists r, s', new. split; [exact Hloop|]. split; [exact Hnew|]. split; [exact Hall|].
    intros results Hr. destruct (Hres results Hr) as (closed & -> & Hclosed).
    exists positions. split; [reflexivity | exact Hclosed].
  - do 2 eexists. exists []. split; [reflexivity|]. split; [reflexivity|].
    split; [constructor | discriminate].
Qed.

(** X21.  In the maker mode [execute_delta] hands the delta to the maker
    executor and makes no call of its own, whatever [use_market_order] is; it
    never raises.  Its result carries the symbol of the delta (not the
    trading pair), no order results, and the status, target and filled
    quantity of the maker result: it is [SKIPPED] exactly when the delta
    rounds to 0, and its target is the rounded quantity, the unrounded one
    when skipped. *)
Theorem maker_mode_delta (fuel : nat) (delta : PositionDelta.t)
        (s : OrderExecutor.State) r s' :
  let rounded := _round_quantity (_get_trading_pair (PositionDelta.symbol delta))
                                 (Qabs (PositionDelta.delta delta)) in
  OrderExecutor.execute_delta slippage use_market_order true maker_config draws ex
                              fuel delta s
  = Some (r, s') ->
  exists res maker_result,
    r = Value res
    /\ execute_delta maker_config (OrderExecutor.maker_gateway ex) draws fuel delta
                     (OrderExecutor.maker_world s)
       = Some (Value maker_result, OrderExecutor.maker_world s')
    /\ OrderExecutor.calls s' = OrderExecutor.calls s
    /\ OrderExecutor.ExecutionResult.symbol res = PositionDelta.symbol delta
    /\ OrderExecutor.ExecutionResult.order_results res = []
    /\ OrderExecutor.ExecutionResult.filled_quantity res
       = MakerExecutionResult.filled_quantity maker_result
    /\ (OrderExecutor.ExecutionResult.status res = ExecutionStatus.SKIPPED <-> rounded == 0)
    /\ OrderExecutor.ExecutionResult.target_quantity res
       = (if Decimal.eqb rounded 0 then Qabs (PositionDelta.delta delta) else rounded).
Proof.
  cbv zeta.
  unfold OrderExecutor.execute_delta, OrderExecutor.exec_bind,
    OrderExecutor.maker_executor_execute_delta, OrderExecutor.lift.
  destruct (execute_delta maker_config (OrderExecutor.maker_gateway ex) draws fuel delta
                          (OrderExecutor.maker_world s)) as [[mr w']|] eqn:Hmaker;
    [|discriminate].
  destruct (execute_delta_result _ _ _ _ _ _ _ _ Hmaker) as (mres & -> & (_ & Hst & Ht) & _).
  intros [= <- <-]. eexists. exists mres. cbn.
  split; [reflexivity|]. split; [reflexivity|]. split; [reflexivity|].
  split; [reflexivity|]. split; [reflexivity|]. split; [reflexivity|].
  split; [|exact Ht]. rewrite <- Hst.
  destruct (MakerExecutionResult.status mres); cbn; split; congruence.
Qed.

(** X22.  With limit orders ([use_market_order] off) and a delta that does
    not round to 0, [execute_delta] first asks for the price.  When that
    request fails, no order is sent and the result is [FAILED] with the
    message of the exception and an empty list of order results.  Otherwise
    exactly one immediate-or-cancel limit order is sent, and for a slippage
    and a price that are not negative a sell is priced at or below the price
    read and a buy at or above it.  For SOL, ETH and BTC the price is asked
    for the trading pair of the order. *)
Theorem limit_delta_calls (fuel : nat) (delta : PositionDelta.t) (s : OrderExecutor.State) :
  let trading_pair := _get_trading_pair (PositionDelta.symbol delta) in
  let rounded := _round_quantity trading_pair (Qabs (PositionDelta.delta delta)) in
  let asked := _get_trading_pair (remove_USDT trading_pair) in
  Decimal.eqb rounded 0 = false ->
  exists res s',
    OrderExecutor.execute_delta slippage false false maker_config draws ex fuel delta s
    = Some (Value res, s')
    /\ match OrderExecutor.ticker_answer ex (OrderExecutor.n_ticker s) with
       | Exception m =>
         OrderExecutor.calls s'
         = OrderExecutor.CallTicker asked (Exception m) :: OrderExecutor.calls s
         /\ OrderExecutor.ExecutionResult.status res = ExecutionStatus.FAILED
         /\ OrderExecutor.ExecutionResult.error res = Some m
         /\ OrderExecutor.ExecutionResult.order_results res = []
       | Value price =>
         exists side limit reduce_only,
           OrderExecutor.calls s'
           = OrderExecutor.CallPlace trading_pair side LIMIT rounded (Some limit) IOC
                                     reduce_only
                                     (OrderExecutor.order_answer ex (OrderExecutor.n_order s))
               :: OrderExecutor.CallTicker asked (Value price) :: OrderExecutor.calls s
           /\ (0 <= slippage -> 0 <= price ->
               (side = SELL -> limit <= price) /\ (side = BUY -> price <= limit))
       end
    /\ (PositionDelta.symbol delta ∈ ["SOL"; "ETH"; "BTC"] -> asked = trading_pair).
Proof.
  cbv zeta. intros Hnz.
  assert (Hasked : PositionDelta.symbol delta ∈ ["SOL"; "ETH"; "BTC"] ->
                   _get_trading_pair
                     (remove_USDT (_get_trading_pair (PositionDelta.symbol delta)))
                   = _get_trading_pair (PositionDelta.symbol delta)).
  { intros Hin. repeat (apply elem_of_cons in Hin as [->|Hin]; [reflexivity|]).
    now apply elem_of_nil in Hin. }
  unfold OrderExecutor.execute_delta, OrderExecutor.exec_bind.
  destruct (Decimal.gtb (PositionDelta.delta delta) 0);
    unfold OrderExecutor._open_short, OrderExecutor._close_short;
    rewrite Hnz;
    unfold OrderExecutor.exec_bind, OrderExecutor._get_current_price,
      OrderExecutor.client_get_ticker_price;
    destruct (OrderExecutor.ticker_answer ex (OrderExecutor.n_ticker s)) as [price|m];
    cbn [OrderExecutor.client_place_order OrderExecutor.exec_ret];
    try (do 2 eexists; split; [reflexivity|]; split; [|exact Hasked];
         now repeat split).
  - cbn [OrderExecutor.n_order OrderExecutor.calls OrderExecutor.maker_world
           OrderExecutor.n_ticker OrderExecutor.n_positions].
    destruct (OrderExecutor.order_answer ex (OrderExecutor.n_order s)) as [result|e] eqn:Ha;
      [destruct (OrderExecutor.success result);
       [destruct (match OrderExecutor.order_id result with
                  | Some id => String.eqb id "SKIPPED"
                  | None => false
                  end)|]|];
      do 2 eexists; (split; [reflexivity|]); (split; [|exact Hasked]);
        exists SELL; eexists; exists false; (split; [reflexivity|]);
          intros Hs Hp; (split; [intros _|discriminate]); nra.
  - cbn [OrderExecutor.n_order OrderExecutor.calls OrderExecutor.maker_world
           OrderExecutor.n_ticker OrderExecutor.n_positions].
    destruct (OrderExecutor.order_answer ex (OrderExecutor.n_order s)) as [result|e] eqn:Ha;
      [destruct (OrderExecutor.success result);
       [destruct (match OrderExecutor.order_id result with
                  | Some id => String.eqb id "SKIPPED"
                  | None => false
                  end)|]|];
      do 2 eexists; (split; [reflexivity|]); (split; [|exact Hasked]);
        exists BUY; eexists; exists true; (split; [reflexivity|]);
          intros Hs Hp; (split; [discriminate|intros _]); nra.
Qed.

End Market.
Lemma market_delta_order_witness :
  exists r s' a,
    OrderExecutor.execute_delta (1 # 1000) true false default_config (fun _ => 200)
                                (fills_market 2) 0 buy_back_two_sol OrderExecutor.fresh_state
    = Some (r, s')
    /\ OrderExecutor.calls s'
       = [OrderExecutor.CallPlace "SOLUSDT" BUY MARKET (200 # 100) None GTC true a]
    /\ Forall (delta_call_ok true buy_back_two_sol) (OrderExecutor.calls s').
Proof.
  assert (Hrun : exists r s' a,
             OrderExecutor.execute_delta (1 # 1000) true false default_config (fun _ => 200)
                                         (fills_market 2) 0 buy_back_two_sol
                                         OrderExecutor.fresh_state
             = Some (r, s')
             /\ OrderExecutor.calls s'
                = [OrderExecutor.CallPlace "SOLUSDT" BUY MARKET (200 # 100) None GTC true a])
    by (do 3 eexists; split; vm_compute; reflexivity).
  destruct Hrun as (r & s' & a & Hrun & Hcalls). exists r, s', a.
  split; [exact Hrun|]. split; [exact Hcalls|].
  destruct (market_delta_order (1 # 1000) true default_config (fun _ => 200) (fills_market 2)
                               0%nat buy_back_two_sol OrderExecutor.fresh_state r s' Hrun)
    as (res & new & _ & Hnew & Hall & _).
  cbn [OrderExecutor.calls OrderExecutor.fresh_state] in Hnew.
  rewrite app_nil_r in Hnew. rewrite Hnew. exact Hall.
Defined.

Lemma maker_mode_delta_witness :
  exists res s',
    OrderExecutor.execute_delta (1 # 1000) true true default_config (fun _ => 200)
                                (fills_market 2) 20 tiny_delta OrderExecutor.fresh_state
    = Some (Value res, s')
    /\ OrderExecutor.ExecutionResult.status res = ExecutionStatus.SKIPPED
    /\ OrderExecutor.ExecutionResult.symbol res = "SOL".
Proof.
  assert (Hrun : exists r s',
             OrderExecutor.execute_delta (1 # 1000) true true default_config (fun _ => 200)
                                         (fills_market 2) 20 tiny_delta
                                         OrderExecutor.fresh_state
             = Some (r, s'))
    by (do 2 eexists; vm_compute; reflexivity).
  destruct Hrun as (r & s' & Hrun).
  destruct (maker_mode_delta (1 # 1000) true default_config (fun _ => 200) (fills_market 2)
                             20%nat tiny_delta OrderExecutor.fresh_state r s' Hrun)
    as (res & mres & -> & _ & _ & Hsym & _ & _ & Hst & _).
  exists res, s'. split; [exact Hrun|]. split; [|exact Hsym].
  apply Hst. vm_compute. reflexivity.
Defined.
Lemma limit_delta_calls_witness :
  exists res s' limit a,
    OrderExecutor.execute_delta (1 # 1000) false false default_config (fun _ => 200)
                                (fills_market 2) 0 buy_back_two_sol OrderExecutor.fresh_state
    = Some (Value res, s')
    /\ OrderExecutor.calls s'
       = [OrderExecutor.CallPlace "SOLUSDT" BUY LIMIT (200 # 100) (Some limit) IOC true a;
          OrderExecutor.CallTicker "SOLUSDT" (Value 100)]
    /\ limit == 1001 # 10.
Proof.
  destruct (limit_delta_calls (1 # 1000) default_config (fun _ => 200) (fills_market 2)
                              0%nat buy_back_two_sol OrderExecutor.fresh_state eq_refl)
    as (res & s' & Hrun & Hcalls & _).
  exists res, s'. do 2 eexists. split; [exact Hrun|].
  revert Hrun. vm_compute. intros [= <- <-]. split; reflexivity.
Defined.


(** ** The maker loop ends *)

Lemma returns_bind {A B} (R1 R2 R : nat -> nat -> Prop) (m : M A) (k : A -> M B) (w : World) :
  (forall a b c, R1 a b -> R2 b c -> R a c) ->
  returns R1 m w ->
  (forall a w1, m w = Some (a, w1) -> R1 (n_clock w) (n_clock w1) -> returns R2 (k a) w1) ->
  returns R (bind m k) w.
Proof.
  intros Htrans (a & w1 & Hm & H1) Hk.
  destruct (Hk a w1 Hm H1) as (b & w2 & Hkb & H2).
  exists b, w2. unfold bind. rewrite Hm. split; [exact Hkb | eauto].
Qed.

Lemma returns_ret {A} (R : nat -> nat -> Prop) (a : A) (w : World) :
  (forall n, R n n) -> returns R (ret a) w.
Proof. intros Hrefl. exists a, w. split; [reflexivity | apply Hrefl]. Qed.

Lemma returns_weaken {A} (R1 R2 : nat -> nat -> Prop) (m : M A) (w : World) :
  (forall a b, R1 a b -> R2 a b) -> returns R1 m w -> returns R2 m w.
Proof. intros H (a & w' & Hm & HR). exists a, w'. split; [exact Hm | now apply H]. Qed.

Section Termination.

Variable config : MakerOrderConfig.
Variable gw : Gateway.
Variable trading_pair : string.
Variable side : OrderSide.
Variable reduce_only : bool.
Variable tick : Q.
Hypothesis tick_positive : 0 < tick.
Hypothesis clock_ok : clock_advances gw tick.

Lemma clock_later (n k : nat) : clock gw n + inject_Z (Z.of_nat k) * tick <= clock gw (n + k).
Proof.
  induction k as [|k IH].
  - rewrite Nat.add_0_r. change (inject_Z (Z.of_nat 0)) with 0. lra.
  - rewrite Nat.add_succ_r. pose proof (clock_ok (n + k)%nat) as Hs.
    rewrite Nat2Z.inj_succ. unfold Z.succ. rewrite inject_Z_plus.
    change (inject_Z 1) with 1. lra.
Qed.

Lemma clock_monotone (n m : nat) : (n <= m)%nat -> clock gw n <= clock gw m.
Proof.
  intros Hle. pose proof (clock_later n (m - n)) as H.
  replace (n + (m - n))%nat with m in H by lia.
  assert (0 <= inject_Z (Z.of_nat (m - n)) * tick).
  { apply Qmult_le_0_compat; [|lra]. change 0 with (inject_Z 0). rewrite <- Zle_Qle. lia. }
  lra.
Qed.

Lemma time_time_returns (w : World) :
  time_time gw w = Some (clock gw (n_clock w),
                         {| n_clock := S (n_clock w); n_depth := n_depth w;
                            n_get_order := n_get_order w; n_place := n_place w;
                            n_cancel := n_cancel w; trace := trace w |}).
Proof. reflexivity. Qed.

Lemma sleep_returns (seconds : Q) (w : World) : returns eq (sleep seconds) w.
Proof. do 2 eexists. split; reflexivity. Qed.

Lemma get_orderbook_returns (w : World) : returns eq (_get_orderbook gw) w.
Proof.
  unfold returns, _get_orderbook, bind, client_get_depth. cbv beta zeta.
  destruct (get_depth gw (n_depth w)) as [d|e]; [|do 2 eexists; split; reflexivity].
  destruct (bids d) as [|[bid1 ?] ?]; [do 2 eexists; split; reflexivity|].
  destruct (asks d) as [|[ask1 ?] ?]; do 2 eexists; split; reflexivity.
Qed.

Lemma get_order_status_returns (id : option string) (w : World) :
  returns eq (_get_order_status gw id) w.
Proof.
  unfold returns, _get_order_status, bind, client_get_order. cbv beta zeta.
  destruct id as [s|]; [destruct (String.eqb s "")|]; try (do 2 eexists; split; reflexivity).
  destruct (get_order gw (n_get_order w)) as [status filled|[|]];
    do 2 eexists; split; reflexivity.
Qed.

Lemma cancel_order_returns (id : option string) (w : World) :
  returns eq (client_cancel_order gw id) w.
Proof.
  unfold returns, client_cancel_order. cbv beta zeta.
  destruct id as [s|]; [destruct (String.eqb s "")|]; do 2 eexists; split; reflexivity.
Qed.

Lemma place_maker_order_returns (sd : OrderSide) (quantity price : Q) (ro : bool) (w : World) :
  returns eq (_place_maker_order gw sd quantity price ro) w.
Proof. do 2 eexists. split; reflexivity. Qed.

Lemma eq_trans_nat (a b c : nat) : a = b -> b = c -> a = c.
Proof. congruence. Qed.

Lemma after_failed_cancel_returns (st : LoopState) (w : World) :
  returns eq (after_failed_cancel gw st) w.
Proof.
  unfold after_failed_cancel.
  eapply returns_bind; [exact eq_trans_nat | apply get_order_status_returns|].
  intros [status2 filled2] w1 _ _. now apply returns_ret.
Qed.

Lemma replace_check_returns (best_price : Q) (st : LoopState) (w : World) :
  returns eq (replace_check config gw side best_price st) w.
Proof.
  unfold replace_check.
  destruct (truthy (current_order_id st)); [|now apply returns_ret].
  destruct (_should_replace_order config side (current_order_price st) best_price)
    as [[|] reason]; [|now apply returns_ret].
  eapply returns_bind; [exact eq_trans_nat | apply get_order_status_returns|].
  intros [status filled] w1 _ _.
  destruct (status_in status _); [now apply returns_ret|].
  destruct (String.eqb status "NOT_FOUND"); [now apply returns_ret|].
  eapply returns_bind; [exact eq_trans_nat | apply cancel_order_returns|].
  intros [[|]|e] w2 _ _; try (now apply returns_ret). apply after_failed_cancel_returns.
Qed.

Lemma place_if_none_returns (best_price rounded_remaining : Q) (st : LoopState) (w : World) :
  returns eq (place_if_none gw side reduce_only best_price rounded_remaining st) w.
Proof.
  unfold place_if_none.
  destruct (current_order_id st); [now apply returns_ret|].
  eapply returns_bind; [exact eq_trans_nat | apply place_maker_order_returns|].
  intros [r|e] w1 _ _; [|now apply returns_ret].
  destruct (success r).
  - destruct (status r) as [s|]; [|now apply returns_ret].
    destruct (String.eqb s "REJECTED"); [|now apply returns_ret].
    eapply returns_bind; [exact eq_trans_nat | apply sleep_returns|].
    intros _ w2 _ _. now apply returns_ret.
  - eapply returns_bind; [exact eq_trans_nat | apply sleep_returns|].
    intros _ w2 _ _. now apply returns_ret.
Qed.

Lemma time_time_reads (w : World) : returns (fun a b => b = S a) (time_time gw) w.
Proof. do 2 eexists. split; reflexivity. Qed.

Lemma timeout_replace_returns (order_start : Q) (st : LoopState) (w : World) :
  returns le (timeout_replace config gw order_start st) w.
Proof.
  unfold timeout_replace.
  destruct (truthy (current_order_id st)); [|apply returns_ret; lia].
  eapply (returns_bind (fun a b => b = S a) eq le); [lia | apply time_time_reads|].
  intros now w1 _ _.
  destruct (Decimal.geb _ _); [|now apply returns_ret].
  eapply returns_bind; [exact eq_trans_nat | apply get_order_status_returns|].
  intros [status filled] w2 _ _.
  destruct (String.eqb status "NOT_FOUND"); [now apply returns_ret|].
  destruct (String.eqb status "FILLED"); [now apply returns_ret|].
  eapply returns_bind; [exact eq_trans_nat | apply cancel_order_returns|].
  intros [[|]|e] w3 _ _; try (now apply returns_ret). apply after_failed_cancel_returns.
Qed.

(** The wait window ends once the order timeout has passed: at most
    [order_timeout / tick] more readings of the clock. *)
Lemma wait_window_returns (fuel : nat) :
  forall order_start st w,
    (1 <= fuel)%nat ->
    order_timeout config - (clock gw (n_clock w) - order_start)
    <= (inject_Z (Z.of_nat fuel) - 1) * tick ->
    returns le (wait_window config gw side fuel order_start st) w.
Proof.
  induction fuel as [|fuel IH]; intros order_start st w Hfuel Hleft; [lia|].
  cbn [wait_window].
  eapply (returns_bind (fun a b => b = S a) le le); [lia | apply time_time_reads|].
  intros now w1 Hnow Hw1. rewrite time_time_returns in Hnow. injection Hnow as <- _.
  destruct (Decimal.ltb _ _) eqn:Hwait; [|apply returns_ret; lia].
  apply ltb_lt in Hwait.
  rewrite Nat2Z.inj_succ in Hleft. unfold Z.succ in Hleft. rewrite inject_Z_plus in Hleft.
  change (inject_Z 1) with 1 in Hleft.
  assert (Hf : (1 <= fuel)%nat).
  { destruct fuel; [|lia]. change (inject_Z (Z.of_nat 0)) with 0 in Hleft. lra. }
  assert (Hrec : forall w2, n_clock w2 = n_clock w1 ->
                            returns le (wait_window config gw side fuel order_start st) w2).
  { intros w2 Hw2. apply IH; [exact Hf|]. rewrite Hw2, Hw1.
    pose proof (clock_ok (n_clock w)). lra. }
  eapply (returns_bind eq le le); [lia | apply sleep_returns|].
  intros _ w2 _ Hw2.
  eapply (returns_bind eq le le); [lia | apply get_order_status_returns|].
  intros [status filled] w3 _ Hw3.
  destruct (String.eqb status "FILLED"); [apply returns_ret; lia|].
  destruct (status_in status _); [apply returns_ret; lia|].
  destruct (String.eqb status "NOT_FOUND"); [apply returns_ret; lia|].
  destruct (String.eqb status "PARTIALLY_FILLED"); [|apply Hrec; congruence].
  eapply (returns_bind eq le le); [lia | apply get_orderbook_returns|].
  intros [[new_bid1 new_ask1]|e] w4 _ Hw4; [|apply Hrec; congruence].
  destruct (fst _); [apply returns_ret; lia | apply Hrec; congruence].
Qed.

(** One pass of the loop returns, after at least one reading of the clock,
    and it leaves the loop when the total timeout has passed. *)
Lemma loop_body_returns (fuel : nat) (start_time : Q) (st : LoopState) (w : World) :
  (clock gw (n_clock w) - start_time <= total_timeout config ->
   (1 <= fuel)%nat /\ order_timeout config <= inject_Z (Z.of_nat fuel) * tick) ->
  exists flow w',
    loop_body config gw trading_pair side reduce_only fuel start_time st w = Some (flow, w')
    /\ (n_clock w < n_clock w')%nat
    /\ (total_timeout config < clock gw (n_clock w) - start_time -> flow = Break st).
Proof.
  intros Hfuel. unfold loop_body. unfold bind at 1. rewrite time_time_returns.
  destruct (Decimal.gtb _ _) eqn:Hover.
  { do 2 eexists. split; [reflexivity|]. split; [cbn; lia | reflexivity]. }
  apply gtb_le in Hover. destruct (Hfuel Hover) as (Hone & Hwait).
  match goal with
  | |- exists flow w', ?m ?w1 = _ /\ _ =>
    assert (Hrest : returns le m w1); [|destruct Hrest as (flow & w' & Hrun & Hle)]
  end.
  2:{ exists flow, w'. split; [exact Hrun|]. split; [cbn in Hle; lia | intros H; lra]. }
  eapply (returns_bind eq le le); [lia | apply get_orderbook_returns|].
  intros [[bid1 ask1]|e] w2 _ _.
  2:{ eapply (returns_bind eq le le); [lia | apply sleep_returns|].
      intros _ w3 _ _. apply returns_ret; lia. }
  eapply (returns_bind eq le le); [lia | apply replace_check_returns|].
  intros [st1|st1|st1|st1 e] w3 _ _; try (apply returns_ret; lia).
  destruct (Decimal.eqb _ 0); [apply returns_ret; lia|].
  eapply (returns_bind eq le le); [lia | apply place_if_none_returns|].
  intros [st2|st2|st2|st2 e] w4 _ _; try (apply returns_ret; lia).
  eapply (returns_bind (fun a b => b = S a) le le); [lia | apply time_time_reads|].
  intros order_start w5 Hstart Hw5. rewrite time_time_returns in Hstart.
  injection Hstart as <- _.
  eapply (returns_bind le le le); [lia| |].
  - apply wait_window_returns; [exact Hone|]. rewrite Hw5.
    pose proof (clock_ok (n_clock w4)). lra.
  - intros st3 w6 _ _. apply timeout_replace_returns.
Qed.

(** The loop returns when the fuel covers the total timeout and one order
    timeout, counted in ticks of the clock. *)
Lemma maker_loop_returns (fuel : nat) :
  forall start_time st w,
    0 <= order_timeout config ->
    total_timeout config - (clock gw (n_clock w) - start_time)
    + order_timeout config + 2 * tick
    <= inject_Z (Z.of_nat fuel) * tick ->
    (1 <= fuel)%nat ->
    exists r w',
      maker_loop config gw trading_pair side reduce_only fuel start_time st w = Some (r, w').
Proof.
  induction fuel as [|fuel IH]; intros start_time st w Horder Hleft Hfuel; [lia|].
  cbn [maker_loop].
  destruct (_ && _); [|do 2 eexists; reflexivity].
  rewrite Nat2Z.inj_succ in Hleft. unfold Z.succ in Hleft. rewrite inject_Z_plus in Hleft.
  change (inject_Z 1) with 1 in Hleft.
  assert (Hin : clock gw (n_clock w) - start_time <= total_timeout config ->
                (1 <= fuel)%nat /\ order_timeout config <= inject_Z (Z.of_nat fuel) * tick).
  { intros Hwithin. split; [|lra].
    destruct fuel; [|lia]. change (inject_Z (Z.of_nat 0)) with 0 in Hleft. lra. }
  destruct (loop_body_returns fuel start_time st w Hin) as (flow & w1 & Hbody & Hlt & Hbreak).
  unfold bind. rewrite Hbody.
  assert (Hnext : forall st', flow <> Break st ->
                              exists r w',
                                maker_loop config gw trading_pair side reduce_only fuel
                                           start_time st' w1 = Some (r, w')).
  { intros st' Hflow.
    assert (Hwithin : clock gw (n_clock w) - start_time <= total_timeout config).
    { destruct (Qlt_le_dec (total_timeout config) (clock gw (n_clock w) - start_time))
        as [H|H]; [|exact H]. now apply Hbreak in H. }
    destruct (Hin Hwithin) as (Hone & _).
    apply IH; [exact Horder| |exact Hone].
    pose proof (clock_monotone (S (n_clock w)) (n_clock w1) Hlt).
    pose proof (clock_ok (n_clock w)). lra. }
  destruct flow as [st'|st'|st'|st' e]; try (apply Hnext; discriminate);
    do 2 eexists; reflexivity.
Qed.

Lemma fuel_at_least_one (fuel : nat) (x : Q) :
  0 <= x -> x + tick <= inject_Z (Z.of_nat fuel) * tick -> (1 <= fuel)%nat.
Proof.
  intros Hx Hle. destruct fuel; [|lia]. change (inject_Z (Z.of_nat 0)) with 0 in Hle. lra.
Qed.

Lemma clip_returns (target : Q) (fuel : nat) (w : World) :
  0 <= order_timeout config ->
  0 <= total_timeout config ->
  total_timeout config + order_timeout config + tick <= inject_Z (Z.of_nat fuel) * tick ->
  exists res w',
    _execute_maker_loop config gw trading_pair side target reduce_only fuel w
    = Some (Value res, w').
Proof.
  intros Horder Htotal Hfuel. unfold _execute_maker_loop.
  unfold bind at 1. rewrite time_time_returns. unfold bind at 1.
  match goal with
  | |- context [maker_loop _ _ _ _ _ _ ?t ?st ?w0] =>
    destruct (maker_loop_returns fuel t st w0 Horder) as ([st' raised] & w1 & Hloop)
  end.
  - cbn [n_clock]. pose proof (clock_ok (n_clock w)). lra.
  - apply (fuel_at_least_one fuel (total_timeout config + order_timeout config));
      [lra | exact Hfuel].
  - rewrite Hloop. destruct raised as [e|].
    + destruct (on_exception_total gw trading_pair target (clock gw (n_clock w)) st' e w1)
        as (res & w' & Hrun & _). eauto.
    + destruct (on_completion_total config gw trading_pair target (clock gw (n_clock w)) st' w1)
        as (res & w' & Hrun & _). eauto.
Qed.

(** X23.  [_execute_maker_loop] ends: when every reading of the clock is at
    least [tick > 0] later than the one before, the loop returns a result
    within a number of passes that covers the total timeout and one order
    timeout, counted in ticks, whatever the exchange answers. *)
Theorem execute_maker_loop_terminates (target : Q) (fuel : nat) (w : World) :
  0 <= order_timeout config ->
  0 <= total_timeout config ->
  total_timeout config + order_timeout config + tick <= inject_Z (Z.of_nat fuel) * tick ->
  exists res w',
    _execute_maker_loop config gw trading_pair side target reduce_only fuel w
    = Some (Value res, w').
Proof.
  intros Horder Htotal Hfuel.
  destruct (clip_returns target fuel w Horder Htotal Hfuel) as (res & w' & Hrun).
  exists res, w'. exact Hrun.
Qed.


End Termination.


Section DeltaTermination.

Variable config : MakerOrderConfig.
Variable gw : Gateway.
Variable draws : nat -> Q.
Variable tick : Q.
Hypothesis tick_positive : 0 < tick.
Hypothesis clock_ok : clock_advances gw tick.
Hypothesis order_timeout_ok : 0 <= order_timeout config.
Hypothesis total_timeout_ok : 0 <= total_timeout config.





End DeltaTermination.

Lemma never_fills_clock : clock_advances never_fills 3.
Proof.
  intros n. cbn [clock never_fills]. rewrite Nat2Z.inj_succ. unfold Z.succ.
  rewrite inject_Z_plus. change (inject_Z 1) with 1. lra.
Qed.

Lemma execute_maker_loop_terminates_witness :
  exists res w',
    _execute_maker_loop default_config never_fills "SOLUSDT" SELL 1 false 203 fresh_world
    = Some (Value res, w').
Proof.
  apply (execute_maker_loop_terminates default_config never_fills "SOLUSDT" SELL false 3).
  - reflexivity.
  - exact never_fills_clock.
  - discriminate.
  - discriminate.
  - vm_compute. discriminate.
Defined.




(** ** Market orders and the answer of the exchange *)

Section MarketAnswer.

Variable slippage : Q.
Variable maker_config : MakerOrderConfig.
Variable draws : nat -> Q.
Variable ex : OrderExecutor.Exchange.

(** X26.  What a market order's answer does to the result of
    [execute_delta] (market mode, delta not rounding to 0).  An
    acknowledgement with [executedQty] 0 counts as filled for the whole
    [origQty]: the result reports [origQty] as filled, with [SUCCESS] when
    that is at least 95% of [|delta|].  An [AsterDexError] gives [FAILED] with
    its message and the failed order in the order list; any other exception
    gives [FAILED] with its message and an empty order list. *)
Theorem market_answer_outcome (fuel : nat) (delta : PositionDelta.t)
        (s : OrderExecutor.State) (response : OrderResponse) :
  let quantity := Qabs (PositionDelta.delta delta) in
  Decimal.eqb (_round_quantity (_get_trading_pair (PositionDelta.symbol delta)) quantity) 0
  = false ->
  OrderExecutor.order_answer ex (OrderExecutor.n_order s)
  = place_order_result MARKET response ->
  exists res s',
    OrderExecutor.execute_delta slippage true false maker_config draws ex fuel delta s
    = Some (Value res, s')
    /\ match response with
       | OrderAck orderId _ orig_qty exec_qty =>
         orderId <> "SKIPPED" ->
         OrderExecutor.ExecutionResult.filled_quantity res
         == (if Decimal.eqb exec_qty 0 then orig_qty else exec_qty)
         /\ (OrderExecutor.ExecutionResult.status res = ExecutionStatus.SUCCESS
             <-> quantity * (95 # 100) <= (if Decimal.eqb exec_qty 0 then orig_qty else exec_qty))
         /\ (OrderExecutor.ExecutionResult.status res = ExecutionStatus.SUCCESS
             \/ OrderExecutor.ExecutionResult.status res = ExecutionStatus.PARTIAL)
       | ApiError message =>
         OrderExecutor.ExecutionResult.status res = ExecutionStatus.FAILED
         /\ OrderExecutor.ExecutionResult.error res = Some message
         /\ OrderExecutor.ExecutionResult.filled_quantity res = 0
         /\ length (OrderExecutor.ExecutionResult.order_results res) = 1%nat
       | OtherError message =>
         OrderExecutor.ExecutionResult.status res = ExecutionStatus.FAILED
         /\ OrderExecutor.ExecutionResult.error res = Some message
         /\ OrderExecutor.ExecutionResult.filled_quantity res = 0
         /\ OrderExecutor.ExecutionResult.order_results res = []
       end.
Proof.
  cbv zeta. intros Hnz Hanswer.
  unfold OrderExecutor.execute_delta, OrderExecutor.exec_bind.
  assert (Hor : forall q, OrderExecutor.or_zero (Some q) == q).
  { intros q. unfold OrderExecutor.or_zero. destruct (Decimal.eqb q 0) eqn:Hq; [|reflexivity].
    apply eqb_eq in Hq. symmetry. exact Hq. }
  destruct (Decimal.gtb (PositionDelta.delta delta) 0);
    unfold OrderExecutor._open_short, OrderExecutor._close_short;
    rewrite Hnz; unfold OrderExecutor.client_place_order; cbv beta zeta;
    rewrite Hanswer;
    (destruct response as [orderId sym orig_qty exec_qty|message|message];
     cbn [place_order_result OrderExecutor.success OrderExecutor.order_id
                             OrderExecutor.filled_quantity OrderExecutor.error andb];
     [|do 2 eexists; split; [reflexivity|]; now repeat split
      |do 2 eexists; split; [reflexivity|]; now repeat split]);
    (destruct (String.eqb_spec orderId "SKIPPED") as [->|Hid];
     [do 2 eexists; split; [reflexivity|]; intros H; now contradiction H|]);
    (match goal with
     | |- context [Decimal.geb ?f ?q] => destruct (Decimal.geb f q) eqn:Hfill
     end;
     do 2 eexists; (split; [reflexivity|]); intros _;
     cbn [OrderExecutor.ExecutionResult.filled_quantity OrderExecutor.ExecutionResult.status];
     (split; [apply Hor|]);
     [apply geb_ge in Hfill; rewrite Hor in Hfill;
      split; [split; [intros _; exact Hfill | reflexivity] | now left]
     |apply geb_lt in Hfill; rewrite Hor in Hfill;
      split; [split; [discriminate | intros H; lra] | now right]]).
Qed.

End MarketAnswer.

Lemma market_answer_outcome_witness :
  exists res s',
    OrderExecutor.execute_delta (1 # 1000) true false default_config (fun _ => 200)
                                acknowledges_only 0 buy_back_two_sol OrderExecutor.fresh_state
    = Some (Value res, s')
    /\ OrderExecutor.ExecutionResult.status res = ExecutionStatus.SUCCESS
    /\ OrderExecutor.ExecutionResult.filled_quantity res == 2.
Proof.
  destruct (market_answer_outcome (1 # 1000) default_config (fun _ => 200) acknowledges_only
                                  0%nat buy_back_two_sol OrderExecutor.fresh_state
                                  (OrderAck "7" (Some "SOLUSDT") 2 0) eq_refl eq_refl)
    as (res & s' & Hrun & Hres).
  exists res, s'. split; [exact Hrun|].
  destruct Hres as (Hfilled & Hstatus & _); [discriminate|].
  split; [apply Hstatus; vm_compute; discriminate | exact Hfilled].
Defined.


(** ** The fill bound of a clip *)



(** ** A cancel that fails while the order is still open *)


(** ** The sum of the clips *)

(** C7, as amended.  For every input quantity that is a whole number of
    quantity steps, every positive price, every configuration and every
    outcome of the draws, the clips [_split_order] returns add up to no more
    than the input. *)
Theorem split_order_within_grid_input config draws trading_pair (price quantity : Q)
        (fuel : nat) (clips : list Q) :
  0 < price ->
  on_grid trading_pair quantity ->
  _split_order config draws trading_pair price fuel quantity = Some (Value clips) ->
  Qsum clips <= quantity.
Proof.
  intros Hprice Hgrid.
  destruct (Qlt_le_dec quantity 0) as [Hneg|Hpos].
  - unfold _split_order.
    assert (Hone : Qsum [quantity] <= quantity) by (cbn; lra).
    destruct (negb (split_order_enabled config)); [intros [= <-]; exact Hone|].
    destruct (Decimal.ltb _ _); [intros [= <-]; exact Hone|].
    destruct fuel as [|fuel]; [discriminate|]. cbn [split_loop].
    assert (Hz : Decimal.gtb (quantity * price) 0 = false).
    { apply gtb_le. assert (0 <= - quantity * price) by (apply Qmult_le_0_compat; lra). lra. }
    rewrite Hz. intros [= <-]. exact Hone.
  - now apply (split_order_within_input config draws trading_pair price quantity Hprice fuel).
Qed.

Lemma split_order_within_grid_input_witness :
  exists clips,
    _split_order default_config (fun _ => 200) "SOLUSDT" 100 20 (1001 # 100)
    = Some (Value clips)
    /\ Qsum clips <= 1001 # 100.
Proof.
  assert (Hrun : exists clips,
             _split_order default_config (fun _ => 200) "SOLUSDT" 100 20 (1001 # 100)
             = Some (Value clips)) by (eexists; vm_compute; reflexivity).
  destruct Hrun as (clips & Hrun). exists clips. split; [exact Hrun|].
  apply (split_order_within_grid_input default_config (fun _ => 200) "SOLUSDT" 100
                                       (1001 # 100) 20%nat clips).
  - reflexivity.
  - exists 1001%Z. vm_compute. reflexivity.
  - exact Hrun.
Defined.
